(** * Weather Reporter: control loop, button handling and screen rendering

    A shallow embedding of the firmware in [main.cpp] (the sprite based
    revision), [types.h] and [helpers.h].

    - [Helpers]  : [degToCompass] and [isDaytime] of helpers.h.
    - globals    : the global variables of main.cpp as one record, one
                   setter per variable that some statement assigns.
    - [handleButtons], [loop], [setup] : the control flow, as functions from
                   the sampled inputs of one pass and the globals to the new
                   globals and the list of outward calls made.
    - [Render]   : the four weather screens as lists of drawing calls.
    - [HelpersText] : [getOrdinalSuffix], the UV bands and
                   [drawWrappedString] of helpers.h.
    - [Chrome]   : [drawHeader], [drawFooter] and [drawScreenIndicator].
    - [WiFi]     : [connectToWiFi].

    Time. [millis()] is an [unsigned long] (32 bits on the ESP32) and every
    comparison in the source has the shape [millis() - last >= PERIOD], so
    only differences modulo 2^32 are ever observed; [elapsed] is that
    difference.  One pass of [loop()] is modelled with two clock samples:
    [now] for the readings of [millis()] up to the test of the refresh
    timer, which differ only by the time the drawing calls take, and
    [nowLate] for the readings after the refresh block, which come after the
    blocking fetch and the redraw when the pass refreshes. *)

From Stdlib Require Import ZArith List Bool String Lia.
From Stdlib Require Import Ascii DecimalString SpecFloat.
Import ListNotations.
Local Open Scope Z_scope.

(* ------------------------------------------------------------------ *)
(** ** helpers.h *)

Module Helpers.

Definition dirs : list string :=
  ["N"; "NNE"; "NE"; "ENE"; "E"; "ESE"; "SE"; "SSE";
   "S"; "SSW"; "SW"; "WSW"; "W"; "WNW"; "NW"; "NNW"]%string.

(** [int index = ((deg + 11) / 22) % 16;] with C's truncating division
    and remainder. *)
Definition compassIndex (deg : Z) : Z := Z.rem (Z.quot (deg + 11) 22) 16.

(** [dirs[index]]: [None] stands for a read outside the 16 entries. *)
Definition degToCompass (deg : Z) : option string :=
  let index := compassIndex deg in
  if (0 <=? index) && (index <? 16) then nth_error dirs (Z.to_nat index)
  else None.

(** [isDaytime()]: [unixNow] is [time(NULL)]. *)
Definition isDaytime (unixNow sunrise sunset : Z) : bool :=
  if unixNow <? 1000000000 then true
  else (sunrise <=? unixNow) && (unixNow <? sunset).

End Helpers.

(* ------------------------------------------------------------------ *)
(** ** types.h *)

(** A [float] is carried as its IEEE-754 bit pattern; nothing below
    computes with it. *)
Definition float := Z.

Record HourlyData := {
  h_temperature : float;
  h_weatherCode : Z;
  h_hour : Z
}.

Record DailyData := {
  d_tempMin : float;
  d_tempMax : float;
  d_weatherCode : Z;
  d_dayName : string;
  d_pop : Z;
  d_summary : string
}.

Record WeatherData := {
  temperature : float;
  apparent_temp : float;
  humidity : Z;
  windSpeed : float;
  windDeg : Z;
  windDir : string;
  weatherCode : Z;
  condition : string;
  minutelyRain : list float;
  hasMinutelyData : bool;
  dataValid : bool;
  hourly : list HourlyData;
  hourlyCount : Z;
  daily : list DailyData;
  dailyCount : Z;
  sunrise : Z;
  sunset : Z;
  uvi : float;
  visibility : Z;
  pressure : Z;
  dewPoint : float;
  clouds : Z;
  moonrise : Z;
  moonset : Z;
  moonPhase : float
}.

Definition set_dataValid (b : bool) (w : WeatherData) : WeatherData :=
  {| temperature := temperature w; apparent_temp := apparent_temp w;
     humidity := humidity w; windSpeed := windSpeed w; windDeg := windDeg w;
     windDir := windDir w; weatherCode := weatherCode w;
     condition := condition w; minutelyRain := minutelyRain w;
     hasMinutelyData := hasMinutelyData w; dataValid := b;
     hourly := hourly w; hourlyCount := hourlyCount w;
     daily := daily w; dailyCount := dailyCount w;
     sunrise := sunrise w; sunset := sunset w; uvi := uvi w;
     visibility := visibility w; pressure := pressure w;
     dewPoint := dewPoint w; clouds := clouds w;
     moonrise := moonrise w; moonset := moonset w;
     moonPhase := moonPhase w |}.

(** The zero-initialised global [WeatherData weather;]. *)
Definition zeroWeather : WeatherData :=
  {| temperature := 0; apparent_temp := 0; humidity := 0; windSpeed := 0;
     windDeg := 0; windDir := EmptyString; weatherCode := 0;
     condition := EmptyString; minutelyRain := repeat 0 60;
     hasMinutelyData := false; dataValid := false;
     hourly := []; hourlyCount := 0; daily := []; dailyCount := 0;
     sunrise := 0; sunset := 0; uvi := 0; visibility := 0; pressure := 0;
     dewPoint := 0; clouds := 0; moonrise := 0; moonset := 0;
     moonPhase := 0 |}.

(* ------------------------------------------------------------------ *)
(** ** Globals of main.cpp *)

Inductive Screen :=
| SCREEN_HOURLY
| SCREEN_HOURLY2
| SCREEN_CONDITIONS
| SCREEN_DAILY
| SCREEN_SETTINGS
| SCREEN_ABOUT
| SCREEN_DEMO
| SCREEN_DEMO2
| SCREEN_DEMO3.

Scheme Equality for Screen.

Definition UPDATE_INTERVAL : Z := 300000.
Definition DEBOUNCE_DELAY : Z := 200.
Definition PAGE_SWITCH_INTERVAL : Z := 3000.
Definition COLON_FLASH_INTERVAL : Z := 500.
Definition LONG_PRESS_TIME : Z := 800.

Record Globals := {
  lastUpdate : Z;
  lastButtonPress : Z;
  currentScreen : Screen;
  lastPageSwitch : Z;
  autoSwitch : bool;
  lastColonUpdate : Z;
  colonVisible : bool;
  displayOn : bool;
  skipPush : bool;
  settingsMode : bool;
  selectPressStart : Z;
  selectHeld : bool;
  longPressHandled : bool;
  weather : WeatherData
}.

(** The initialisers of the globals. *)
Definition initialGlobals : Globals :=
  {| lastUpdate := 0; lastButtonPress := 0; currentScreen := SCREEN_HOURLY;
     lastPageSwitch := 0; autoSwitch := false; lastColonUpdate := 0;
     colonVisible := true; displayOn := true; skipPush := false;
     settingsMode := false; selectPressStart := 0; selectHeld := false;
     longPressHandled := false; weather := zeroWeather |}.

(** Assignments.  [autoSwitch] and [skipPush] have no setter: no statement
    of the program assigns them. *)

Definition set_lastUpdate (v : Z) (g : Globals) : Globals :=
  {| lastUpdate := v; lastButtonPress := lastButtonPress g;
     currentScreen := currentScreen g; lastPageSwitch := lastPageSwitch g;
     autoSwitch := autoSwitch g; lastColonUpdate := lastColonUpdate g;
     colonVisible := colonVisible g; displayOn := displayOn g;
     skipPush := skipPush g; settingsMode := settingsMode g;
     selectPressStart := selectPressStart g; selectHeld := selectHeld g;
     longPressHandled := longPressHandled g; weather := weather g |}.

Definition set_lastButtonPress (v : Z) (g : Globals) : Globals :=
  {| lastUpdate := lastUpdate g; lastButtonPress := v;
     currentScreen := currentScreen g; lastPageSwitch := lastPageSwitch g;
     autoSwitch := autoSwitch g; lastColonUpdate := lastColonUpdate g;
     colonVisible := colonVisible g; displayOn := displayOn g;
     skipPush := skipPush g; settingsMode := settingsMode g;
     selectPressStart := selectPressStart g; selectHeld := selectHeld g;
     longPressHandled := longPressHandled g; weather := weather g |}.

Definition set_currentScreen (v : Screen) (g : Globals) : Globals :=
  {| lastUpdate := lastUpdate g; lastButtonPress := lastButtonPress g;
     currentScreen := v; lastPageSwitch := lastPageSwitch g;
     autoSwitch := autoSwitch g; lastColonUpdate := lastColonUpdate g;
     colonVisible := colonVisible g; displayOn := displayOn g;
     skipPush := skipPush g; settingsMode := settingsMode g;
     selectPressStart := selectPressStart g; selectHeld := selectHeld g;
     longPressHandled := longPressHandled g; weather := weather g |}.

Definition set_lastPageSwitch (v : Z) (g : Globals) : Globals :=
  {| lastUpdate := lastUpdate g; lastButtonPress := lastButtonPress g;
     currentScreen := currentScreen g; lastPageSwitch := v;
     autoSwitch := autoSwitch g; lastColonUpdate := lastColonUpdate g;
     colonVisible := colonVisible g; displayOn := displayOn g;
     skipPush := skipPush g; settingsMode := settingsMode g;
     selectPressStart := selectPressStart g; selectHeld := selectHeld g;
     longPressHandled := longPressHandled g; weather := weather g |}.

Definition set_lastColonUpdate (v : Z) (g : Globals) : Globals :=
  {| lastUpdate := lastUpdate g; lastButtonPress := lastButtonPress g;
     currentScreen := currentScreen g; lastPageSwitch := lastPageSwitch g;
     autoSwitch := autoSwitch g; lastColonUpdate := v;
     colonVisible := colonVisible g; displayOn := displayOn g;
     skipPush := skipPush g; settingsMode := settingsMode g;
     selectPressStart := selectPressStart g; selectHeld := selectHeld g;
     longPressHandled := longPressHandled g; weather := weather g |}.

Definition set_colonVisible (v : bool) (g : Globals) : Globals :=
  {| lastUpdate := lastUpdate g; lastButtonPress := lastButtonPress g;
     currentScreen := currentScreen g; lastPageSwitch := lastPageSwitch g;
     autoSwitch := autoSwitch g; lastColonUpdate := lastColonUpdate g;
     colonVisible := v; displayOn := displayOn g;
     skipPush := skipPush g; settingsMode := settingsMode g;
     selectPressStart := selectPressStart g; selectHeld := selectHeld g;
     longPressHandled := longPressHandled g; weather := weather g |}.

Definition set_displayOn (v : bool) (g : Globals) : Globals :=
  {| lastUpdate := lastUpdate g; lastButtonPress := lastButtonPress g;
     currentScreen := currentScreen g; lastPageSwitch := lastPageSwitch g;
     autoSwitch := autoSwitch g; lastColonUpdate := lastColonUpdate g;
     colonVisible := colonVisible g; displayOn := v;
     skipPush := skipPush g; settingsMode := settingsMode g;
     selectPressStart := selectPressStart g; selectHeld := selectHeld g;
     longPressHandled := longPressHandled g; weather := weather g |}.

Definition set_settingsMode (v : bool) (g : Globals) : Globals :=
  {| lastUpdate := lastUpdate g; lastButtonPress := lastButtonPress g;
     currentScreen := currentScreen g; lastPageSwitch := lastPageSwitch g;
     autoSwitch := autoSwitch g; lastColonUpdate := lastColonUpdate g;
     colonVisible := colonVisible g; displayOn := displayOn g;
     skipPush := skipPush g; settingsMode := v;
     selectPressStart := selectPressStart g; selectHeld := selectHeld g;
     longPressHandled := longPressHandled g; weather := weather g |}.

Definition set_selectPressStart (v : Z) (g : Globals) : Globals :=
  {| lastUpdate := lastUpdate g; lastButtonPress := lastButtonPress g;
     currentScreen := currentScreen g; lastPageSwitch := lastPageSwitch g;
     autoSwitch := autoSwitch g; lastColonUpdate := lastColonUpdate g;
     colonVisible := colonVisible g; displayOn := displayOn g;
     skipPush := skipPush g; settingsMode := settingsMode g;
     selectPressStart := v; selectHeld := selectHeld g;
     longPressHandled := longPressHandled g; weather := weather g |}.

Definition set_selectHeld (v : bool) (g : Globals) : Globals :=
  {| lastUpdate := lastUpdate g; lastButtonPress := lastButtonPress g;
     currentScreen := currentScreen g; lastPageSwitch := lastPageSwitch g;
     autoSwitch := autoSwitch g; lastColonUpdate := lastColonUpdate g;
     colonVisible := colonVisible g; displayOn := displayOn g;
     skipPush := skipPush g; settingsMode := settingsMode g;
     selectPressStart := selectPressStart g; selectHeld := v;
     longPressHandled := longPressHandled g; weather := weather g |}.

Definition set_longPressHandled (v : bool) (g : Globals) : Globals :=
  {| lastUpdate := lastUpdate g; lastButtonPress := lastButtonPress g;
     currentScreen := currentScreen g; lastPageSwitch := lastPageSwitch g;
     autoSwitch := autoSwitch g; lastColonUpdate := lastColonUpdate g;
     colonVisible := colonVisible g; displayOn := displayOn g;
     skipPush := skipPush g; settingsMode := settingsMode g;
     selectPressStart := selectPressStart g; selectHeld := selectHeld g;
     longPressHandled := v; weather := weather g |}.

Definition set_weather (v : WeatherData) (g : Globals) : Globals :=
  {| lastUpdate := lastUpdate g; lastButtonPress := lastButtonPress g;
     currentScreen := currentScreen g; lastPageSwitch := lastPageSwitch g;
     autoSwitch := autoSwitch g; lastColonUpdate := lastColonUpdate g;
     colonVisible := colonVisible g; displayOn := displayOn g;
     skipPush := skipPush g; settingsMode := settingsMode g;
     selectPressStart := selectPressStart g; selectHeld := selectHeld g;
     longPressHandled := longPressHandled g; weather := v |}.

(* ------------------------------------------------------------------ *)
(** ** Inputs of one pass and outward calls *)

(** [a - b] on [unsigned long]. *)
Definition elapsed (a b : Z) : Z := (a - b) mod 2 ^ 32.

(** What [fetchOneCallData()] meets: no WiFi, an HTTP status other than 200
    or a JSON error on one side; on the other the decoded document, field by
    field as the function stores it. *)
Inductive FetchOutcome :=
| FetchFailed
| FetchParsed (w : WeatherData).

Definition fetchOneCallData (o : FetchOutcome) (w : WeatherData)
  : WeatherData :=
  match o with
  | FetchFailed => set_dataValid false w
  | FetchParsed w' => set_dataValid true w'
  end.

(** The samples one pass of [loop()] takes: the clock, the three pins
    ([digitalRead(..) == LOW]), [WiFi.status() == WL_CONNECTED], the outcome
    of the fetch should this pass start one, and the clock as it is read
    again once the refresh block is through ([lastUpdate = millis()] after
    [fetchOneCallData()] and the redraw, and the colon test that follows). *)
Record Tick := {
  now : Z;
  leftPressed : bool;
  rightPressed : bool;
  selectPressed : bool;
  wifiConnected : bool;
  fetched : FetchOutcome;
  nowLate : Z
}.

Inductive Effect :=
| ConnectToWiFi
| DisplayScreen (s : Screen)
| SwipeTransition (from to : Screen)   (* calls [displayScreen(to)] *)
| WriteCommand (c : Z)                 (* [tft.writecommand(c)] *)
| FetchOneCallData
| HeaderPush                           (* [drawHeader(); sprite.pushSprite(0, 0);] *)
| Delay (ms : Z).

(** A statement: new globals and the calls made, in order. *)
Definition Stmt := Globals -> Globals * list Effect.

Definition andThen (a b : Stmt) : Stmt :=
  fun g => let (g1, e1) := a g in
           let (g2, e2) := b g1 in (g2, e1 ++ e2).

Notation "a ;; b" := (andThen a b) (at level 61, right associativity).

(* ------------------------------------------------------------------ *)
(** ** handleButtons *)

(** The four [switch] tables of the Left/Right code, [default] included. *)

Definition settingsLeft (s : Screen) : Screen :=
  match s with
  | SCREEN_SETTINGS => SCREEN_ABOUT
  | SCREEN_ABOUT => SCREEN_DEMO
  | SCREEN_DEMO => SCREEN_DEMO2
  | SCREEN_DEMO2 => SCREEN_DEMO3
  | SCREEN_DEMO3 => SCREEN_SETTINGS
  | _ => SCREEN_SETTINGS
  end.

Definition settingsRight (s : Screen) : Screen :=
  match s with
  | SCREEN_SETTINGS => SCREEN_DEMO3
  | SCREEN_ABOUT => SCREEN_SETTINGS
  | SCREEN_DEMO => SCREEN_ABOUT
  | SCREEN_DEMO2 => SCREEN_DEMO
  | SCREEN_DEMO3 => SCREEN_DEMO2
  | _ => SCREEN_SETTINGS
  end.

Definition weatherLeft (s : Screen) : Screen :=
  match s with
  | SCREEN_HOURLY => SCREEN_HOURLY2
  | SCREEN_HOURLY2 => SCREEN_CONDITIONS
  | SCREEN_CONDITIONS => SCREEN_DAILY
  | SCREEN_DAILY => SCREEN_HOURLY
  | _ => SCREEN_HOURLY
  end.

Definition weatherRight (s : Screen) : Screen :=
  match s with
  | SCREEN_HOURLY => SCREEN_DAILY
  | SCREEN_HOURLY2 => SCREEN_HOURLY
  | SCREEN_CONDITIONS => SCREEN_HOURLY2
  | SCREEN_DAILY => SCREEN_CONDITIONS
  | _ => SCREEN_HOURLY
  end.

(** The screen the Left/Right block assigns to [currentScreen]. *)
Definition pressTarget (settings left : bool) (s : Screen) : Screen :=
  if settings then (if left then settingsLeft s else settingsRight s)
  else (if left then weatherLeft s else weatherRight s).

(** The SELECT block either leaves the function through one of its two
    [return] statements or falls through to the Left/Right code. *)
Inductive SelectReturn := LongPress | ShortPress.

Inductive SelectFlow :=
| Returned (r : SelectReturn) (g : Globals) (out : list Effect)
| FellThrough (g : Globals).

Definition handleSelect (t : Tick) (g : Globals) : SelectFlow :=
  if selectPressed t then
    if negb (selectHeld g) && negb (longPressHandled g) then
      FellThrough (set_selectHeld true (set_selectPressStart (now t) g))
    else if selectHeld g
            && (LONG_PRESS_TIME <=? elapsed (now t) (selectPressStart g)) then
      (* Long press detected - toggle settings mode *)
      let g := set_selectHeld false g in
      let g := set_longPressHandled true g in
      let g := set_lastButtonPress (now t) g in
      let g := set_settingsMode (negb (settingsMode g)) g in
      let g := set_currentScreen
                 (if settingsMode g then SCREEN_SETTINGS else SCREEN_HOURLY) g in
      Returned LongPress g [DisplayScreen (currentScreen g)]
    else FellThrough g
  else
    (* SELECT released *)
    if selectHeld g
       && (elapsed (now t) (selectPressStart g) <? LONG_PRESS_TIME) then
      (* Short press - toggle display *)
      let g := set_selectHeld false g in
      let g := set_lastButtonPress (now t) g in
      if negb (displayOn g) then
        let g := set_displayOn true g in
        let g := set_settingsMode false g in
        let g := set_currentScreen SCREEN_HOURLY g in
        Returned ShortPress g
                 [WriteCommand 41 (* 0x29 *); DisplayScreen (currentScreen g)]
      else
        Returned ShortPress (set_displayOn false g)
                 [WriteCommand 40 (* 0x28 *)]
    else FellThrough (set_longPressHandled false (set_selectHeld false g)).

(** The code after the SELECT block. *)
Definition handleLeftRight (t : Tick) : Stmt := fun g =>
  (* Debounce for left/right *)
  if elapsed (now t) (lastButtonPress g) <? DEBOUNCE_DELAY then (g, [])
  else if negb (displayOn g) && (leftPressed t || rightPressed t) then
    (* If display is off, any button turns it on *)
    let g := set_lastButtonPress (now t) g in
    let g := set_displayOn true g in
    let g := set_settingsMode false g in
    let g := set_currentScreen SCREEN_HOURLY g in
    (g, [WriteCommand 41; DisplayScreen (currentScreen g)])
  else if leftPressed t || rightPressed t then
    let g := set_lastButtonPress (now t) g in
    let previousScreen := currentScreen g in
    let g := set_currentScreen
               (pressTarget (settingsMode g) (leftPressed t) (currentScreen g))
               g in
    if Screen_beq (currentScreen g) previousScreen then (g, [])
    else (set_lastPageSwitch (now t) g,
          [SwipeTransition previousScreen (currentScreen g)])
  else (g, []).

Definition handleButtons (t : Tick) : Stmt := fun g =>
  match handleSelect t g with
  | Returned _ g' out => (g', out)
  | FellThrough g' => handleLeftRight t g'
  end.

(* ------------------------------------------------------------------ *)
(** ** loop and setup *)

(** The [switch] of the auto page switch in [loop()]. *)
Definition autoNext (s : Screen) : Screen :=
  match s with
  | SCREEN_HOURLY => SCREEN_HOURLY2
  | SCREEN_HOURLY2 => SCREEN_CONDITIONS
  | SCREEN_CONDITIONS => SCREEN_DAILY
  | SCREEN_DAILY => SCREEN_SETTINGS
  | SCREEN_SETTINGS => SCREEN_ABOUT
  | SCREEN_ABOUT => SCREEN_DEMO
  | SCREEN_DEMO => SCREEN_DEMO2
  | SCREEN_DEMO2 => SCREEN_DEMO3
  | SCREEN_DEMO3 => SCREEN_HOURLY
  end.

Definition reconnect (t : Tick) : Stmt := fun g =>
  if wifiConnected t then (g, []) else (g, [ConnectToWiFi]).

Definition autoPageSwitch (t : Tick) : Stmt := fun g =>
  if autoSwitch g
     && (PAGE_SWITCH_INTERVAL <=? elapsed (now t) (lastPageSwitch g)) then
    let nextScreen := autoNext (currentScreen g) in
    (set_lastPageSwitch (now t) (set_currentScreen nextScreen g),
     [SwipeTransition (currentScreen g) nextScreen])
  else (g, []).

Definition periodicUpdate (t : Tick) : Stmt := fun g =>
  if UPDATE_INTERVAL <=? elapsed (now t) (lastUpdate g) then
    let g := set_weather (fetchOneCallData (fetched t) (weather g)) g in
    (set_lastUpdate (nowLate t) g,
     FetchOneCallData ::
       (if displayOn g then [DisplayScreen (currentScreen g)] else []))
  else (g, []).

(** Screens on which the colon flash redraws the header. *)
Definition showsHeader (s : Screen) : bool :=
  match s with
  | SCREEN_HOURLY | SCREEN_HOURLY2 | SCREEN_CONDITIONS | SCREEN_DAILY => true
  | _ => false
  end.

Definition colonFlash (t : Tick) : Stmt := fun g =>
  if displayOn g
     && (COLON_FLASH_INTERVAL <=? elapsed (nowLate t) (lastColonUpdate g)) then
    let g := set_colonVisible (negb (colonVisible g)) g in
    let g := set_lastColonUpdate (nowLate t) g in
    (g, if showsHeader (currentScreen g) then [HeaderPush] else [])
  else (g, []).

Definition pause : Stmt := fun g => (g, [Delay 50]).

Definition loop (t : Tick) : Stmt :=
  reconnect t ;; handleButtons t ;; autoPageSwitch t ;;
  periodicUpdate t ;; colonFlash t ;; pause.

(** [setup()]: connect, fetch once, draw the hourly screen
    ([displayHourlyForecast()], which is what [displayScreen(SCREEN_HOURLY)]
    calls), remember the time of the fetch. *)
Definition setup (t : Tick) : Globals * list Effect :=
  let g := set_weather (fetchOneCallData (fetched t) (weather initialGlobals))
                       initialGlobals in
  (set_lastUpdate (now t) g,
   [ConnectToWiFi; FetchOneCallData; DisplayScreen SCREEN_HOURLY]).

(** Running the loop over a list of passes. *)
Fixpoint run (ts : list Tick) (g : Globals) : Globals :=
  match ts with
  | [] => g
  | t :: ts' => run ts' (fst (loop t g))
  end.

(** States the firmware can be in between two passes of [loop()]. *)
Inductive reachable : Globals -> Prop :=
| reach_setup : forall t, reachable (fst (setup t))
| reach_loop : forall t g, reachable g -> reachable (fst (loop t g)).

(* ------------------------------------------------------------------ *)
(** ** Rendering of the weather screens *)

Module Render.

Definition COLOR_BG : Z := 0x0000.
Definition COLOR_TEXT : Z := 0xD69A.
Definition COLOR_SUBTLE : Z := 0x8410.
Definition COLOR_DAYTIME : Z := 0xFFDB.
Definition TFT_RED : Z := 0xF800.

Inductive Datum := TL_DATUM | MC_DATUM | ML_DATUM | MR_DATUM.

(** Colours and strings that the source computes from a [float] stay
    symbolic. *)
Inductive Color :=
| Fixed (c : Z)
| TempColor (temp : float)            (* [getTempColor(temp)] *)
| UVColor (u : float).                (* [getUVColor(u)] *)

Inductive Text :=
| Lit (s : string)
| FloatText (f : float) (decimals : Z) (* [String(f, decimals)] *)
| IntText (n : Z)                      (* [String(n)] *)
| TruncText (f : float)                (* [String((int)f)] *)
| KmText (metres : Z)                  (* [String(metres / 1000.0, 1)] *)
| UVDescription (u : float)            (* [getUVDescription(u)] *)
| WeatherTime (t : Z)                  (* [formatWeatherTime(t)] *)
| Cat (a b : Text).

(** Calls on [sprite] and [tft], and calls of the drawing helpers. *)
Inductive DrawCall :=
| FillSprite (c : Z)
| TftFillScreen (c : Z)
| SetTextDatum (d : Datum)
| SetTextFont (n : Z)
| SetTextColor (fg : Color) (bg : Z)
| DrawString (s : Text) (x y : Z)
| DrawWrappedString (s : Text) (x y maxWidth : Z)
| DrawFastHLine (x y w c : Z)
| DrawWeatherIcon (code x y size : Z) (isNight : bool)
| DrawHeader
| DrawFooter
| DrawScreenIndicator
| PushSprite (x y : Z).

(** What a display function reads besides the globals: [time(NULL)] and
    the local hour of sunrise and of sunset ([localtime_r]). *)
Record Env := {
  globals : Globals;
  unixNow : Z;
  sunriseHour : Z;
  sunsetHour : Z
}.

Definition w (e : Env) : WeatherData := weather (globals e).

Definition isDaytime (e : Env) : bool :=
  Helpers.isDaytime (unixNow e) (sunrise (w e)) (sunset (w e)).

(** [if (!skipPush) sprite.pushSprite(0, 0);] *)
Definition finalPush (e : Env) : list DrawCall :=
  if skipPush (globals e) then [] else [PushSprite 0 0].

Definition displayError (msg : string) : list DrawCall :=
  [ TftFillScreen COLOR_BG;
    SetTextDatum MC_DATUM;
    SetTextFont 4;
    SetTextColor (Fixed TFT_RED) COLOR_BG;
    DrawString (Lit msg) 160 120 ].

Definition drawHorizontalRule (y : Z) : list DrawCall :=
  let margin := 10 in
  let lineWidth := 320 - margin * 2 in
  [ DrawFastHLine margin y lineWidth COLOR_SUBTLE ].

Definition zeroHour : HourlyData :=
  {| h_temperature := 0; h_weatherCode := 0; h_hour := 0 |}.

Definition zeroDay : DailyData :=
  {| d_tempMin := 0; d_tempMax := 0; d_weatherCode := 0;
     d_dayName := EmptyString; d_pop := 0; d_summary := EmptyString |}.

(** The indices [0 .. n-1] of a [for] loop. *)
Definition upto (n : Z) : list Z := map Z.of_nat (seq 0 (Z.to_nat n)).

Definition drawHourlyRange (e : Env) (startIdx count yPos : Z)
  : list DrawCall :=
  let margin := 8 in
  let availableWidth := 320 - margin * 2 in
  let actualCount := Z.min count (hourlyCount (w e) - startIdx) in
  if actualCount <=? 0 then []
  else
    let spacing := Z.quot availableWidth actualCount in
    flat_map (fun i =>
      let hourIndex := startIdx + i in
      let x := margin + Z.quot spacing 2 + i * spacing in
      let hd := nth (Z.to_nat hourIndex) (hourly (w e)) zeroHour in
      let h := h_hour hd in
      let hourIsDaytime := (sunriseHour e <=? h) && (h <=? sunsetHour e) in
      let ampm := if h <? 12 then "am"%string else "pm"%string in
      let displayH := if Z.rem h 12 =? 0 then 12 else Z.rem h 12 in
      let hourStr := Cat (IntText displayH) (Lit ampm) in
      [ SetTextDatum MC_DATUM;
        SetTextFont 2;
        SetTextColor
          (Fixed (if hourIsDaytime then COLOR_DAYTIME else COLOR_SUBTLE))
          COLOR_BG;
        DrawString hourStr x yPos;
        DrawWeatherIcon (h_weatherCode hd) x (yPos + 27) 35
                        (negb hourIsDaytime);
        SetTextColor (TempColor (h_temperature hd)) COLOR_BG;
        DrawString (FloatText (h_temperature hd) 0) x (yPos + 55) ])
      (upto actualCount).

Definition displayHourlyForecast (e : Env) : list DrawCall :=
  FillSprite COLOR_BG ::
  let row1Height := 40 in
  let iconSize := 55 in
  if negb (dataValid (w e)) || (hourlyCount (w e) =? 0) then
    displayError "No Hourly Data!"
  else
    [ DrawHeader;
      DrawWeatherIcon (weatherCode (w e)) 45
                      (row1Height + Z.quot iconSize 2) iconSize
                      (negb (isDaytime e));
      SetTextDatum TL_DATUM;
      SetTextFont 7;
      SetTextColor (TempColor (temperature (w e))) COLOR_BG;
      DrawString (FloatText (temperature (w e)) 0) 80 row1Height;
      SetTextDatum TL_DATUM;
      SetTextFont
        (if (12 <? Z.of_nat (String.length (condition (w e)))) then 2 else 4);
      SetTextColor (Fixed COLOR_SUBTLE) COLOR_BG;
      DrawString (Lit (condition (w e))) 160 row1Height;
      SetTextDatum TL_DATUM;
      SetTextFont 2;
      SetTextColor (Fixed COLOR_TEXT) COLOR_BG;
      DrawWrappedString (Lit (d_summary (nth 0 (daily (w e)) zeroDay)))
                        160 (row1Height + 30) 150;
      SetTextDatum TL_DATUM;
      SetTextFont 2;
      SetTextColor (Fixed COLOR_TEXT) COLOR_BG;
      DrawString (Cat (Lit "Feels ") (FloatText (apparent_temp (w e)) 0))
                 84 (row1Height + 55) ]
    ++ drawHorizontalRule 125
    ++ (let row2Height := 150 in
        let y := row2Height in
        let lineHeight := 32 in
        let labelX := 10 in
        [ SetTextFont 4;
          SetTextDatum ML_DATUM;
          SetTextColor (Fixed COLOR_SUBTLE) COLOR_BG;
          DrawString (Lit "Humidity") labelX y;
          SetTextColor (Fixed COLOR_SUBTLE) COLOR_BG;
          SetTextDatum MR_DATUM;
          DrawString (Cat (IntText (humidity (w e))) (Lit "%")) 310 y ]
        ++
        let y := y + lineHeight in
        let diffSunrise := Z.abs (unixNow e - sunrise (w e)) in
        let diffSunset := Z.abs (unixNow e - sunset (w e)) in
        let closerToSunrise := diffSunrise <? diffSunset in
        let eventLabel :=
          if closerToSunrise then "Sunrise"%string else "Sunset"%string in
        let eventTime :=
          if closerToSunrise then sunrise (w e) else sunset (w e) in
        [ SetTextFont 4;
          SetTextDatum ML_DATUM;
          SetTextColor (Fixed COLOR_SUBTLE) COLOR_BG;
          DrawString (Lit eventLabel) labelX y;
          SetTextDatum MR_DATUM;
          SetTextColor (Fixed COLOR_SUBTLE) COLOR_BG;
          DrawString (WeatherTime eventTime) 310 y ])
    ++ [ DrawFooter; DrawScreenIndicator ]
    ++ finalPush e.

Definition displayHourlyForecast2 (e : Env) : list DrawCall :=
  FillSprite COLOR_BG ::
  if negb (dataValid (w e)) || (hourlyCount (w e) <? 14) then
    displayError "No Hourly Data!"
  else
    [ DrawHeader ]
    ++ drawHourlyRange e 1 7 40
    ++ drawHourlyRange e 8 7 130
    ++ [ DrawFooter; DrawScreenIndicator ]
    ++ finalPush e.

Definition displayConditions (e : Env) : list DrawCall :=
  FillSprite COLOR_BG ::
  if negb (dataValid (w e)) then
    displayError "No Data!"
  else
    let y0 := 50 in
    let lineHeight := 32 in
    let labelX := 10 in
    let y1 := y0 + lineHeight in
    let y2 := y1 + lineHeight in
    let y3 := y2 + lineHeight in
    let y4 := y3 + lineHeight in
    [ DrawHeader;
      (* UV Index *)
      SetTextFont 4;
      SetTextDatum ML_DATUM;
      SetTextColor (Fixed COLOR_SUBTLE) COLOR_BG;
      DrawString (Lit "UV Index") labelX y0;
      SetTextColor (UVColor (uvi (w e))) COLOR_BG;
      SetTextDatum MR_DATUM;
      DrawString (Cat (Cat (FloatText (uvi (w e)) 1) (Lit " "))
                      (UVDescription (uvi (w e)))) 310 y0;
      (* Visibility *)
      SetTextDatum ML_DATUM;
      SetTextColor (Fixed COLOR_SUBTLE) COLOR_BG;
      DrawString (Lit "Visibility") labelX y1;
      SetTextColor (Fixed COLOR_TEXT) COLOR_BG;
      SetTextDatum MR_DATUM;
      DrawString (Cat (KmText (visibility (w e))) (Lit " km")) 310 y1;
      (* Pressure *)
      SetTextDatum ML_DATUM;
      SetTextColor (Fixed COLOR_SUBTLE) COLOR_BG;
      DrawString (Lit "Pressure") labelX y2;
      SetTextColor (Fixed COLOR_TEXT) COLOR_BG;
      SetTextDatum MR_DATUM;
      DrawString (Cat (IntText (pressure (w e))) (Lit " hPa")) 310 y2;
      (* Dew Point *)
      SetTextDatum ML_DATUM;
      SetTextColor (Fixed COLOR_SUBTLE) COLOR_BG;
      DrawString (Lit "Dew Point") labelX y3;
      SetTextColor (TempColor (dewPoint (w e))) COLOR_BG;
      SetTextDatum MR_DATUM;
      DrawString (Cat (FloatText (dewPoint (w e)) 0) (Lit "'")) 310 y3;
      (* Cloud Cover *)
      SetTextDatum ML_DATUM;
      SetTextColor (Fixed COLOR_SUBTLE) COLOR_BG;
      DrawString (Lit "Cloud Cover") labelX y4;
      SetTextColor (Fixed COLOR_TEXT) COLOR_BG;
      SetTextDatum MR_DATUM;
      DrawString (Cat (IntText (clouds (w e))) (Lit "%")) 310 y4;
      DrawFooter;
      DrawScreenIndicator ]
    ++ finalPush e.

Definition displayDailyForecast (e : Env) : list DrawCall :=
  FillSprite COLOR_BG ::
  if negb (dataValid (w e)) || (dailyCount (w e) =? 0) then
    displayError "No Daily Data!"
  else
    let displayCount := Z.min 8 (dailyCount (w e)) in
    let cellW := 80 in
    let cellH := 80 in
    let startY := 38 in
    [ DrawHeader ]
    ++ flat_map (fun i =>
         let col := Z.rem i 4 in
         let row := Z.quot i 4 in
         let cellX := col * cellW + Z.quot cellW 2 in
         let cellY := startY + row * cellH in
         let d := nth (Z.to_nat i) (daily (w e)) zeroDay in
         let dayLabel :=
           if i =? 0 then "Today"%string else d_dayName d in
         [ SetTextDatum MC_DATUM;
           SetTextFont 2;
           SetTextColor (Fixed COLOR_SUBTLE) COLOR_BG;
           DrawString (Lit dayLabel) cellX cellY;
           DrawWeatherIcon (d_weatherCode d) cellX (cellY + 30) 35 false;
           SetTextFont 2;
           SetTextDatum MC_DATUM;
           SetTextColor (TempColor (d_tempMax d)) COLOR_BG;
           DrawString (Cat (Cat (TruncText (d_tempMax d)) (Lit " / "))
                           (TruncText (d_tempMin d)))
                      cellX (cellY + 58) ])
         (upto displayCount)
    ++ [ DrawFooter; DrawScreenIndicator ]
    ++ finalPush e.

(** [displayScreen] on the four weather screens; the five pages of the
    settings mode read no weather data and are not expanded here. *)
Definition displayScreen (e : Env) (s : Screen) : option (list DrawCall) :=
  match s with
  | SCREEN_HOURLY => Some (displayHourlyForecast e)
  | SCREEN_HOURLY2 => Some (displayHourlyForecast2 e)
  | SCREEN_CONDITIONS => Some (displayConditions e)
  | SCREEN_DAILY => Some (displayDailyForecast e)
  | _ => None
  end.

(** Calls that belong to the normal layout of a weather screen. *)
Definition isLayoutCall (c : DrawCall) : bool :=
  match c with
  | DrawHeader | DrawFooter | DrawScreenIndicator => true
  | DrawWeatherIcon _ _ _ _ _ => true
  | DrawWrappedString _ _ _ _ => true
  | DrawFastHLine _ _ _ _ => true
  | SetTextColor (TempColor _) _ | SetTextColor (UVColor _) _ => true
  | DrawString (Lit _) _ _ => false
  | DrawString _ _ _ => true
  | _ => false
  end.

Definition isPush (c : DrawCall) : bool :=
  match c with PushSprite _ _ => true | _ => false end.

End Render.

(* ------------------------------------------------------------------ *)
(** ** helpers.h: ordinal suffix, UV bands, word wrap *)

Module HelpersText.

(** [getOrdinalSuffix]: [day % 10] is C's remainder. *)
Definition getOrdinalSuffix (day : Z) : string :=
  if (11 <=? day) && (day <=? 13) then "th"%string
  else match Z.rem day 10 with
       | 1 => "st"%string
       | 2 => "nd"%string
       | 3 => "rd"%string
       | _ => "th"%string
       end.

(** The value of a binary32 bit pattern. *)
Definition decode (bits : float) : spec_float :=
  let s := Z.testbit bits 31 in
  let e := Z.land (Z.shiftr bits 23) 255 in
  let m := Z.land bits (2 ^ 23 - 1) in
  if e =? 255 then (if m =? 0 then S754_infinity s else S754_nan)
  else if e =? 0 then
    match m with
    | Zpos p => S754_finite s p (-149)
    | _ => S754_zero s
    end
  else
    match m + 2 ^ 23 with
    | Zpos p => S754_finite s p (e - 150)
    | _ => S754_nan
    end.

(** An [int] constant of the source converted to [float] (exact for
    [0 < k < 2^24]). *)
Definition intToFloat (k : Z) : spec_float :=
  match k with
  | Zpos _ =>
      let n := Z.log2 k + 1 in
      match k * 2 ^ (24 - n) with
      | Zpos m => S754_finite false m (n - 24)
      | _ => S754_nan
      end
  | _ => S754_zero false
  end.

(** [u < k] with [u] a [float] and [k] an [int] literal. *)
Definition ltInt (u : float) (k : Z) : bool := SFltb (decode u) (intToFloat k).

Definition COLOR_SUCCESS : Z := 0x3666.
Definition COLOR_SUN : Z := 0xFE60.
Definition COLOR_ACCENT : Z := 0xFD20.
Definition TFT_RED : Z := 0xF800.
Definition TFT_MAGENTA : Z := 0xF81F.

Definition getUVDescription (uvi : float) : string :=
  if ltInt uvi 3 then "Low"%string
  else if ltInt uvi 6 then "Moderate"%string
  else if ltInt uvi 8 then "High"%string
  else if ltInt uvi 11 then "Very High"%string
  else "Extreme"%string.

Definition getUVColor (uvi : float) : Z :=
  if ltInt uvi 3 then COLOR_SUCCESS
  else if ltInt uvi 6 then COLOR_SUN
  else if ltInt uvi 8 then COLOR_ACCENT
  else if ltInt uvi 11 then TFT_RED
  else TFT_MAGENTA.

(** What the sprite answers for the current font: [sprite.textWidth(s)] and
    [sprite.fontHeight()]. *)
Record Font := {
  textWidth : string -> Z;
  fontHeight : Z
}.

(** The [for] loop of [drawWrappedString] from character [i] on, with the
    locals [currentY], [word] and [line], followed by the final
    [drawString(line + word, x, currentY)]. *)
Fixpoint wrapFrom (f : Font) (x maxWidth : Z) (text : string)
         (currentY : Z) (word line : string) : list Render.DrawCall :=
  match text with
  | EmptyString =>
      [Render.DrawString (Render.Lit (line ++ word)%string) x currentY]
  | String c rest =>
      if Ascii.eqb c " "%char then
        if maxWidth <? textWidth f (line ++ word)%string then
          Render.DrawString (Render.Lit line) x currentY
          :: wrapFrom f x maxWidth rest (currentY + fontHeight f)
                      EmptyString (word ++ " ")%string
        else
          wrapFrom f x maxWidth rest currentY
                   EmptyString (line ++ (word ++ " "))%string
      else
        wrapFrom f x maxWidth rest currentY
                 (word ++ String c EmptyString)%string line
  end.

Definition drawWrappedString (f : Font) (text : string) (x y maxWidth : Z)
  : list Render.DrawCall :=
  wrapFrom f x maxWidth text y EmptyString EmptyString.

End HelpersText.

(* ------------------------------------------------------------------ *)
(** ** main.cpp: header, footer and screen indicator *)

Module Chrome.

Definition COLOR_ACCENT : Z := 0xFD20.

(** The calls of [Render], and the shape calls the three helpers add. *)
Inductive Call :=
| Sprite (c : Render.DrawCall)
| FillRect (x y w h c : Z)
| FillCircle (x y r c : Z)
| DrawCircle (x y r c : Z).

(** The fields of [struct tm] that are read. *)
Record tm := {
  tm_min : Z;
  tm_hour : Z;
  tm_mday : Z;
  tm_mon : Z;
  tm_wday : Z
}.

(** ["%d"] and ["%02d"]. *)
Definition decimal (n : Z) : string := NilZero.string_of_int (Z.to_int n).

Definition decimal02 (n : Z) : string :=
  let s := decimal n in
  if (String.length s <? 2)%nat then ("0" ++ s)%string else s.

(** [sprintf] into a [char] array of [size] bytes: the text and its
    terminating zero have to fit, [None] stands for a write past the end. *)
Definition sprintf (size : nat) (s : string) : option string :=
  if (String.length s <? size)%nat then Some s else None.

(** A read of a table of strings; [None] outside the table. *)
Definition tableRead (table : list string) (i : Z) : option string :=
  if 0 <=? i then nth_error table (Z.to_nat i) else None.

Definition days : list string :=
  ["Sunday"; "Monday"; "Tuesday"; "Wednesday"; "Thursday"; "Friday";
   "Saturday"]%string.

Definition months : list string :=
  ["Jan"; "Feb"; "Mar"; "Apr"; "May"; "Jun"; "Jul"; "Aug"; "Sep"; "Oct";
   "Nov"; "Dec"]%string.

(** The text ["%s, %d%s %s"] of the footer. *)
Definition dateText (dayName : string) (mday : Z) (monthName : string)
  : string :=
  (dayName ++ ", " ++ decimal mday ++ HelpersText.getOrdinalSuffix mday
   ++ " " ++ monthName)%string.

(** [drawFooter()]; [timeinfo] is [None] when [getLocalTime] fails. *)
Definition drawFooter (timeinfo : option tm) : option (list Call) :=
  match timeinfo with
  | None => Some []
  | Some t =>
      match tableRead days (tm_wday t), tableRead months (tm_mon t) with
      | Some d, Some m =>
          match sprintf 32 (dateText d (tm_mday t) m) with
          | Some dateStr =>
              Some [ Sprite (Render.SetTextDatum Render.ML_DATUM);
                     Sprite (Render.SetTextFont 4);
                     Sprite (Render.SetTextColor
                               (Render.Fixed Render.COLOR_SUBTLE)
                               Render.COLOR_BG);
                     Sprite (Render.DrawString (Render.Lit dateStr) 10 222) ]
          | None => None
          end
      | _, _ => None
      end
  end.

(** The 12-hour clock of the header. *)
Definition hour12 (hour : Z) : Z :=
  if hour =? 0 then 12 else if 12 <? hour then hour - 12 else hour.

Definition ampm (hour : Z) : string :=
  if hour <? 12 then "am"%string else "pm"%string.

(** [drawHeader()]; [unixNow] is the [time(NULL)] read by [isDaytime()]. *)
Definition drawHeader (f : HelpersText.Font) (g : Globals) (unixNow : Z)
           (timeinfo : option tm) : option (list Call) :=
  match timeinfo with
  | None => Some []
  | Some t =>
      let hour := hour12 (tm_hour t) in
      let timeColor :=
        if Helpers.isDaytime unixNow (sunrise (weather g)) (sunset (weather g))
        then Render.COLOR_DAYTIME else Render.COLOR_SUBTLE in
      match sprintf 4 (decimal hour),
            sprintf 8 (decimal02 (tm_min t) ++ ampm (tm_hour t))%string with
      | Some hourStr, Some minStr =>
          let hourWidth := HelpersText.textWidth f hourStr in
          let minWidth := HelpersText.textWidth f minStr in
          let colonWidth := HelpersText.textWidth f ":"%string in
          let totalWidth := hourWidth + colonWidth + minWidth in
          let startX := 310 - totalWidth in
          Some
            ([ Sprite (Render.SetTextDatum Render.ML_DATUM);
               Sprite (Render.SetTextFont 4);
               Sprite (Render.SetTextColor (Render.Fixed Render.COLOR_SUBTLE)
                                           Render.COLOR_BG);
               Sprite (Render.DrawString (Render.Lit "Caloundra, QLD") 10 15);
               FillRect 200 0 120 30 Render.COLOR_BG;
               Sprite (Render.SetTextDatum Render.MR_DATUM);
               Sprite (Render.SetTextColor (Render.Fixed timeColor)
                                           Render.COLOR_BG);
               Sprite (Render.SetTextDatum Render.ML_DATUM);
               Sprite (Render.DrawString (Render.Lit hourStr) startX 15) ]
             ++ (if colonVisible g then
                   [ Sprite (Render.SetTextColor
                               (Render.Fixed Render.COLOR_SUBTLE)
                               Render.COLOR_BG);
                     Sprite (Render.DrawString (Render.Lit ":")
                                               (startX + hourWidth) 15) ]
                 else [])
             ++ [ Sprite (Render.SetTextColor (Render.Fixed timeColor)
                                              Render.COLOR_BG);
                  Sprite (Render.DrawString (Render.Lit minStr)
                            (startX + hourWidth + colonWidth) 15) ])
      | _, _ => None
      end
  end.

(** The two [switch] tables of [drawScreenIndicator], [default] included. *)
Definition screenIndex (settings : bool) (s : Screen) : Z :=
  if settings then
    match s with
    | SCREEN_SETTINGS => 0
    | SCREEN_ABOUT => 1
    | SCREEN_DEMO => 2
    | SCREEN_DEMO2 => 3
    | SCREEN_DEMO3 => 4
    | _ => 0
    end
  else
    match s with
    | SCREEN_HOURLY => 0
    | SCREEN_HOURLY2 => 1
    | SCREEN_CONDITIONS => 2
    | SCREEN_DAILY => 3
    | _ => 0
    end.

Definition drawScreenIndicator (g : Globals) : list Call :=
  let y := 222 in
  let numDots := if settingsMode g then 5 else 4 in
  let spacing := 15 in
  let startX := 310 - (numDots - 1) * spacing in
  let screenIndex := screenIndex (settingsMode g) (currentScreen g) in
  map (fun i =>
         let x := startX + i * spacing in
         if i =? screenIndex then FillCircle x y 4 COLOR_ACCENT
         else DrawCircle x y 4 Render.COLOR_SUBTLE)
      (Render.upto numDots).

End Chrome.

(* ------------------------------------------------------------------ *)
(** ** main.cpp: connectToWiFi *)

Module WiFi.

Inductive Call :=
| Draw (c : Render.DrawCall)
| Mode                       (* [WiFi.mode(WIFI_STA)] *)
| Begin                      (* [WiFi.begin(WIFI_SSID, WIFI_PASSWORD)] *)
| Wait (ms : Z)              (* [delay(ms)] *)
| ConfigTime (gmtOffset : Z).

(** The [while] loop: [status k] is what the [k]-th call of
    [WiFi.status() == WL_CONNECTED] answers, [left] is [30 - attempts].
    Returns the number of [delay(500)] made and of status reads used. *)
Fixpoint waitLoop (status : nat -> bool) (read : nat) (left : nat)
  : nat * nat :=
  match left with
  | O => (O, S read)
  | S left' =>
      if status read then (O, S read)
      else let (waits, reads) := waitLoop status (S read) left' in
           (S waits, reads)
  end.

Definition connectToWiFi (status : nat -> bool) (ip : string) : list Call :=
  let lineHeight := 24 in
  let lineY0 := 35 in
  let lineY1 := lineY0 + 35 in
  let lineY2 := lineY1 + lineHeight in
  let lineY3 := lineY2 + lineHeight in
  let lineY4 := lineY3 + lineHeight in
  let (waits, reads) := waitLoop status 0 30 in
  [ Draw (Render.TftFillScreen Render.COLOR_BG);
    Draw (Render.SetTextDatum Render.TL_DATUM);
    Draw (Render.SetTextColor (Render.Fixed Render.COLOR_SUBTLE)
                              Render.COLOR_BG);
    Draw (Render.SetTextFont 4);
    Draw (Render.DrawString (Render.Lit "Weather Reporter") 10 lineY0);
    Draw (Render.DrawString (Render.Lit "Connecting to WiFi...") 10 lineY1);
    Mode;
    Begin ]
  ++ repeat (Wait 500) waits
  ++ (if status reads then
        [ Draw (Render.DrawString (Render.Lit "WiFi Connected!") 10 lineY2);
          Draw (Render.DrawString
                  (Render.Cat (Render.Lit "IP: ") (Render.Lit ip)) 10 lineY3);
          ConfigTime (10 * 3600);
          Draw (Render.DrawString (Render.Lit "Syncing time...") 10 lineY4) ]
      else
        [ Draw (Render.DrawString (Render.Lit "WiFi Connection Failed!")
                                  10 lineY2) ]).

End WiFi.

(* ------------------------------------------------------------------ *)
(** ** Notions used in the statements *)

(** The screens of a mode: Weather = Hourly, Hourly2, Conditions, Daily;
    Settings = Settings, About, Demo, Demo2, Demo3. *)
Definition screenInMode (settings : bool) (s : Screen) : bool :=
  match s with
  | SCREEN_HOURLY | SCREEN_HOURLY2 | SCREEN_CONDITIONS | SCREEN_DAILY =>
      negb settings
  | SCREEN_SETTINGS | SCREEN_ABOUT | SCREEN_DEMO | SCREEN_DEMO2
  | SCREEN_DEMO3 => settings
  end.

Definition modeInvariant (g : Globals) : Prop :=
  screenInMode (settingsMode g) (currentScreen g) = true.

(** Screen, mode and power state. *)
Definition navState (g : Globals) : Screen * bool * bool :=
  (currentScreen g, settingsMode g, displayOn g).

Definition navChanged (a b : Globals) : bool :=
  negb (Screen_beq (currentScreen a) (currentScreen b)
        && Bool.eqb (settingsMode a) (settingsMode b)
        && Bool.eqb (displayOn a) (displayOn b)).

(** The globals after [handleButtons()] and after the auto page switch of
    one pass. *)
Definition afterButtons (t : Tick) (g : Globals) : Globals :=
  fst (handleButtons t (fst (reconnect t g))).

Definition afterAutoSwitch (t : Tick) (g : Globals) : Globals :=
  fst (autoPageSwitch t (afterButtons t g)).

(** The globals when the SELECT block of [handleButtons()] is left, by one
    of its [return]s or by falling through, and after the refresh block. *)
Definition afterSelect (t : Tick) (g : Globals) : Globals :=
  match handleSelect t (fst (reconnect t g)) with
  | Returned _ g' _ => g'
  | FellThrough g' => g'
  end.

Definition afterRefresh (t : Tick) (g : Globals) : Globals :=
  fst (periodicUpdate t (afterAutoSwitch t g)).

(** The states a pass goes through, block by block: at its start, after
    the SELECT block, after the Left/Right code, after the auto page switch,
    after the refresh and after the colon flash. *)
Definition passStates (t : Tick) (g : Globals) : list Globals :=
  [ g; afterSelect t g; afterButtons t g; afterAutoSwitch t g;
    afterRefresh t g; fst (loop t g) ].

(** How many neighbours in a list of states differ in [navState]. *)
Fixpoint changes (l : list Globals) : nat :=
  match l with
  | a :: (b :: _) as l' => ((if navChanged a b then 1 else 0) + changes l')%nat
  | _ => O
  end.

(** The number of blocks of a pass that change screen, mode or power
    state. *)
Definition transitionsInPass (t : Tick) (g : Globals) : nat :=
  changes (passStates t g).


(** The screens of a mode in the order of the [Screen] enumeration. *)
Definition screensOf (settings : bool) : list Screen :=
  if settings
  then [SCREEN_SETTINGS; SCREEN_ABOUT; SCREEN_DEMO; SCREEN_DEMO2; SCREEN_DEMO3]
  else [SCREEN_HOURLY; SCREEN_HOURLY2; SCREEN_CONDITIONS; SCREEN_DAILY].

(** Which [return] of the SELECT block a pass takes, if any. *)
Definition selectEvent (t : Tick) (g : Globals) : option SelectReturn :=
  match handleSelect t g with
  | Returned r _ _ => Some r
  | FellThrough _ => None
  end.

Fixpoint selectTrace (ts : list Tick) (g : Globals)
  : list (option SelectReturn) :=
  match ts with
  | [] => []
  | t :: ts' => selectEvent t g :: selectTrace ts' (fst (loop t g))
  end.

Definition fired (r : SelectReturn) (tr : list (option SelectReturn)) : nat :=
  List.length (filter (fun x => match x, r with
                           | Some LongPress, LongPress => true
                           | Some ShortPress, ShortPress => true
                           | _, _ => false
                           end) tr).

Definition isEvent (x : option SelectReturn) : bool :=
  match x with
  | Some _ => true
  | None => false
  end.

Definition firedAny (tr : list (option SelectReturn)) : nat :=
  List.length (filter isEvent tr).

(** No event on any of the passes [l]. *)
Definition silent {A} (l : list A) : list (option SelectReturn) :=
  map (fun _ => None) l.

(** A pass with the given clock and pin samples, WiFi up, in which the
    refresh block takes no time. *)
Definition sample (clock : Z) (l r s : bool) : Tick :=
  {| now := clock; leftPressed := l; rightPressed := r; selectPressed := s;
     wifiConnected := true; fetched := FetchFailed; nowLate := clock |}.

(** The same pass with the fetch outcome [o], the refresh block being
    through at clock [done]. *)
Definition fetching (o : FetchOutcome) (done : Z) (t : Tick) : Tick :=
  {| now := now t; leftPressed := leftPressed t;
     rightPressed := rightPressed t; selectPressed := selectPressed t;
     wifiConnected := wifiConnected t; fetched := o; nowLate := done |}.

(** Time since the press was first sampled. *)
Definition heldFor (t0 : Tick) (t : Tick) : Z := elapsed (now t) (now t0).

(** A run of Left presses ([left = true]) or Right presses, each taken:
    SELECT is up and the debounce delay has passed since the previous one. *)
Fixpoint acceptedPresses (left : bool) (last : Z) (ts : list Tick) : Prop :=
  match ts with
  | [] => True
  | t :: ts' =>
      leftPressed t = left /\ (left = false -> rightPressed t = true)
      /\ selectPressed t = false
      /\ DEBOUNCE_DELAY <= elapsed (now t) last
      /\ acceptedPresses left (now t) ts'
  end.

Fixpoint iterate {A} (n : nat) (f : A -> A) (x : A) : A :=
  match n with
  | O => x
  | S n' => iterate n' f (f x)
  end.


(** The drawing environment of a pass over globals [g]. *)
Definition envOf (g : Globals) (clock sunriseH sunsetH : Z) : Render.Env :=
  {| Render.globals := g; Render.unixNow := clock;
     Render.sunriseHour := sunriseH; Render.sunsetHour := sunsetH |}.

(** The fixed no-data placeholder: the sprite is cleared, the physical
    screen is cleared, and the message is written in red, font 4, centred on
    the middle of the 320 x 240 screen. *)
Definition placeholder (msg : string) : list Render.DrawCall :=
  [ Render.FillSprite Render.COLOR_BG;
    Render.TftFillScreen Render.COLOR_BG;
    Render.SetTextDatum Render.MC_DATUM;
    Render.SetTextFont 4;
    Render.SetTextColor (Render.Fixed Render.TFT_RED) Render.COLOR_BG;
    Render.DrawString (Render.Lit msg) 160 120 ].

(** Globals that only the SELECT block writes. *)
Definition selView (g : Globals) : bool * bool * Z :=
  (selectHeld g, longPressHandled g, selectPressStart g).

(** Globals that only [handleButtons] writes, and the two that nothing
    writes. *)
Definition pressView (g : Globals) : bool * bool * Z * bool * bool :=
  (displayOn g, settingsMode g, lastButtonPress g, autoSwitch g, skipPush g).

(** The same pass with other samples of the Left and Right pins. *)
Definition withLeftRight (l r : bool) (t : Tick) : Tick :=
  {| now := now t; leftPressed := l; rightPressed := r;
     selectPressed := selectPressed t; wifiConnected := wifiConnected t;
     fetched := fetched t; nowLate := nowLate t |}.

(** The state right after [setup()] at clock 0 with a failed first fetch. *)
Definition booted : Globals := fst (setup (sample 0 false false false)).

(** Notions used in the statements about the loop's effects. *)

Definition isFetch (e : Effect) : bool :=
  match e with
  | FetchOneCallData => true
  | _ => false
  end.

(** Calls that draw or command the display. *)
Definition isDisplayCall (e : Effect) : bool :=
  match e with
  | DisplayScreen _ | SwipeTransition _ _ | WriteCommand _ | HeaderPush => true
  | _ => false
  end.

(** The passes of a run that fetch: the clock at which each finds the
    refresh due, and the clock at which its refresh block is through. *)
Fixpoint fetchSpans (ts : list Tick) (g : Globals) : list (Z * Z) :=
  match ts with
  | [] => []
  | t :: ts' =>
      (if existsb isFetch (snd (loop t g)) then [(now t, nowLate t)] else [])
      ++ fetchSpans ts' (fst (loop t g))
  end.

(** Each span of [l] starts at least [d] after the one before it ended. *)
Fixpoint restedBy (d : Z) (l : list (Z * Z)) : Prop :=
  match l with
  | a :: (b :: _) as l' => d <= fst b - snd a /\ restedBy d l'
  | _ => True
  end.

(** Neighbours in [l] are at least [d] apart. *)
Fixpoint spacedBy (d : Z) (l : list Z) : Prop :=
  match l with
  | a :: (b :: _) as l' => d <= b - a /\ spacedBy d l'
  | _ => True
  end.

(** Every clock of [ts] is at least [c], and the clocks never go back,
    inside a pass and from one pass to the next. *)
Fixpoint clocksFrom (c : Z) (ts : list Tick) : Prop :=
  match ts with
  | [] => True
  | t :: ts' => c <= now t /\ now t <= nowLate t /\ clocksFrom (nowLate t) ts'
  end.

(** The screen of the last full redraw among the calls [es]. *)
Definition lastRedraw (es : list Effect) : option Screen :=
  fold_left (fun acc e =>
               match e with
               | DisplayScreen s => Some s
               | SwipeTransition _ s => Some s
               | _ => acc
               end) es None.

(** The clock as the 32-bit [unsigned long] holds it. *)
Definition wrap32 (z : Z) : Z := z mod 2 ^ 32.

Definition wrapTick (t : Tick) : Tick :=
  {| now := wrap32 (now t); leftPressed := leftPressed t;
     rightPressed := rightPressed t; selectPressed := selectPressed t;
     wifiConnected := wifiConnected t; fetched := fetched t;
     nowLate := wrap32 (nowLate t) |}.

Definition wrapGlobals (g : Globals) : Globals :=
  {| lastUpdate := wrap32 (lastUpdate g);
     lastButtonPress := wrap32 (lastButtonPress g);
     currentScreen := currentScreen g;
     lastPageSwitch := wrap32 (lastPageSwitch g);
     autoSwitch := autoSwitch g;
     lastColonUpdate := wrap32 (lastColonUpdate g);
     colonVisible := colonVisible g; displayOn := displayOn g;
     skipPush := skipPush g; settingsMode := settingsMode g;
     selectPressStart := wrap32 (selectPressStart g);
     selectHeld := selectHeld g;
     longPressHandled := longPressHandled g; weather := weather g |}.

(** The integers [lo, lo + 1, ..., lo + n - 1]. *)
Definition zrange (lo : Z) (n : nat) : list Z :=
  map (fun k => lo + Z.of_nat k) (seq 0 n).

(** Notions used in the statements about the drawing helpers. *)

Definition numDots (g : Globals) : Z := if settingsMode g then 5 else 4.

Definition isFilled (c : Chrome.Call) : bool :=
  match c with
  | Chrome.FillCircle _ _ _ _ => true
  | _ => false
  end.

Definition circleAt (c : Chrome.Call) : option (Z * Z) :=
  match c with
  | Chrome.FillCircle x y _ _ | Chrome.DrawCircle x y _ _ => Some (x, y)
  | _ => None
  end.

(** The centres of the filled dots of the screen indicator. *)
Definition highlighted (g : Globals) : list (option (Z * Z)) :=
  map circleAt (filter isFilled (Chrome.drawScreenIndicator g)).

(** The literal strings drawn by [drawString], and where. *)
Definition drawnText (c : Render.DrawCall) : string :=
  match c with
  | Render.DrawString (Render.Lit s) _ _ => s
  | _ => EmptyString
  end.

Definition drawnAt (c : Render.DrawCall) : option (Z * Z) :=
  match c with
  | Render.DrawString _ x y => Some (x, y)
  | _ => None
  end.

(** The icons drawn, as (data index is not kept) centre positions. *)
Definition iconAt (c : Render.DrawCall) : list (Z * Z) :=
  match c with
  | Render.DrawWeatherIcon _ x y _ _ => [(x, y)]
  | _ => []
  end.

Definition iconPositions (cs : list Render.DrawCall) : list (Z * Z) :=
  flat_map iconAt cs.

Definition isWait (c : WiFi.Call) : bool :=
  match c with
  | WiFi.Wait _ => true
  | _ => false
  end.

Definition waitOf (c : WiFi.Call) : Z :=
  match c with
  | WiFi.Wait ms => ms
  | _ => 0
  end.

(** Total time [connectToWiFi] spends in [delay]. *)
Definition blockedFor (cs : list WiFi.Call) : Z :=
  fold_right Z.add 0 (map waitOf cs).

Definition isConfigTime (c : WiFi.Call) : bool :=
  match c with
  | WiFi.ConfigTime _ => true
  | _ => false
  end.

(** A font whose glyphs are all [w] wide. *)
Definition fixedFont (w h : Z) : HelpersText.Font :=
  {| HelpersText.textWidth := fun s => w * Z.of_nat (String.length s);
     HelpersText.fontHeight := h |}.

(** Notions used in the statements about wrapping, redraws and layout. *)

(** [P] run on wrapped clocks does what [P] does, up to wrapping. *)
Definition commutesWithWrap (P : Tick -> Stmt) : Prop :=
  forall t g,
    P (wrapTick t) (wrapGlobals g) = (wrapGlobals (fst (P t g)), snd (P t g)).

(** One step of [lastRedraw]. *)
Definition redrawStep (acc : option Screen) (e : Effect) : option Screen :=
  match e with
  | DisplayScreen s => Some s
  | SwipeTransition _ s => Some s
  | _ => acc
  end.

(** The last full redraw of [P], if any, shows the screen [P] ends on. *)
Definition redrawsCurrent (P : Stmt) : Prop :=
  forall g,
    match lastRedraw (snd (P g)) with
    | Some s => s = currentScreen (fst (P g))
    | None => currentScreen (fst (P g)) = currentScreen g
    end.

(** The strings of a list, one after the other. *)
Definition joined (l : list string) : string :=
  fold_right String.append EmptyString l.

(** Number of space characters of a text. *)
Fixpoint spaces (text : string) : nat :=
  match text with
  | EmptyString => O
  | String c rest =>
      ((if Ascii.eqb c " "%char then 1 else 0) + spaces rest)%nat
  end.

(** The weather code of an icon call. *)
Definition iconCode (c : Render.DrawCall) : list Z :=
  match c with
  | Render.DrawWeatherIcon code _ _ _ _ => [code]
  | _ => []
  end.

(** The weather codes of the icons drawn, in order. *)
Definition iconCodes (cs : list Render.DrawCall) : list Z :=
  flat_map iconCode cs.

(** The English ordinal suffix of a day of the month. *)
Definition englishSuffix (day : Z) : string :=
  if existsb (Z.eqb day) [1; 21; 31] then "st"%string
  else if existsb (Z.eqb day) [2; 22] then "nd"%string
  else if existsb (Z.eqb day) [3; 23] then "rd"%string
  else "th"%string.

(** The five UV bands: label and colour. *)
Definition uvBands : list (string * Z) :=
  [ ("Low"%string, HelpersText.COLOR_SUCCESS);
    ("Moderate"%string, HelpersText.COLOR_SUN);
    ("High"%string, HelpersText.COLOR_ACCENT);
    ("Very High"%string, HelpersText.TFT_RED);
    ("Extreme"%string, HelpersText.TFT_MAGENTA) ].

(** The eight cells of the daily grid, row by row. *)
Definition dailyCells : list (Z * Z) :=
  [ (40, 68); (120, 68); (200, 68); (280, 68);
    (40, 148); (120, 148); (200, 148); (280, 148) ].

(** The calls of [drawFooter] for the date text [dateStr]. *)
Definition footerCalls (dateStr : string) : list Chrome.Call :=
  [ Chrome.Sprite (Render.SetTextDatum Render.ML_DATUM);
    Chrome.Sprite (Render.SetTextFont 4);
    Chrome.Sprite (Render.SetTextColor (Render.Fixed Render.COLOR_SUBTLE)
                                       Render.COLOR_BG);
    Chrome.Sprite (Render.DrawString (Render.Lit dateStr) 10 222) ].

(** Calls that copy the sprite to the display. *)
Definition isSpritePush (c : WiFi.Call) : bool :=
  match c with
  | WiFi.Draw (Render.PushSprite _ _) => true
  | _ => false
  end.

(** The date text of the footer exists and fits its buffer. *)
Definition footerFits (wday mday mon : Z) : bool :=
  match Chrome.tableRead Chrome.days wday,
        Chrome.tableRead Chrome.months mon with
  | Some d, Some m =>
      (String.length (Chrome.dateText d mday m) <=? 19)%nat
  | _, _ => false
  end.

(** Both texts of the header clock fit their buffers. *)
Definition clockFits (hour minute : Z) : bool :=
  match Chrome.sprintf 4 (Chrome.decimal (Chrome.hour12 hour)),
        Chrome.sprintf 8 (Chrome.decimal02 minute ++ Chrome.ampm hour) with
  | Some _, Some _ => true
  | _, _ => false
  end.

(** A snapshot with [hc] hourly and [dc] daily entries, entry [i] carrying
    weather code [800 + i], for use as a concrete input. *)
Definition sampleWeather (hc dc : nat) : WeatherData :=
  {| temperature := 0; apparent_temp := 0; humidity := 0; windSpeed := 0;
     windDeg := 0; windDir := EmptyString; weatherCode := 800;
     condition := EmptyString; minutelyRain := repeat 0 60;
     hasMinutelyData := false; dataValid := true;
     hourly := map (fun i => {| h_temperature := 0;
                                h_weatherCode := 800 + Z.of_nat i;
                                h_hour := Z.of_nat i |}) (seq 0 hc);
     hourlyCount := Z.of_nat hc;
     daily := map (fun i => {| d_tempMin := 0; d_tempMax := 0;
                               d_weatherCode := 800 + Z.of_nat i;
                               d_dayName := EmptyString; d_pop := 0;
                               d_summary := EmptyString |}) (seq 0 dc);
     dailyCount := Z.of_nat dc;
     sunrise := 1000021600; sunset := 1000064800; uvi := 0; visibility := 0;
     pressure := 0; dewPoint := 0; clouds := 0; moonrise := 0; moonset := 0;
     moonPhase := 0 |}.

(** The drawing environment over [sampleWeather] at Unix time [clock]. *)
Definition sampleEnv (hc dc : nat) (clock : Z) : Render.Env :=
  envOf (set_weather (sampleWeather hc dc) booted) clock 6 18.

(** The calls of [drawWrappedString] are all [drawString]: their positions. *)
Definition linePositions (cs : list Render.DrawCall) : list (option (Z * Z)) :=
  map drawnAt cs.

(** A connection that is first reported on the status read number [k]
    (counting from 0) and stays up. *)
Definition connectsAt (k : nat) (read : nat) : bool := (k <=? read)%nat.

(** The quiet NaN of binary32. *)
Definition quietNaN : float := 0x7FC00000.

(** A decoded snapshot without daily points: current readings, one hourly
    point, [dailyCount] zero, and in [daily[0]] the entry an earlier fetch
    left there. *)
Definition noDailyPoints : WeatherData :=
  {| temperature := 0; apparent_temp := 0; humidity := 0; windSpeed := 0;
     windDeg := 0; windDir := EmptyString; weatherCode := 800;
     condition := EmptyString; minutelyRain := repeat 0 60;
     hasMinutelyData := false; dataValid := true;
     hourly := [ {| h_temperature := 0; h_weatherCode := 800;
                    h_hour := 0 |} ];
     hourlyCount := 1;
     daily := [ {| d_tempMin := 0; d_tempMax := 0; d_weatherCode := 500;
                   d_dayName := "Mon"; d_pop := 0;
                   d_summary := "Showers until evening" |} ];
     dailyCount := 0;
     sunrise := 1000021600; sunset := 1000064800; uvi := 0; visibility := 0;
     pressure := 0; dewPoint := 0; clouds := 0; moonrise := 0; moonset := 0;
     moonPhase := 0 |}.

(** Proof steps shared below. *)

Ltac break_if :=
  match goal with
  | |- context [if ?c then _ else _] => destruct c eqn:?
  end.

Ltac unfold_buttons :=
  unfold handleButtons, handleSelect, handleLeftRight.

Ltac unfold_tail :=
  unfold autoPageSwitch, periodicUpdate, colonFlash, reconnect, pause.

(** Reads of a global after a chain of assignments. *)
Ltac simpl_globals :=
  cbn [fst snd
       lastUpdate lastButtonPress currentScreen lastPageSwitch autoSwitch
       lastColonUpdate colonVisible displayOn skipPush settingsMode
       selectPressStart selectHeld longPressHandled weather
       set_lastUpdate set_lastButtonPress set_currentScreen
       set_lastPageSwitch set_lastColonUpdate set_colonVisible set_displayOn
       set_settingsMode set_selectPressStart set_selectHeld
       set_longPressHandled set_weather] in *.

Ltac split_flow := repeat (simpl_globals; break_if); simpl_globals.

(** Conditions of the source, as facts about booleans and integers. *)
Ltac bool_facts :=
  repeat match goal with
  | H : _ && _ = true |- _ => apply andb_true_iff in H; destruct H
  | H : _ && _ = false |- _ => apply andb_false_iff in H; destruct H
  | H : _ || _ = true |- _ => apply orb_true_iff in H; destruct H
  | H : _ || _ = false |- _ => apply orb_false_iff in H; destruct H
  | H : negb _ = true |- _ => apply negb_true_iff in H
  | H : negb _ = false |- _ => apply negb_false_iff in H
  | H : (_ <? _) = true |- _ => apply Z.ltb_lt in H
  | H : (_ <? _) = false |- _ => apply Z.ltb_ge in H
  | H : (_ <=? _) = true |- _ => apply Z.leb_le in H
  | H : (_ <=? _) = false |- _ => apply Z.leb_gt in H
  end.

(** Case analysis on every condition met, dropping the impossible cases. *)
Ltac walk :=
  repeat (simpl_globals;
          match goal with
          | |- context [if ?c then _ else _] =>
              let E := fresh "E" in
              destruct c eqn:E; try rewrite E in *
          end);
  simpl_globals; bool_facts; try congruence; try lia.

(* ================================================================== *)
(** * Properties *)

(* ------------------------------------------------------------------ *)
(** ** degToCompass *)

Lemma compassIndex_div_mod (deg : Z) :
  0 <= deg -> Helpers.compassIndex deg = ((deg + 11) / 22) mod 16.
Proof.
  intros Hdeg. unfold Helpers.compassIndex.
  rewrite Z.quot_div_nonneg by lia.
  apply Z.rem_mod_nonneg; [apply Z.div_pos; lia | lia].
Qed.

(** C10.  For every [deg] between 0 and 360 the index computed by
    [degToCompass] is [((deg + 11) / 22) mod 16], lies in [0, 16), and the
    function returns one of the sixteen direction strings (no read outside
    the table); 0 and 360 both give "N". *)
Theorem degToCompass_in_bounds (deg : Z) :
  0 <= deg <= 360 ->
  Helpers.compassIndex deg = ((deg + 11) / 22) mod 16
  /\ 0 <= Helpers.compassIndex deg < 16
  /\ (exists s, Helpers.degToCompass deg = Some s /\ In s Helpers.dirs)
  /\ Helpers.degToCompass 0 = Some "N"%string
  /\ Helpers.degToCompass 360 = Some "N"%string.
Proof.
  intros Hdeg.
  assert (Hidx : Helpers.compassIndex deg = ((deg + 11) / 22) mod 16)
    by (apply compassIndex_div_mod; lia).
  assert (Hrange : 0 <= Helpers.compassIndex deg < 16)
    by (rewrite Hidx; apply Z.mod_pos_bound; lia).
  repeat split; try tauto; try reflexivity.
  unfold Helpers.degToCompass; cbv zeta.
  replace ((0 <=? Helpers.compassIndex deg)
           && (Helpers.compassIndex deg <? 16)) with true
    by (symmetry; apply andb_true_iff; split;
        [apply Z.leb_le | apply Z.ltb_lt]; lia).
  destruct (nth_error Helpers.dirs (Z.to_nat (Helpers.compassIndex deg)))
    as [s|] eqn:Hnth.
  - exists s; split; [reflexivity | eapply nth_error_In; eassumption].
  - apply nth_error_None in Hnth. cbn in Hnth. lia.
Qed.

Lemma degToCompass_in_bounds_witness :
  0 <= 225 <= 360
  /\ Helpers.degToCompass 225 = Some "SW"%string
  /\ Helpers.compassIndex 225 = ((225 + 11) / 22) mod 16.
Proof.
  split; [lia | split; [reflexivity |]].
  apply (degToCompass_in_bounds 225); lia.
Defined.

(* ------------------------------------------------------------------ *)
(** ** What each statement of the loop leaves alone *)

Lemma andThen_fst (a b : Stmt) (g : Globals) :
  fst ((a ;; b) g) = fst (b (fst (a g))).
Proof.
  unfold andThen. destruct (a g) as [g1 e1]. cbn.
  destruct (b g1) as [g2 e2]. reflexivity.
Qed.

Lemma reconnect_fst (t : Tick) (g : Globals) : fst (reconnect t g) = g.
Proof. unfold reconnect. destruct (wifiConnected t); reflexivity. Qed.

Lemma pause_fst (g : Globals) : fst (pause g) = g.
Proof. reflexivity. Qed.

Lemma loop_fst (t : Tick) (g : Globals) :
  fst (loop t g)
  = fst (colonFlash t
      (fst (periodicUpdate t
        (fst (autoPageSwitch t (fst (handleButtons t g))))))).
Proof.
  unfold loop. rewrite !andThen_fst, reconnect_fst, pause_fst. reflexivity.
Qed.

Lemma autoPageSwitch_views (t : Tick) (g : Globals) :
  selView (fst (autoPageSwitch t g)) = selView g
  /\ pressView (fst (autoPageSwitch t g)) = pressView g.
Proof. unfold autoPageSwitch. break_if; split; reflexivity. Qed.

Lemma autoPageSwitch_disabled (t : Tick) (g : Globals) :
  autoSwitch g = false -> autoPageSwitch t g = (g, []).
Proof. intros H. unfold autoPageSwitch. rewrite H. reflexivity. Qed.

Lemma periodicUpdate_views (t : Tick) (g : Globals) :
  selView (fst (periodicUpdate t g)) = selView g
  /\ pressView (fst (periodicUpdate t g)) = pressView g
  /\ currentScreen (fst (periodicUpdate t g)) = currentScreen g
  /\ lastPageSwitch (fst (periodicUpdate t g)) = lastPageSwitch g.
Proof. unfold periodicUpdate. break_if; repeat split; reflexivity. Qed.

Lemma colonFlash_views (t : Tick) (g : Globals) :
  selView (fst (colonFlash t g)) = selView g
  /\ pressView (fst (colonFlash t g)) = pressView g
  /\ currentScreen (fst (colonFlash t g)) = currentScreen g
  /\ lastPageSwitch (fst (colonFlash t g)) = lastPageSwitch g.
Proof. unfold colonFlash. break_if; repeat split; reflexivity. Qed.

Lemma loop_selView (t : Tick) (g : Globals) :
  selView (fst (loop t g)) = selView (fst (handleButtons t g)).
Proof.
  rewrite loop_fst.
  rewrite (proj1 (colonFlash_views _ _)), (proj1 (periodicUpdate_views _ _)).
  apply autoPageSwitch_views.
Qed.

Lemma loop_pressView (t : Tick) (g : Globals) :
  pressView (fst (loop t g)) = pressView (fst (handleButtons t g)).
Proof.
  rewrite loop_fst.
  rewrite (proj1 (proj2 (colonFlash_views _ _))),
          (proj1 (proj2 (periodicUpdate_views _ _))).
  apply autoPageSwitch_views.
Qed.

Lemma loop_screen_after_auto (t : Tick) (g : Globals) :
  currentScreen (fst (loop t g))
  = currentScreen (fst (autoPageSwitch t (fst (handleButtons t g)))).
Proof.
  rewrite loop_fst.
  rewrite (proj1 (proj2 (proj2 (colonFlash_views _ _)))),
          (proj1 (proj2 (proj2 (periodicUpdate_views _ _)))).
  reflexivity.
Qed.

Lemma handleButtons_constants (t : Tick) (g : Globals) :
  autoSwitch (fst (handleButtons t g)) = autoSwitch g
  /\ skipPush (fst (handleButtons t g)) = skipPush g.
Proof.
  unfold_buttons. repeat break_if; split; reflexivity.
Qed.

Lemma loop_constants (t : Tick) (g : Globals) :
  autoSwitch (fst (loop t g)) = autoSwitch g
  /\ skipPush (fst (loop t g)) = skipPush g.
Proof.
  pose proof (loop_pressView t g) as H. unfold pressView in H.
  pose proof (handleButtons_constants t g) as [Ha Hs].
  inversion H. split; congruence.
Qed.

Lemma loop_screen (t : Tick) (g : Globals) :
  autoSwitch g = false ->
  currentScreen (fst (loop t g)) = currentScreen (fst (handleButtons t g)).
Proof.
  intros H. rewrite loop_screen_after_auto.
  rewrite autoPageSwitch_disabled; [reflexivity |].
  rewrite (proj1 (handleButtons_constants t g)). exact H.
Qed.

(* ------------------------------------------------------------------ *)
(** ** The screen stays inside its mode *)

Lemma pressTarget_in_mode (settings left : bool) (s : Screen) :
  screenInMode settings (pressTarget settings left s) = true.
Proof. destruct settings, left, s; reflexivity. Qed.

Lemma pressTarget_moves (settings left : bool) (s : Screen) :
  pressTarget settings left s <> s.
Proof. destruct settings, left, s; discriminate. Qed.

Lemma handleButtons_modeInvariant (t : Tick) (g : Globals) :
  modeInvariant g -> modeInvariant (fst (handleButtons t g)).
Proof.
  unfold modeInvariant. intros Hinv. unfold_buttons.
  split_flow; try exact Hinv; try reflexivity;
    apply pressTarget_in_mode.
Qed.

Lemma tail_modeInvariant (t : Tick) (g : Globals) :
  modeInvariant g ->
  modeInvariant (fst (periodicUpdate t g))
  /\ modeInvariant (fst (colonFlash t g)).
Proof.
  unfold modeInvariant, periodicUpdate, colonFlash.
  intros Hinv; split; break_if; exact Hinv.
Qed.

Lemma setup_state (t : Tick) :
  autoSwitch (fst (setup t)) = false
  /\ skipPush (fst (setup t)) = false
  /\ currentScreen (fst (setup t)) = SCREEN_HOURLY
  /\ settingsMode (fst (setup t)) = false
  /\ displayOn (fst (setup t)) = true
  /\ selectHeld (fst (setup t)) = false
  /\ longPressHandled (fst (setup t)) = false.
Proof. repeat split. Qed.

(** Neither flag is ever written, so both keep their initial value. *)
Lemma reachable_constants (g : Globals) :
  reachable g -> autoSwitch g = false /\ skipPush g = false.
Proof.
  induction 1 as [t | t g Hr [IHa IHs]].
  - split; reflexivity.
  - destruct (loop_constants t g) as [Ha Hs]. split; congruence.
Qed.

(** C1.  In every state the firmware can reach, and after every statement
    of a pass from such a state (the button handler, the auto page switch,
    the periodic refresh, the colon flash), the current screen belongs to
    the current mode. *)
Theorem screen_in_mode_invariant (g : Globals) :
  reachable g ->
  modeInvariant g
  /\ forall t,
       modeInvariant (afterButtons t g)
       /\ modeInvariant (afterAutoSwitch t g)
       /\ modeInvariant (fst (periodicUpdate t (afterAutoSwitch t g)))
       /\ modeInvariant (fst (loop t g)).
Proof.
  intros Hr.
  assert (Hstep : forall g0, autoSwitch g0 = false -> modeInvariant g0 ->
            forall t,
              modeInvariant (afterButtons t g0)
              /\ modeInvariant (afterAutoSwitch t g0)
              /\ modeInvariant (fst (periodicUpdate t (afterAutoSwitch t g0)))
              /\ modeInvariant (fst (loop t g0))).
  { intros g0 Hauto Hinv t.
    unfold afterAutoSwitch, afterButtons. rewrite reconnect_fst.
    pose proof (handleButtons_modeInvariant t g0 Hinv) as Hb.
    rewrite (autoPageSwitch_disabled t (fst (handleButtons t g0)))
      by (rewrite (proj1 (handleButtons_constants t g0)); exact Hauto).
    cbn [fst].
    pose proof (proj1 (tail_modeInvariant t _ Hb)) as Hu.
    repeat split; try assumption.
    rewrite loop_fst.
    rewrite (autoPageSwitch_disabled t (fst (handleButtons t g0)))
      by (rewrite (proj1 (handleButtons_constants t g0)); exact Hauto).
    cbn [fst]. apply tail_modeInvariant. exact Hu. }
  assert (Hinv : modeInvariant g).
  { induction Hr as [t | t g Hr IH].
    - reflexivity.
    - apply Hstep; [apply reachable_constants; exact Hr | exact IH]. }
  split; [exact Hinv |].
  apply Hstep; [apply reachable_constants; exact Hr | exact Hinv].
Qed.

Lemma screen_in_mode_invariant_witness :
  modeInvariant
    (run [sample 1000 true false false; sample 1300 false false true;
          sample 2200 false false true] (fst (setup (sample 0 false false false)))).
Proof.
  apply (screen_in_mode_invariant
           (run [sample 1000 true false false; sample 1300 false false true;
                 sample 2200 false false true]
                (fst (setup (sample 0 false false false))))).
  cbn [run]. repeat apply reach_loop. apply reach_setup.
Defined.

(* ------------------------------------------------------------------ *)
(** ** The auto page switch *)





(* ------------------------------------------------------------------ *)
(** ** Order of the checks inside one pass *)

Lemma handleSelect_ignores_left_right (l r : bool) (t : Tick) (g : Globals) :
  handleSelect (withLeftRight l r t) g = handleSelect t g.
Proof. reflexivity. Qed.

Lemma select_return_keeps_page_timer (t : Tick) (g g' : Globals)
      (r : SelectReturn) (out : list Effect) :
  handleSelect t g = Returned r g' out ->
  lastPageSwitch g' = lastPageSwitch g /\ autoSwitch g' = autoSwitch g.
Proof.
  unfold handleSelect. split_flow; intros H; inversion H; subst;
    split; reflexivity.
Qed.

Lemma navChanged_refl (g : Globals) : navChanged g g = false.
Proof.
  unfold navChanged.
  replace (Screen_beq (currentScreen g) (currentScreen g)) with true
    by (destruct (currentScreen g); reflexivity).
  rewrite !Bool.eqb_reflx. reflexivity.
Qed.

Lemma tail_navState (t : Tick) (g : Globals) :
  navState (fst (colonFlash t (fst (periodicUpdate t g)))) = navState g.
Proof.
  unfold navState, colonFlash, periodicUpdate.
  split_flow; reflexivity.
Qed.

Lemma navChanged_same (a b : Globals) :
  navState a = navState b -> navChanged a b = false.
Proof.
  unfold navState, navChanged. intros H. injection H as -> -> ->.
  replace (Screen_beq (currentScreen b) (currentScreen b)) with true
    by (destruct (currentScreen b); reflexivity).
  rewrite !Bool.eqb_reflx. reflexivity.
Qed.

Lemma select_block_or_left_right (t : Tick) (g : Globals) :
  (selectEvent t g <> None /\ afterButtons t g = afterSelect t g)
  \/ (selectEvent t g = None /\ navState (afterSelect t g) = navState g).
Proof.
  unfold selectEvent, afterButtons, afterSelect, handleButtons.
  rewrite reconnect_fst.
  destruct (handleSelect t g) as [r g' out | g'] eqn:Hs.
  - left. split; [discriminate | reflexivity].
  - right. split; [reflexivity |].
    revert Hs. unfold handleSelect, navState.
    split_flow; intros H; inversion H; subst; reflexivity.
Qed.

(** C3.  In every pass of the running firmware the checks are made in a
    fixed order and the first match wins.  A pass in which the SELECT block
    returns (long or short press) does not look at Left and Right, and what
    the pass ends on is what that return left.  A pass in which it falls
    through leaves screen, mode and power state to the Left/Right code.  Of
    the blocks of a pass (SELECT, Left/Right, auto page switch, refresh,
    colon flash) at most one changes screen, mode or power state, and the
    auto page switch never changes the screen, in particular not in a pass
    with a SELECT event. *)
Theorem pass_priority_order (t : Tick) (g : Globals) :
  reachable g ->
  (selectEvent t g <> None ->
   (forall l r, handleButtons (withLeftRight l r t) g = handleButtons t g)
   /\ navState (fst (loop t g)) = navState (afterSelect t g)
   /\ currentScreen (afterAutoSwitch t g) = currentScreen (afterButtons t g))
  /\ (selectEvent t g = None -> navState (afterSelect t g) = navState g)
  /\ (transitionsInPass t g <= 1)%nat
  /\ navState (fst (loop t g)) = navState (afterButtons t g).
Proof.
  intros Hr.
  pose proof (proj1 (reachable_constants g Hr)) as Hoff.
  assert (Hid : autoPageSwitch t (afterButtons t g) = (afterButtons t g, [])).
  { apply autoPageSwitch_disabled.
    unfold afterButtons. rewrite reconnect_fst.
    rewrite (proj1 (handleButtons_constants t g)). exact Hoff. }
  assert (Hauto : afterAutoSwitch t g = afterButtons t g)
    by (unfold afterAutoSwitch; rewrite Hid; reflexivity).
  assert (Hrefresh : navState (afterRefresh t g) = navState (afterButtons t g)).
  { unfold afterRefresh. rewrite Hauto.
    unfold navState, periodicUpdate. split_flow; reflexivity. }
  assert (Hloop : navState (fst (loop t g)) = navState (afterButtons t g)).
  { rewrite loop_fst, tail_navState.
    unfold afterButtons. rewrite reconnect_fst.
    rewrite autoPageSwitch_disabled; [reflexivity |].
    rewrite (proj1 (handleButtons_constants t g)). exact Hoff. }
  split; [| split; [| split]].
  - intros Hev. split; [| split].
    + intros l r. unfold handleButtons.
      rewrite handleSelect_ignores_left_right.
      unfold selectEvent in Hev.
      destruct (handleSelect t g); [reflexivity | congruence].
    + destruct (select_block_or_left_right t g) as [[_ Hsame] | [Hnone _]];
        [| congruence].
      rewrite Hloop, Hsame. reflexivity.
    + rewrite Hauto. reflexivity.
  - intros Hnone.
    destruct (select_block_or_left_right t g) as [[Hev _] | [_ Hsame]];
      [congruence | exact Hsame].
  - unfold transitionsInPass, passStates. cbn [changes].
    rewrite Hauto, navChanged_refl.
    rewrite (navChanged_same (afterButtons t g) (afterRefresh t g))
      by (symmetry; exact Hrefresh).
    rewrite (navChanged_same (afterRefresh t g) (fst (loop t g)))
      by (rewrite Hrefresh, Hloop; reflexivity).
    destruct (select_block_or_left_right t g) as [[_ Hsame] | [_ Hsame]].
    + rewrite Hsame, navChanged_refl.
      destruct (navChanged g (afterSelect t g)); cbn; lia.
    + rewrite (navChanged_same g (afterSelect t g))
        by (symmetry; exact Hsame).
      destruct (navChanged (afterSelect t g) (afterButtons t g)); cbn; lia.
  - exact Hloop.
Qed.

Lemma pass_priority_order_witness :
  let g := run [sample 2200 false false true] booted in
  selectEvent (sample 3000 true false true) g = Some LongPress
  /\ (transitionsInPass (sample 3000 true false true) g <= 1)%nat
  /\ navState (fst (loop (sample 3000 true false true) g))
     = (SCREEN_SETTINGS, true, true).
Proof.
  cbv zeta.
  assert (Hr : reachable (run [sample 2200 false false true] booted))
    by (cbn [run]; repeat apply reach_loop; apply reach_setup).
  pose proof (pass_priority_order (sample 3000 true false true) _ Hr)
    as (Hsel & _ & Hone & _).
  split; [reflexivity | split; [exact Hone |]].
  assert (Hev : selectEvent (sample 3000 true false true)
                  (run [sample 2200 false false true] booted) <> None)
    by (vm_compute; discriminate).
  destruct (Hsel Hev) as (_ & Hnav & _).
  rewrite Hnav. reflexivity.
Defined.

(* ------------------------------------------------------------------ *)
(** ** Left and Right: level sampled, one shared lock-out *)

Lemma handleSelect_fallthrough (t : Tick) (g g1 : Globals) :
  handleSelect t g = FellThrough g1 ->
  pressView g1 = pressView g
  /\ currentScreen g1 = currentScreen g
  /\ lastPageSwitch g1 = lastPageSwitch g.
Proof.
  unfold handleSelect. split_flow; intros H; inversion H; subst;
    repeat split.
Qed.

Lemma no_select_event (t : Tick) (g : Globals) :
  selectEvent t g = None -> exists g1, handleSelect t g = FellThrough g1.
Proof.
  unfold selectEvent. destruct (handleSelect t g) as [r g' out | g1].
  - discriminate.
  - intros _. exists g1. reflexivity.
Qed.

Lemma select_idle (t : Tick) (g : Globals) :
  selectPressed t = false -> selectHeld g = false ->
  selectEvent t g = None /\ selectHeld (fst (handleButtons t g)) = false.
Proof.
  intros Hup Hidle. unfold selectEvent, handleButtons, handleSelect.
  rewrite Hup, Hidle. cbn [andb]. split; [reflexivity |].
  unfold handleLeftRight. split_flow; reflexivity.
Qed.

(** A pass with no SELECT return in which the lock-out has not run out, or
    in which neither Left nor Right reads pressed, changes nothing but the
    SELECT bookkeeping. *)
Lemma handleButtons_swallows (t : Tick) (g : Globals) :
  selectEvent t g = None ->
  elapsed (now t) (lastButtonPress g) < DEBOUNCE_DELAY
  \/ (leftPressed t = false /\ rightPressed t = false) ->
  snd (handleButtons t g) = []
  /\ navState (fst (handleButtons t g)) = navState g
  /\ lastButtonPress (fst (handleButtons t g)) = lastButtonPress g
  /\ lastPageSwitch (fst (handleButtons t g)) = lastPageSwitch g.
Proof.
  intros Hev Hquiet.
  destruct (no_select_event t g Hev) as [g1 Hs].
  destruct (handleSelect_fallthrough t g g1 Hs) as [Hv [Hc Hp]].
  unfold pressView in Hv. inversion Hv as [[Hd Hm Hb Ha Hk]].
  unfold handleButtons. rewrite Hs. unfold handleLeftRight, navState.
  rewrite Hb.
  destruct Hquiet as [Hlock | [Hl Hr]].
  - apply Z.ltb_lt in Hlock. rewrite Hlock. cbn [fst snd].
    repeat split; congruence.
  - rewrite Hl, Hr. cbn [orb]. rewrite andb_false_r.
    destruct (elapsed (now t) (lastButtonPress g) <? DEBOUNCE_DELAY);
      cbn [fst snd]; repeat split; congruence.
Qed.

(** With the display on, a pass with no SELECT return in which Left or Right
    reads pressed and the lock-out has run out moves the screen, whatever the
    pin read on the pass before. *)
Lemma handleButtons_navigates (t : Tick) (g : Globals) :
  selectEvent t g = None ->
  DEBOUNCE_DELAY <= elapsed (now t) (lastButtonPress g) ->
  displayOn g = true ->
  leftPressed t || rightPressed t = true ->
  let target := pressTarget (settingsMode g) (leftPressed t) (currentScreen g) in
  snd (handleButtons t g) = [SwipeTransition (currentScreen g) target]
  /\ navState (fst (handleButtons t g)) = (target, settingsMode g, true)
  /\ lastButtonPress (fst (handleButtons t g)) = now t
  /\ lastPageSwitch (fst (handleButtons t g)) = now t.
Proof.
  intros Hev Hdeb Hon Hpress target.
  destruct (no_select_event t g Hev) as [g1 Hs].
  destruct (handleSelect_fallthrough t g g1 Hs) as [Hv [Hc Hp]].
  unfold pressView in Hv. inversion Hv as [[Hd Hm Hb Ha Hk]].
  unfold handleButtons. rewrite Hs. unfold handleLeftRight, navState.
  rewrite Hb, Hd, Hon, Hpress.
  replace (elapsed (now t) (lastButtonPress g) <? DEBOUNCE_DELAY) with false
    by (symmetry; apply Z.ltb_ge; exact Hdeb).
  cbn [negb andb]. simpl_globals. rewrite Hm, Hc. fold target.
  destruct (Screen_beq target (currentScreen g)) eqn:Esame.
  - exfalso. apply internal_Screen_dec_bl in Esame.
    exact (pressTarget_moves _ _ _ Esame).
  - simpl_globals. rewrite Hd, Hon, Hm. repeat split.
Qed.

Lemma loop_buttons (t : Tick) (g : Globals) :
  autoSwitch g = false ->
  navState (fst (loop t g)) = navState (fst (handleButtons t g))
  /\ lastButtonPress (fst (loop t g)) = lastButtonPress (fst (handleButtons t g))
  /\ selectHeld (fst (loop t g)) = selectHeld (fst (handleButtons t g))
  /\ autoSwitch (fst (loop t g)) = false.
Proof.
  intros Hoff.
  pose proof (loop_pressView t g) as Hp. unfold pressView in Hp.
  pose proof (loop_selView t g) as Hs. unfold selView in Hs.
  pose proof (loop_screen t g Hoff) as Hc.
  pose proof (proj1 (handleButtons_constants t g)) as Ha.
  inversion Hp. inversion Hs. unfold navState.
  repeat split; congruence.
Qed.

(** One accepted Left press ([left = true]) or Right press, seen through a
    whole pass of a build with [autoSwitch] clear. *)
Lemma accepted_press_step (left : bool) (t : Tick) (g : Globals) :
  autoSwitch g = false -> selectHeld g = false -> displayOn g = true ->
  leftPressed t = left -> (left = false -> rightPressed t = true) ->
  selectPressed t = false ->
  DEBOUNCE_DELAY <= elapsed (now t) (lastButtonPress g) ->
  navState (fst (loop t g))
  = (pressTarget (settingsMode g) left (currentScreen g), settingsMode g, true)
  /\ autoSwitch (fst (loop t g)) = false
  /\ selectHeld (fst (loop t g)) = false
  /\ lastButtonPress (fst (loop t g)) = now t.
Proof.
  intros Hoff Hidle Hon Hl Hr Hup Hdeb.
  destruct (select_idle t g Hup Hidle) as [Hev Hheld].
  assert (Hpress : leftPressed t || rightPressed t = true).
  { destruct left; [rewrite Hl; reflexivity |].
    rewrite (Hr eq_refl). apply orb_true_r. }
  destruct (handleButtons_navigates t g Hev Hdeb Hon Hpress)
    as [_ [Hnav [Hb _]]].
  destruct (loop_buttons t g Hoff) as [Hn [Hlb [Hsh Ha]]].
  rewrite Hn, Hnav, Hl, Hlb, Hsh. repeat split; assumption.
Qed.

Lemma accepted_presses_run (left : bool) (ts : list Tick) :
  forall g,
    autoSwitch g = false -> selectHeld g = false -> displayOn g = true ->
    acceptedPresses left (lastButtonPress g) ts ->
    currentScreen (run ts g)
    = iterate (List.length ts) (pressTarget (settingsMode g) left)
              (currentScreen g).
Proof.
  induction ts as [| t ts IH]; intros g Hoff Hidle Hon Hacc.
  - reflexivity.
  - cbn [acceptedPresses] in Hacc.
    destruct Hacc as [Hl [Hr [Hup [Hdeb Hrest]]]].
    destruct (accepted_press_step left t g Hoff Hidle Hon Hl Hr Hup Hdeb)
      as [Hnav [Ha [Hsh Hb]]].
    unfold navState in Hnav. inversion Hnav as [[Hc Hm Hd]].
    cbn [run List.length iterate].
    rewrite IH; try assumption.
    + rewrite Hc, Hm. reflexivity.
    + rewrite Hb. exact Hrest.
Qed.

(** C4 (as the code has it).  Left and Right are sampled by level, with one
    lock-out timer [lastButtonPress] shared by the three buttons.  In a pass
    without a SELECT return: within 200 ms of [lastButtonPress] nothing
    happens (no call, screen, mode, power state and both timers unchanged);
    once 200 ms have passed, with the display on, a pin that reads pressed
    moves the screen and restarts the lock-out.  No earlier pin level is
    consulted: a button held down over two passes 200 ms apart moves the
    screen twice. *)
Theorem left_right_level_sampled (t : Tick) (g : Globals) :
  selectEvent t g = None ->
  (elapsed (now t) (lastButtonPress g) < DEBOUNCE_DELAY ->
   snd (handleButtons t g) = []
   /\ navState (fst (handleButtons t g)) = navState g
   /\ lastButtonPress (fst (handleButtons t g)) = lastButtonPress g
   /\ lastPageSwitch (fst (handleButtons t g)) = lastPageSwitch g)
  /\ (DEBOUNCE_DELAY <= elapsed (now t) (lastButtonPress g) ->
      displayOn g = true -> leftPressed t || rightPressed t = true ->
      snd (handleButtons t g)
      = [SwipeTransition (currentScreen g)
           (pressTarget (settingsMode g) (leftPressed t) (currentScreen g))]
      /\ navState (fst (handleButtons t g))
         = (pressTarget (settingsMode g) (leftPressed t) (currentScreen g),
            settingsMode g, true)
      /\ lastButtonPress (fst (handleButtons t g)) = now t)
  /\ (forall t',
        autoSwitch g = false -> selectHeld g = false -> displayOn g = true ->
        selectPressed t = false -> selectPressed t' = false ->
        leftPressed t = true -> leftPressed t' = true ->
        DEBOUNCE_DELAY <= elapsed (now t) (lastButtonPress g) ->
        DEBOUNCE_DELAY <= elapsed (now t') (now t) ->
        currentScreen (run [t; t'] g)
        = pressTarget (settingsMode g) true
            (pressTarget (settingsMode g) true (currentScreen g))).
Proof.
  intros Hev. split; [| split].
  - intros Hlock. apply handleButtons_swallows; [exact Hev | left; exact Hlock].
  - intros Hdeb Hon Hpress.
    destruct (handleButtons_navigates t g Hev Hdeb Hon Hpress)
      as [Hout [Hnav [Hb _]]].
    repeat split; assumption.
  - intros t' Hoff Hidle Hon Hup Hup' Hl Hl' Hdeb Hdeb'.
    rewrite (accepted_presses_run true [t; t'] g Hoff Hidle Hon).
    + reflexivity.
    + cbn [acceptedPresses]. repeat split; try assumption; discriminate.
Qed.

Lemma left_right_level_sampled_witness :
  currentScreen
    (run [sample 1000 true false false; sample 1200 true false false] booted)
  = SCREEN_CONDITIONS.
Proof.
  destruct (left_right_level_sampled (sample 1000 true false false) booted
              eq_refl) as [_ [_ Hheld]].
  rewrite (Hheld (sample 1200 true false false));
    try reflexivity; vm_compute; discriminate.
Defined.

(** C4 as stated fails.  The loop runs a pass every 60 ms and Left reads
    pressed, without a release, on the five passes from 1000 ms to 1240 ms.
    The pass at 1000 ms moves Hourly to Hourly2, the next three fall inside
    the lock-out, and the pass at 1240 ms moves on to Conditions: the held
    button has produced a second event. *)
Lemma held_left_repeats :
  let held := map (fun k => sample (1000 + 60 * Z.of_nat k) true false false)
                  (seq 0 5) in
  Forall (fun t => leftPressed t = true) held
  /\ currentScreen booted = SCREEN_HOURLY
  /\ map (fun n => currentScreen (run (firstn n held) booted)) (seq 1 5)
     = [SCREEN_HOURLY2; SCREEN_HOURLY2; SCREEN_HOURLY2; SCREEN_HOURLY2;
        SCREEN_CONDITIONS]
  /\ snd (handleButtons (sample 1240 true false false)
                        (run (firstn 4 held) booted))
     = [SwipeTransition SCREEN_HOURLY2 SCREEN_CONDITIONS]
  /\ snd (handleButtons (sample 1240 true false false)
                        (run (firstn 4 held) booted)) <> [].
Proof.
  cbv zeta. split.
  - cbn [map seq]. repeat constructor.
  - vm_compute. repeat split; discriminate.
Qed.

(* ------------------------------------------------------------------ *)
(** ** The Weather cycle *)

Lemma weather_right_inverts_left (s : Screen) :
  screenInMode false s = true ->
  weatherRight (weatherLeft s) = s /\ weatherLeft (weatherRight s) = s.
Proof. destruct s; cbn; intros H; try discriminate; split; reflexivity. Qed.

(** C8.  From Hourly in Weather mode with the display on, four accepted Left
    presses in a row lead through Hourly2, Conditions and Daily back to
    Hourly, four accepted Right presses lead through Daily, Conditions and
    Hourly2 back to Hourly, and on the Weather screens Right undoes Left and
    Left undoes Right. *)
Theorem weather_four_cycle (g : Globals) (t1 t2 t3 t4 : Tick) (left : bool) :
  reachable g ->
  currentScreen g = SCREEN_HOURLY -> settingsMode g = false ->
  displayOn g = true -> selectHeld g = false ->
  acceptedPresses left (lastButtonPress g) [t1; t2; t3; t4] ->
  currentScreen (run [t1] g)
  = (if left then SCREEN_HOURLY2 else SCREEN_DAILY)
  /\ currentScreen (run [t1; t2] g) = SCREEN_CONDITIONS
  /\ currentScreen (run [t1; t2; t3] g)
     = (if left then SCREEN_DAILY else SCREEN_HOURLY2)
  /\ currentScreen (run [t1; t2; t3; t4] g) = SCREEN_HOURLY
  /\ (forall s, screenInMode false s = true ->
        pressTarget false false (pressTarget false true s) = s
        /\ pressTarget false true (pressTarget false false s) = s).
Proof.
  intros Hr Hs Hm Hon Hidle Hacc.
  pose proof (proj1 (reachable_constants g Hr)) as Hoff.
  assert (H4 := accepted_presses_run left [t1; t2; t3; t4] g Hoff Hidle Hon Hacc).
  cbn [acceptedPresses] in Hacc.
  destruct Hacc as (Hl1 & Hr1 & Hu1 & Hd1 & Hl2 & Hr2 & Hu2 & Hd2
                    & Hl3 & Hr3 & Hu3 & Hd3 & _).
  assert (H1 := accepted_presses_run left [t1] g Hoff Hidle Hon).
  assert (H2 := accepted_presses_run left [t1; t2] g Hoff Hidle Hon).
  assert (H3 := accepted_presses_run left [t1; t2; t3] g Hoff Hidle Hon).
  cbn [acceptedPresses] in H1, H2, H3.
  rewrite H1, H2, H3, H4 by tauto.
  rewrite Hs, Hm. cbn [List.length iterate].
  destruct left; repeat split; try reflexivity;
    apply weather_right_inverts_left; assumption.
Qed.

Lemma weather_four_cycle_witness :
  currentScreen
    (run [sample 1000 true false false; sample 1300 true false false;
          sample 1600 true false false; sample 1900 true false false] booted)
  = SCREEN_HOURLY
  /\ currentScreen
       (run [sample 1000 false true false; sample 1300 false true false;
             sample 1600 false true false; sample 1900 false true false] booted)
     = SCREEN_HOURLY.
Proof.
  split.
  - apply (weather_four_cycle booted
             (sample 1000 true false false) (sample 1300 true false false)
             (sample 1600 true false false) (sample 1900 true false false)
             true);
      try reflexivity; [apply reach_setup |].
    vm_compute. repeat split; discriminate.
  - apply (weather_four_cycle booted
             (sample 1000 false true false) (sample 1300 false true false)
             (sample 1600 false true false) (sample 1900 false true false)
             false);
      try reflexivity; [apply reach_setup |].
    vm_compute. repeat split; discriminate.
Defined.

(* ------------------------------------------------------------------ *)
(** ** Left or Right with the display off *)

(** C7.  With the display off, a pass without a SELECT return in which the
    lock-out has run out and Left or Right reads pressed switches the display
    on ([writecommand(0x29)]), goes back to Hourly in Weather mode, redraws
    that screen in full and returns: [handleButtons] makes no further move,
    and in a reachable state the rest of the pass leaves screen, mode and
    power state as they are. *)
Theorem wake_on_left_right (t : Tick) (g : Globals) :
  displayOn g = false ->
  selectEvent t g = None ->
  DEBOUNCE_DELAY <= elapsed (now t) (lastButtonPress g) ->
  leftPressed t || rightPressed t = true ->
  snd (handleButtons t g) = [WriteCommand 41; DisplayScreen SCREEN_HOURLY]
  /\ navState (fst (handleButtons t g)) = (SCREEN_HOURLY, false, true)
  /\ lastButtonPress (fst (handleButtons t g)) = now t
  /\ (reachable g ->
      navState (fst (loop t g)) = (SCREEN_HOURLY, false, true)).
Proof.
  intros Hoffd Hev Hdeb Hpress.
  destruct (no_select_event t g Hev) as [g1 Hs].
  destruct (handleSelect_fallthrough t g g1 Hs) as [Hv [Hc Hp]].
  unfold pressView in Hv. inversion Hv as [[Hd Hm Hb Ha Hk]].
  assert (Hhb : handleButtons t g
                = (set_currentScreen SCREEN_HOURLY
                     (set_settingsMode false
                        (set_displayOn true
                           (set_lastButtonPress (now t) g1))),
                   [WriteCommand 41; DisplayScreen SCREEN_HOURLY])).
  { unfold handleButtons. rewrite Hs. unfold handleLeftRight.
    rewrite Hb, Hd, Hoffd, Hpress.
    replace (elapsed (now t) (lastButtonPress g) <? DEBOUNCE_DELAY) with false
      by (symmetry; apply Z.ltb_ge; exact Hdeb).
    reflexivity. }
  rewrite Hhb. unfold navState. simpl_globals.
  repeat split.
  intros Hr.
  destruct (loop_buttons t g (proj1 (reachable_constants g Hr))) as [Hn _].
  unfold navState in Hn. rewrite Hn, Hhb. reflexivity.
Qed.

Lemma wake_on_left_right_witness :
  navState
    (fst (loop (sample 2000 true false false)
               (run [sample 300 true false false; sample 500 false false true;
                     sample 600 false false false] booted)))
  = (SCREEN_HOURLY, false, true)
  /\ navState
       (run [sample 300 true false false; sample 500 false false true;
             sample 600 false false false] booted)
     = (SCREEN_HOURLY2, false, false).
Proof.
  split; [| reflexivity].
  apply (wake_on_left_right (sample 2000 true false false)
           (run [sample 300 true false false; sample 500 false false true;
                 sample 600 false false false] booted));
    try reflexivity.
  - vm_compute. discriminate.
  - cbn [run]. repeat apply reach_loop. apply reach_setup.
Defined.

(* ------------------------------------------------------------------ *)
(** ** SELECT: one press and release *)

Lemma handleLeftRight_selView (t : Tick) (g : Globals) :
  selView (fst (handleLeftRight t g)) = selView g.
Proof. unfold handleLeftRight. split_flow; reflexivity. Qed.

Ltac select_case :=
  intros;
  let Hheld := fresh "Hheld" in
  let Hdone := fresh "Hdone" in
  let Hstart := fresh "Hstart" in
  match goal with
  | Hv : selView _ = _ |- _ =>
      unfold selView in Hv; injection Hv as Hheld Hdone Hstart
  end;
  rewrite loop_selView;
  unfold selectEvent, handleButtons, handleSelect;
  repeat match goal with
         | H : selectPressed _ = _ |- _ => rewrite H
         end;
  rewrite ?Hheld, ?Hdone; cbn [negb andb];
  try match goal with
      | H : _ < LONG_PRESS_TIME |- _ =>
          rewrite ?(proj2 (Z.ltb_lt _ _) H), ?(proj2 (Z.leb_gt _ _) H)
      | H : LONG_PRESS_TIME <= _ |- _ =>
          rewrite ?(proj2 (Z.leb_le _ _) H), ?(proj2 (Z.ltb_ge _ _) H)
      end;
  cbn [andb];
  try rewrite handleLeftRight_selView;
  repeat break_if; unfold selView; simpl_globals;
  rewrite ?Hheld, ?Hdone, ?Hstart; split; reflexivity.

Lemma press_starts (t : Tick) (g : Globals) (s0 : Z) :
  selView g = (false, false, s0) -> selectPressed t = true ->
  selectEvent t g = None /\ selView (fst (loop t g)) = (true, false, now t).
Proof. select_case. Qed.

Lemma hold_before_threshold (t : Tick) (g : Globals) (s0 : Z) :
  selView g = (true, false, s0) -> selectPressed t = true ->
  elapsed (now t) (selectPressStart g) < LONG_PRESS_TIME ->
  selectEvent t g = None /\ selView (fst (loop t g)) = (true, false, s0).
Proof. select_case. Qed.

Lemma hold_reaches_threshold (t : Tick) (g : Globals) (s0 : Z) :
  selView g = (true, false, s0) -> selectPressed t = true ->
  LONG_PRESS_TIME <= elapsed (now t) (selectPressStart g) ->
  selectEvent t g = Some LongPress
  /\ selView (fst (loop t g)) = (false, true, s0).
Proof. select_case. Qed.

Lemma hold_after_long_press (t : Tick) (g : Globals) (s0 : Z) :
  selView g = (false, true, s0) -> selectPressed t = true ->
  selectEvent t g = None /\ selView (fst (loop t g)) = (false, true, s0).
Proof. select_case. Qed.

Lemma release_before_threshold (t : Tick) (g : Globals) (s0 : Z) :
  selView g = (true, false, s0) -> selectPressed t = false ->
  elapsed (now t) (selectPressStart g) < LONG_PRESS_TIME ->
  selectEvent t g = Some ShortPress
  /\ selView (fst (loop t g)) = (false, false, s0).
Proof. select_case. Qed.

Lemma release_past_threshold (t : Tick) (g : Globals) (s0 : Z) :
  selView g = (true, false, s0) -> selectPressed t = false ->
  LONG_PRESS_TIME <= elapsed (now t) (selectPressStart g) ->
  selectEvent t g = None /\ selView (fst (loop t g)) = (false, false, s0).
Proof. select_case. Qed.

Lemma release_after_long_press (t : Tick) (g : Globals) (s0 : Z) :
  selView g = (false, true, s0) -> selectPressed t = false ->
  selectEvent t g = None /\ selView (fst (loop t g)) = (false, false, s0).
Proof. select_case. Qed.

Lemma run_app (a b : list Tick) (g : Globals) :
  run (a ++ b) g = run b (run a g).
Proof. revert g. induction a as [| t a IH]; intros g; cbn; auto. Qed.

Lemma selectTrace_app (a b : list Tick) (g : Globals) :
  selectTrace (a ++ b) g = selectTrace a g ++ selectTrace b (run a g).
Proof.
  revert g. induction a as [| t a IH]; intros g; cbn; [reflexivity |].
  rewrite IH. reflexivity.
Qed.

Lemma holds_before_threshold (s0 : Z) (hs : list Tick) :
  forall g,
    selView g = (true, false, s0) ->
    Forall (fun h => selectPressed h = true) hs ->
    Forall (fun h => elapsed (now h) s0 < LONG_PRESS_TIME) hs ->
    selectTrace hs g = silent hs /\ selView (run hs g) = (true, false, s0).
Proof.
  induction hs as [| h hs IH]; intros g Hv Hdown Hshort.
  - split; [reflexivity | exact Hv].
  - inversion Hdown as [| ? ? Hd Hdown']; subst.
    inversion Hshort as [| ? ? Hs Hshort']; subst.
    assert (Hstart : selectPressStart g = s0)
      by (unfold selView in Hv; congruence).
    rewrite <- Hstart in Hs.
    destruct (hold_before_threshold h g s0 Hv Hd Hs) as [Hev Hv'].
    destruct (IH _ Hv' Hdown' Hshort') as [Htr Hend].
    cbn [selectTrace run silent map]. rewrite Hev, Htr. split; auto.
Qed.

Lemma holds_after_long_press (s0 : Z) (hs : list Tick) :
  forall g,
    selView g = (false, true, s0) ->
    Forall (fun h => selectPressed h = true) hs ->
    selectTrace hs g = silent hs /\ selView (run hs g) = (false, true, s0).
Proof.
  induction hs as [| h hs IH]; intros g Hv Hdown.
  - split; [reflexivity | exact Hv].
  - inversion Hdown as [| ? ? Hd Hdown']; subst.
    destruct (hold_after_long_press h g s0 Hv Hd) as [Hev Hv'].
    destruct (IH _ Hv' Hdown') as [Htr Hend].
    cbn [selectTrace run silent map]. rewrite Hev, Htr. split; auto.
Qed.

Lemma silent_fires_nothing {A} (l : list A) : filter isEvent (silent l) = [].
Proof. induction l; cbn; auto. Qed.

Lemma first_past_threshold (s0 : Z) (hs : list Tick) :
  Forall (fun h => elapsed (now h) s0 < LONG_PRESS_TIME) hs
  \/ exists hs1 h hs2,
       hs = hs1 ++ h :: hs2
       /\ Forall (fun h => elapsed (now h) s0 < LONG_PRESS_TIME) hs1
       /\ LONG_PRESS_TIME <= elapsed (now h) s0.
Proof.
  induction hs as [| h hs IH].
  - left. constructor.
  - destruct (Z_lt_le_dec (elapsed (now h) s0) LONG_PRESS_TIME) as [Hlt | Hge].
    + destruct IH as [Hall | (hs1 & h' & hs2 & Heq & Hpre & Hge)].
      * left. constructor; assumption.
      * right. exists (h :: hs1), h', hs2. subst.
        repeat split; [constructor; assumption | assumption].
    + right. exists [], h, hs. repeat split; [constructor | assumption].
Qed.

Lemma select_return_effect (t : Tick) (g g' : Globals) (r : SelectReturn)
      (out : list Effect) :
  handleSelect t g = Returned r g' out ->
  match r with
  | ShortPress =>
      displayOn g' = negb (displayOn g) /\ selectPressed t = false
  | LongPress =>
      settingsMode g' = negb (settingsMode g) /\ displayOn g' = displayOn g
      /\ currentScreen g'
         = (if settingsMode g' then SCREEN_SETTINGS else SCREEN_HOURLY)
      /\ selectPressed t = true
  end.
Proof.
  unfold handleSelect. split_flow; intros H; inversion H; subst;
    simpl_globals; bool_facts; repeat split; try congruence.
  all: match goal with
       | E : displayOn _ = _ |- _ => rewrite E; reflexivity
       end.
Qed.

Section PressCycle.

Variables (g : Globals) (p r : Tick) (hs : list Tick).
Hypothesis idle_held : selectHeld g = false.
Hypothesis idle_done : longPressHandled g = false.
Hypothesis p_down : selectPressed p = true.
Hypothesis hs_down : Forall (fun h => selectPressed h = true) hs.
Hypothesis r_up : selectPressed r = false.

Let cycle := p :: hs ++ [r].

Lemma cycle_unfold :
  selectTrace cycle g
  = None :: selectTrace hs (fst (loop p g))
         ++ selectTrace [r] (run hs (fst (loop p g)))
  /\ selView (fst (loop p g)) = (true, false, now p).
Proof.
  assert (Hv : selView g = (false, false, selectPressStart g))
    by (unfold selView; rewrite idle_held, idle_done; reflexivity).
  destruct (press_starts p g _ Hv p_down) as [Hev Hv1].
  unfold cycle. cbn [selectTrace]. rewrite Hev, selectTrace_app.
  split; [reflexivity | exact Hv1].
Qed.

Lemma cycle_short :
  Forall (fun h => heldFor p h < LONG_PRESS_TIME) hs ->
  heldFor p r < LONG_PRESS_TIME ->
  selectTrace cycle g = None :: silent hs ++ [Some ShortPress].
Proof.
  intros Hshort Hrel. destruct cycle_unfold as [Htr Hv1]. rewrite Htr.
  destruct (holds_before_threshold (now p) hs _ Hv1 hs_down Hshort)
    as [Hsil Hv2].
  rewrite Hsil. f_equal. f_equal. cbn [selectTrace].
  assert (Hstart : selectPressStart (run hs (fst (loop p g))) = now p)
    by (unfold selView in Hv2; congruence).
  unfold heldFor in Hrel. rewrite <- Hstart in Hrel.
  destruct (release_before_threshold r _ _ Hv2 r_up Hrel) as [Hev _].
  rewrite Hev. reflexivity.
Qed.

Lemma cycle_neither :
  Forall (fun h => heldFor p h < LONG_PRESS_TIME) hs ->
  LONG_PRESS_TIME <= heldFor p r ->
  selectTrace cycle g = None :: silent hs ++ [None].
Proof.
  intros Hshort Hrel. destruct cycle_unfold as [Htr Hv1]. rewrite Htr.
  destruct (holds_before_threshold (now p) hs _ Hv1 hs_down Hshort)
    as [Hsil Hv2].
  rewrite Hsil. f_equal. f_equal. cbn [selectTrace].
  assert (Hstart : selectPressStart (run hs (fst (loop p g))) = now p)
    by (unfold selView in Hv2; congruence).
  unfold heldFor in Hrel. rewrite <- Hstart in Hrel.
  destruct (release_past_threshold r _ _ Hv2 r_up Hrel) as [Hev _].
  rewrite Hev. reflexivity.
Qed.

Lemma cycle_long (hs1 hs2 : list Tick) (h : Tick) :
  hs = hs1 ++ h :: hs2 ->
  Forall (fun h => heldFor p h < LONG_PRESS_TIME) hs1 ->
  LONG_PRESS_TIME <= heldFor p h ->
  selectTrace cycle g
  = None :: silent hs1 ++ Some LongPress :: silent hs2 ++ [None].
Proof.
  intros Heq Hshort Hlong. destruct cycle_unfold as [Htr Hv1]. rewrite Htr.
  pose proof hs_down as Hdown. rewrite Heq in Hdown.
  apply Forall_app in Hdown. destruct Hdown as [Hd1 Hd2].
  inversion Hd2 as [| ? ? Hdh Hd3]; subst.
  destruct (holds_before_threshold (now p) hs1 _ Hv1 Hd1 Hshort)
    as [Hsil1 Hv2].
  assert (Hstart : selectPressStart (run hs1 (fst (loop p g))) = now p)
    by (unfold selView in Hv2; congruence).
  unfold heldFor in Hlong. rewrite <- Hstart in Hlong.
  destruct (hold_reaches_threshold h _ _ Hv2 Hdh Hlong) as [Hev Hv3].
  destruct (holds_after_long_press (now p) hs2 _ Hv3 Hd3) as [Hsil2 Hv4].
  destruct (release_after_long_press r _ _ Hv4 r_up) as [Hrel _].
  rewrite selectTrace_app, run_app. cbn [selectTrace run].
  rewrite Hsil1, Hev, Hsil2, Hrel.
  rewrite <- app_assoc. reflexivity.
Qed.

Lemma cycle_at_most_one : (firedAny (selectTrace cycle g) <= 1)%nat.
Proof.
  unfold firedAny.
  destruct (first_past_threshold (now p) hs)
    as [Hall | (hs1 & h & hs2 & Heq & Hpre & Hge)].
  - destruct (Z_lt_le_dec (heldFor p r) LONG_PRESS_TIME) as [Hlt | Hge].
    + rewrite (cycle_short Hall Hlt). cbn [filter isEvent].
      rewrite filter_app, silent_fires_nothing. cbn. lia.
    + rewrite (cycle_neither Hall Hge). cbn [filter isEvent].
      rewrite filter_app, silent_fires_nothing. cbn. lia.
  - rewrite (cycle_long hs1 hs2 h Heq Hpre Hge). cbn [filter isEvent].
    rewrite filter_app, silent_fires_nothing. cbn [app filter isEvent].
    rewrite filter_app, silent_fires_nothing. cbn. lia.
Qed.

End PressCycle.

(** C5 (as the code has it).  Take a SELECT press first sampled on pass [p]
    with no press in progress, sampled down on the passes [hs] and sampled up
    on pass [r].  If every sample of the cycle, the release included, comes
    less than 800 ms after the first one, exactly one event fires, a short
    press on the release pass.  If some pass samples the button down 800 ms or
    more after the first sample, exactly one event fires, a long press on the
    first such pass, and nothing fires later, the release included.  No cycle
    fires more than one event.  A short press toggles [displayOn], a long
    press toggles the mode. *)
Theorem select_press_cycle
        (g : Globals) (p r : Tick) (hs : list Tick) :
  selectHeld g = false -> longPressHandled g = false ->
  selectPressed p = true ->
  Forall (fun h => selectPressed h = true) hs ->
  selectPressed r = false ->
  (Forall (fun h => heldFor p h < LONG_PRESS_TIME) hs ->
   heldFor p r < LONG_PRESS_TIME ->
   selectTrace (p :: hs ++ [r]) g = None :: silent hs ++ [Some ShortPress])
  /\ (forall hs1 h hs2,
        hs = hs1 ++ h :: hs2 ->
        Forall (fun h => heldFor p h < LONG_PRESS_TIME) hs1 ->
        LONG_PRESS_TIME <= heldFor p h ->
        selectTrace (p :: hs ++ [r]) g
        = None :: silent hs1 ++ Some LongPress :: silent hs2 ++ [None])
  /\ (firedAny (selectTrace (p :: hs ++ [r]) g) <= 1)%nat
  /\ (forall t g0 g' out,
        handleSelect t g0 = Returned ShortPress g' out ->
        displayOn g' = negb (displayOn g0))
  /\ (forall t g0 g' out,
        handleSelect t g0 = Returned LongPress g' out ->
        settingsMode g' = negb (settingsMode g0)).
Proof.
  intros Hheld Hdone Hp Hhs Hr.
  split; [| split; [| split; [| split]]].
  - apply cycle_short; assumption.
  - intros hs1 h hs2. apply cycle_long; assumption.
  - apply cycle_at_most_one; assumption.
  - intros t g0 g' out H. apply (select_return_effect t g0 g' ShortPress out H).
  - intros t g0 g' out H. apply (select_return_effect t g0 g' LongPress out H).
Qed.

Lemma select_press_cycle_witness :
  selectTrace [sample 1000 false false true; sample 1050 false false true;
               sample 1100 false false false] booted
  = [None; None; Some ShortPress]
  /\ selectTrace [sample 1000 false false true; sample 1790 false false true;
                  sample 1840 false false true; sample 1890 false false true;
                  sample 1940 false false false] booted
     = [None; None; Some LongPress; None; None].
Proof.
  split.
  - apply (select_press_cycle booted (sample 1000 false false true)
             (sample 1100 false false false) [sample 1050 false false true]);
      try reflexivity.
    + repeat constructor.
    + repeat constructor.
  - apply (select_press_cycle booted (sample 1000 false false true)
             (sample 1940 false false false)
             [sample 1790 false false true; sample 1840 false false true;
              sample 1890 false false true]
             eq_refl eq_refl eq_refl
             ltac:(repeat constructor) eq_refl)
      with (hs1 := [sample 1790 false false true])
           (h := sample 1840 false false true)
           (hs2 := [sample 1890 false false true]).
    + reflexivity.
    + repeat constructor.
    + vm_compute. discriminate.
Defined.

(** C5 as stated fails.  The loop runs a pass every 60 ms.  SELECT is first
    sampled down at 1000 ms, is down on the thirteen passes up to 1780 ms and
    is sampled up at 1840 ms, 840 ms after the first sample: no long press
    fires, and no short press either.  When the button is still down at
    1840 ms the long press fires on that pass, 840 ms after the first sample
    and not at 800 ms. *)
Lemma late_release_fires_nothing :
  let p := sample 1000 false false true in
  let hs := map (fun k => sample (1000 + 60 * Z.of_nat k) false false true)
                (seq 1 13) in
  let r := sample 1840 false false false in
  Forall (fun h => heldFor p h < LONG_PRESS_TIME) hs
  /\ LONG_PRESS_TIME <= heldFor p r
  /\ selectTrace (p :: hs ++ [r]) booted = None :: silent hs ++ [None]
  /\ fired LongPress (selectTrace (p :: hs ++ [r]) booted) = 0%nat
  /\ fired ShortPress (selectTrace (p :: hs ++ [r]) booted) = 0%nat
  /\ (let h := sample 1840 false false true in
      let r' := sample 1900 false false false in
      selectTrace (p :: (hs ++ [h]) ++ [r']) booted
      = None :: silent hs ++ [Some LongPress; None]
      /\ heldFor p h = 840).
Proof.
  cbv zeta. split.
  - cbn [map seq]. repeat constructor.
  - vm_compute. repeat split; discriminate.
Qed.

(* ------------------------------------------------------------------ *)
(** ** Weather screens without data *)

Lemma placeholder_has_no_layout (msg : string) :
  existsb Render.isLayoutCall (placeholder msg) = false.
Proof. reflexivity. Qed.

(** With data present the same functions do draw their layout. *)
Lemma valid_data_draws_layout (e : Render.Env) :
  dataValid (Render.w e) = true ->
  (hourlyCount (Render.w e) <> 0 ->
   existsb Render.isLayoutCall (Render.displayHourlyForecast e) = true)
  /\ (14 <= hourlyCount (Render.w e) ->
      existsb Render.isLayoutCall (Render.displayHourlyForecast2 e) = true)
  /\ existsb Render.isLayoutCall (Render.displayConditions e) = true
  /\ (dailyCount (Render.w e) <> 0 ->
      existsb Render.isLayoutCall (Render.displayDailyForecast e) = true).
Proof.
  intros Hvalid.
  unfold Render.displayHourlyForecast, Render.displayHourlyForecast2,
    Render.displayConditions, Render.displayDailyForecast.
  rewrite Hvalid. cbn [negb orb].
  repeat split.
  - intros Hn. apply Z.eqb_neq in Hn. rewrite Hn. reflexivity.
  - intros Hn. apply Z.ltb_ge in Hn. rewrite Hn. reflexivity.
  - intros Hn. apply Z.eqb_neq in Hn. rewrite Hn. reflexivity.
Qed.

(** What the guards of the four weather screens do.  When
    [weather.dataValid] is false, or the count the screen tests says too
    little (no hourly point for Hourly, fewer than 14 for Hourly2, no daily
    point for Daily), the screen draws the placeholder and nothing else: the
    sprite is cleared, the message is written in red in the middle of the
    screen, and no header, icon, temperature, footer or screen indicator is
    drawn.  The calls made do not depend on the weather data. *)
Theorem no_data_draws_placeholder (e : Render.Env) :
  (dataValid (Render.w e) = false \/ hourlyCount (Render.w e) = 0 ->
   Render.displayHourlyForecast e = placeholder "No Hourly Data!")
  /\ (dataValid (Render.w e) = false \/ hourlyCount (Render.w e) < 14 ->
      Render.displayHourlyForecast2 e = placeholder "No Hourly Data!")
  /\ (dataValid (Render.w e) = false ->
      Render.displayConditions e = placeholder "No Data!")
  /\ (dataValid (Render.w e) = false \/ dailyCount (Render.w e) = 0 ->
      Render.displayDailyForecast e = placeholder "No Daily Data!")
  /\ (forall msg, existsb Render.isLayoutCall (placeholder msg) = false).
Proof.
  unfold Render.displayHourlyForecast, Render.displayHourlyForecast2,
    Render.displayConditions, Render.displayDailyForecast, placeholder.
  repeat split.
  - intros [Hi | Hc].
    + rewrite Hi. reflexivity.
    + rewrite Hc, orb_true_r. reflexivity.
  - intros [Hi | Hc].
    + rewrite Hi. reflexivity.
    + apply Z.ltb_lt in Hc. rewrite Hc, orb_true_r. reflexivity.
  - intros Hi. rewrite Hi. reflexivity.
  - intros [Hi | Hc].
    + rewrite Hi. reflexivity.
    + rewrite Hc, orb_true_r. reflexivity.
Qed.

Lemma no_data_draws_placeholder_witness :
  Render.displayDailyForecast (envOf booted 0 6 18)
  = placeholder "No Daily Data!"
  /\ Render.displayHourlyForecast2 (envOf booted 0 6 18)
     = placeholder "No Hourly Data!".
Proof.
  destruct (no_data_draws_placeholder (envOf booted 0 6 18))
    as [_ [H2 [_ [H4 _]]]].
  split.
  - apply H4. left. reflexivity.
  - apply H2. right. vm_compute. reflexivity.
Defined.

(** C6 at a failing input.  The Hourly screen tests [hourlyCount], which
    it no longer draws from, and not [dailyCount], although it prints
    [weather.daily[0].summary].  With valid data, an hourly point and no
    daily point it draws its normal layout, header and icon included, with
    whatever [daily[0]] holds as the summary, where the Daily screen, which
    tests [dailyCount], draws the placeholder. *)
Theorem hourly_screen_ignores_daily_count (e : Render.Env) :
  dataValid (Render.w e) = true ->
  hourlyCount (Render.w e) <> 0 ->
  dailyCount (Render.w e) = 0 ->
  In (Render.DrawWrappedString
        (Render.Lit (d_summary (nth 0 (daily (Render.w e)) Render.zeroDay)))
        160 70 150)
     (Render.displayHourlyForecast e)
  /\ In Render.DrawHeader (Render.displayHourlyForecast e)
  /\ existsb Render.isLayoutCall (Render.displayHourlyForecast e) = true
  /\ Render.displayHourlyForecast e <> placeholder "No Hourly Data!"
  /\ Render.displayDailyForecast e = placeholder "No Daily Data!".
Proof.
  intros Hvalid Hhourly Hdaily.
  assert (Hlayout : existsb Render.isLayoutCall
                            (Render.displayHourlyForecast e) = true)
    by (apply (valid_data_draws_layout e Hvalid); exact Hhourly).
  split; [| split; [| split; [exact Hlayout | split]]].
  - unfold Render.displayHourlyForecast. rewrite Hvalid.
    replace (hourlyCount (Render.w e) =? 0) with false
      by (symmetry; apply Z.eqb_neq; exact Hhourly).
    cbn [negb orb]. right. apply in_or_app. left.
    change (40 + 30) with 70. cbn [In]. tauto.
  - unfold Render.displayHourlyForecast. rewrite Hvalid.
    replace (hourlyCount (Render.w e) =? 0) with false
      by (symmetry; apply Z.eqb_neq; exact Hhourly).
    cbn [negb orb]. right. apply in_or_app. left. cbn [In]. tauto.
  - intros Heq. rewrite Heq in Hlayout.
    rewrite placeholder_has_no_layout in Hlayout. discriminate.
  - unfold Render.displayDailyForecast. rewrite Hvalid, Hdaily.
    reflexivity.
Qed.

Lemma hourly_screen_ignores_daily_count_witness :
  let g := fst (setup (fetching (FetchParsed noDailyPoints) 0
                                (sample 0 false false false))) in
  reachable g
  /\ dailyCount (weather g) = 0
  /\ In (Render.DrawWrappedString (Render.Lit "Showers until evening")
                                  160 70 150)
        (Render.displayHourlyForecast (envOf g 0 6 18)).
Proof.
  cbv zeta. split; [apply reach_setup | split; [reflexivity |]].
  refine (proj1 (hourly_screen_ignores_daily_count
                   (envOf (fst (setup (fetching (FetchParsed noDailyPoints) 0
                                         (sample 0 false false false))))
                          0 6 18) eq_refl _ eq_refl)).
  vm_compute. discriminate.
Defined.

(* ------------------------------------------------------------------ *)
(** ** The final pushSprite *)

(** With data, each weather screen ends with the flush as soon as
    [skipPush] is false, which it is in every reachable state. *)
Lemma normal_layout_ends_with_push (e : Render.Env) :
  skipPush (Render.globals e) = false ->
  dataValid (Render.w e) = true ->
  (hourlyCount (Render.w e) <> 0 ->
   last (Render.displayHourlyForecast e) Render.DrawHeader
   = Render.PushSprite 0 0)
  /\ (14 <= hourlyCount (Render.w e) ->
      last (Render.displayHourlyForecast2 e) Render.DrawHeader
      = Render.PushSprite 0 0)
  /\ last (Render.displayConditions e) Render.DrawHeader
     = Render.PushSprite 0 0
  /\ (dailyCount (Render.w e) <> 0 ->
      last (Render.displayDailyForecast e) Render.DrawHeader
      = Render.PushSprite 0 0).
Proof.
  intros Hskip Hvalid.
  unfold Render.displayHourlyForecast, Render.displayHourlyForecast2,
    Render.displayConditions, Render.displayDailyForecast, Render.finalPush.
  rewrite Hskip, Hvalid. cbn [negb orb].
  repeat split.
  - intros Hn. apply Z.eqb_neq in Hn. rewrite Hn. cbv beta iota.
    rewrite app_comm_cons. rewrite !app_assoc. apply last_last.
  - intros Hn. apply Z.ltb_ge in Hn. rewrite Hn. cbv beta iota.
    rewrite app_comm_cons. rewrite !app_assoc. apply last_last.
  - intros Hn. apply Z.eqb_neq in Hn. rewrite Hn. cbv beta iota zeta.
    rewrite app_comm_cons. rewrite !app_assoc. apply last_last.
Qed.

(** C9 at a failing input.  [setup()] with a failed first fetch, and three
    Left presses later the Daily screen, still without data: both states are
    reachable and have [skipPush] false, yet the screen drawn is the
    placeholder, whose calls contain no [pushSprite]; [displayError] has
    cleared the physical screen and written its message into the sprite
    only. *)
Theorem no_data_path_skips_push :
  let g3 := run [sample 1000 true false false; sample 1300 true false false;
                 sample 1600 true false false] booted in
  reachable booted /\ reachable g3
  /\ skipPush booted = false /\ skipPush g3 = false
  /\ In (DisplayScreen SCREEN_HOURLY) (snd (setup (sample 0 false false false)))
  /\ currentScreen g3 = SCREEN_DAILY
  /\ (forall clock sr ss,
        Render.displayScreen (envOf booted clock sr ss) SCREEN_HOURLY
        = Some (placeholder "No Hourly Data!")
        /\ Render.displayScreen (envOf g3 clock sr ss) SCREEN_DAILY
           = Some (placeholder "No Daily Data!"))
  /\ (forall msg, existsb Render.isPush (placeholder msg) = false)
  /\ (forall msg,
        last (placeholder msg) Render.DrawHeader <> Render.PushSprite 0 0).
Proof.
  cbv zeta.
  split; [apply reach_setup |].
  split; [cbn [run]; repeat apply reach_loop; apply reach_setup |].
  repeat split; try reflexivity.
  - cbn. tauto.
  - intros msg. cbn. discriminate.
Qed.

(* ------------------------------------------------------------------ *)
(** ** Remarks on the clock and the shared lock-out *)

(** Wrapping the clock to 32 bits before subtracting changes nothing, so the
    model may keep the unwrapped clock. *)
Lemma elapsed_wraps (a b : Z) :
  elapsed (a mod 2 ^ 32) (b mod 2 ^ 32) = elapsed a b.
Proof. unfold elapsed. symmetry. apply Zminus_mod. Qed.

Lemma elapsed_range (a b : Z) : 0 <= elapsed a b < 2 ^ 32.
Proof. unfold elapsed. apply Z.mod_pos_bound. reflexivity. Qed.

(** The lock-out is shared: a Right press taken at 1000 ms makes the pass at
    1100 ms ignore Left, although Left was never pressed before. *)
Example right_press_locks_left :
  let g1 := run [sample 1000 false true false] booted in
  currentScreen g1 = SCREEN_DAILY
  /\ handleButtons (sample 1100 true false false) g1 = (g1, [])
  /\ currentScreen (run [sample 1200 true false false] g1) = SCREEN_HOURLY.
Proof. vm_compute. repeat split. Qed.

(* ================================================================== *)
(** * Further properties of the code *)

(* ------------------------------------------------------------------ *)
(** ** SELECT events: where they land *)

Lemma select_event_result (t : Tick) (g : Globals) (r : SelectReturn) :
  selectEvent t g = Some r ->
  handleButtons t g
  = match r with
    | LongPress =>
        (set_currentScreen
           (if settingsMode g then SCREEN_HOURLY else SCREEN_SETTINGS)
           (set_settingsMode (negb (settingsMode g))
              (set_lastButtonPress (now t)
                 (set_longPressHandled true (set_selectHeld false g)))),
         [DisplayScreen
            (if settingsMode g then SCREEN_HOURLY else SCREEN_SETTINGS)])
    | ShortPress =>
        if displayOn g then
          (set_displayOn false
             (set_lastButtonPress (now t) (set_selectHeld false g)),
           [WriteCommand 40])
        else
          (set_currentScreen SCREEN_HOURLY
             (set_settingsMode false
                (set_displayOn true
                   (set_lastButtonPress (now t) (set_selectHeld false g)))),
           [WriteCommand 41; DisplayScreen SCREEN_HOURLY])
    end.
Proof.
  unfold selectEvent, handleButtons, handleSelect.
  destruct (selectPressed t); split_flow; intros H; inversion H; subst;
    try reflexivity.
  all: destruct (settingsMode g); try discriminate; reflexivity.
Qed.

(** A long press of SELECT lands on the first screen of the other mode,
    whatever screen was shown: Settings when in Weather mode, Hourly when in
    Settings mode.  It redraws that screen, restarts the lock-out and leaves
    the power state alone, so with the display off it changes the mode
    without waking the display. *)
Theorem long_press_lands_on_first_screen (t : Tick) (g : Globals) :
  reachable g ->
  selectEvent t g = Some LongPress ->
  navState (fst (loop t g))
  = (if settingsMode g then SCREEN_HOURLY else SCREEN_SETTINGS,
     negb (settingsMode g), displayOn g)
  /\ snd (handleButtons t g)
     = [DisplayScreen
          (if settingsMode g then SCREEN_HOURLY else SCREEN_SETTINGS)]
  /\ lastButtonPress (fst (loop t g)) = now t.
Proof.
  intros Hr Hev.
  destruct (loop_buttons t g (proj1 (reachable_constants g Hr)))
    as [Hn [Hb _]].
  rewrite Hn, Hb, (select_event_result t g LongPress Hev).
  repeat split.
Qed.

Lemma long_press_lands_on_first_screen_witness :
  let g := run (sample 300 true false false
                :: map (fun k => sample (1000 + 50 * Z.of_nat k)
                                        false false true) (seq 0 16))
               booted in
  currentScreen g = SCREEN_HOURLY2
  /\ navState (fst (loop (sample 1800 false false true) g))
     = (SCREEN_SETTINGS, true, true).
Proof.
  cbv zeta. split; [vm_compute; reflexivity |].
  refine (proj1 (long_press_lands_on_first_screen
                   (sample 1800 false false true) _ _ _)).
  - cbn [map seq run]. repeat apply reach_loop. apply reach_setup.
  - vm_compute. reflexivity.
Defined.

(** A short press of SELECT toggles the power state.  Switching off sends
    command 0x28 and keeps screen and mode; switching on sends 0x29, goes to
    Hourly in Weather mode whatever was kept, and redraws. *)
Theorem short_press_toggles_power (t : Tick) (g : Globals) :
  reachable g ->
  selectEvent t g = Some ShortPress ->
  (displayOn g = true ->
   navState (fst (loop t g)) = (currentScreen g, settingsMode g, false)
   /\ snd (handleButtons t g) = [WriteCommand 40])
  /\ (displayOn g = false ->
      navState (fst (loop t g)) = (SCREEN_HOURLY, false, true)
      /\ snd (handleButtons t g)
         = [WriteCommand 41; DisplayScreen SCREEN_HOURLY]).
Proof.
  intros Hr Hev.
  destruct (loop_buttons t g (proj1 (reachable_constants g Hr))) as [Hn _].
  rewrite Hn, (select_event_result t g ShortPress Hev).
  split; intros Hd; rewrite Hd; split; reflexivity.
Qed.

Lemma short_press_toggles_power_witness :
  let g := run [sample 300 true false false; sample 1000 false false true]
               booted in
  navState (fst (loop (sample 1060 false false false) g))
  = (SCREEN_HOURLY2, false, false).
Proof.
  cbv zeta.
  refine (proj1 (proj1 (short_press_toggles_power
                          (sample 1060 false false false) _ _ _) _)).
  - cbn [run]. repeat apply reach_loop. apply reach_setup.
  - vm_compute. reflexivity.
  - vm_compute. reflexivity.
Defined.

(* ------------------------------------------------------------------ *)
(** ** The Settings cycle *)

Lemma settings_right_inverts_left (s : Screen) :
  screenInMode true s = true ->
  settingsRight (settingsLeft s) = s /\ settingsLeft (settingsRight s) = s.
Proof. destruct s; cbn; intros H; try discriminate; split; reflexivity. Qed.

(** In Settings mode the five pages form one cycle: from Settings, five
    accepted Left presses pass through About, Demo, Demo2 and Demo3 and come
    back to Settings, five accepted Right presses pass through them in the
    opposite order, no smaller number of presses comes back, and Right undoes
    Left on every page. *)
Theorem settings_five_cycle
        (g : Globals) (t1 t2 t3 t4 t5 : Tick) (left : bool) :
  reachable g ->
  currentScreen g = SCREEN_SETTINGS -> settingsMode g = true ->
  displayOn g = true -> selectHeld g = false ->
  acceptedPresses left (lastButtonPress g) [t1; t2; t3; t4; t5] ->
  map (fun n => currentScreen (run (firstn n [t1; t2; t3; t4; t5]) g))
      [1; 2; 3; 4; 5]%nat
  = (if left
     then [SCREEN_ABOUT; SCREEN_DEMO; SCREEN_DEMO2; SCREEN_DEMO3;
           SCREEN_SETTINGS]
     else [SCREEN_DEMO3; SCREEN_DEMO2; SCREEN_DEMO; SCREEN_ABOUT;
           SCREEN_SETTINGS])
  /\ (forall s, screenInMode true s = true ->
        pressTarget true false (pressTarget true true s) = s
        /\ pressTarget true true (pressTarget true false s) = s).
Proof.
  intros Hr Hs Hm Hon Hidle Hacc.
  pose proof (proj1 (reachable_constants g Hr)) as Hoff.
  cbn [acceptedPresses] in Hacc.
  destruct Hacc as (Hl1 & Hr1 & Hu1 & Hd1 & Hl2 & Hr2 & Hu2 & Hd2
                    & Hl3 & Hr3 & Hu3 & Hd3 & Hl4 & Hr4 & Hu4 & Hd4
                    & Hl5 & Hr5 & Hu5 & Hd5 & _).
  split.
  - cbn [map firstn].
    rewrite (accepted_presses_run left [t1] g Hoff Hidle Hon)
      by (cbn [acceptedPresses]; tauto).
    rewrite (accepted_presses_run left [t1; t2] g Hoff Hidle Hon)
      by (cbn [acceptedPresses]; tauto).
    rewrite (accepted_presses_run left [t1; t2; t3] g Hoff Hidle Hon)
      by (cbn [acceptedPresses]; tauto).
    rewrite (accepted_presses_run left [t1; t2; t3; t4] g Hoff Hidle Hon)
      by (cbn [acceptedPresses]; tauto).
    rewrite (accepted_presses_run left [t1; t2; t3; t4; t5] g Hoff Hidle Hon)
      by (cbn [acceptedPresses]; tauto).
    rewrite Hs, Hm. destruct left; reflexivity.
  - intros s Hin. apply settings_right_inverts_left. exact Hin.
Qed.

Lemma settings_five_cycle_witness :
  let g := run (map (fun k => sample (1000 + 50 * Z.of_nat k)
                                     false false true) (seq 0 17)
                ++ [sample 1900 false false false]) booted in
  map (fun n => currentScreen
                  (run (firstn n [sample 2100 true false false;
                                  sample 2400 true false false;
                                  sample 2700 true false false;
                                  sample 3000 true false false;
                                  sample 3300 true false false]) g))
      [1; 2; 3; 4; 5]%nat
  = [SCREEN_ABOUT; SCREEN_DEMO; SCREEN_DEMO2; SCREEN_DEMO3; SCREEN_SETTINGS].
Proof.
  cbv zeta.
  refine (proj1 (settings_five_cycle _ _ _ _ _ _ true _ _ _ _ _ _)).
  - cbn [map seq run app]. repeat apply reach_loop. apply reach_setup.
  - vm_compute. reflexivity.
  - vm_compute. reflexivity.
  - vm_compute. reflexivity.
  - vm_compute. reflexivity.
  - vm_compute. repeat split; discriminate.
Defined.

(* ------------------------------------------------------------------ *)
(** ** The SELECT bookkeeping *)

Lemma release_when_idle (t : Tick) (g : Globals) (s0 : Z) :
  selView g = (false, false, s0) -> selectPressed t = false ->
  selectEvent t g = None /\ selView (fst (loop t g)) = (false, false, s0).
Proof. select_case. Qed.

Lemma loop_tracker (t : Tick) (g : Globals) :
  selectHeld g && longPressHandled g = false ->
  selectHeld (fst (loop t g)) && longPressHandled (fst (loop t g)) = false
  /\ (selectPressed t = false ->
      selectHeld (fst (loop t g)) = false
      /\ longPressHandled (fst (loop t g)) = false).
Proof.
  intros Hinv.
  assert (Hv : selView g
               = (selectHeld g, longPressHandled g, selectPressStart g))
    by reflexivity.
  assert (Hfields : forall h l s,
            selView (fst (loop t g)) = (h, l, s) ->
            selectHeld (fst (loop t g)) = h
            /\ longPressHandled (fst (loop t g)) = l).
  { unfold selView. intros h l s H. injection H as H1 H2 H3. tauto. }
  destruct (selectHeld g) eqn:Hh; destruct (longPressHandled g) eqn:Hl;
    try discriminate; destruct (selectPressed t) eqn:Hp.
  - destruct (Z_lt_le_dec (elapsed (now t) (selectPressStart g))
                          LONG_PRESS_TIME) as [Hlt | Hge].
    + destruct (hold_before_threshold t g _ Hv Hp Hlt) as [_ H].
      destruct (Hfields _ _ _ H) as [-> ->]. split; [reflexivity | discriminate].
    + destruct (hold_reaches_threshold t g _ Hv Hp Hge) as [_ H].
      destruct (Hfields _ _ _ H) as [-> ->]. split; [reflexivity | discriminate].
  - destruct (Z_lt_le_dec (elapsed (now t) (selectPressStart g))
                          LONG_PRESS_TIME) as [Hlt | Hge].
    + destruct (release_before_threshold t g _ Hv Hp Hlt) as [_ H].
      destruct (Hfields _ _ _ H) as [-> ->]. repeat split.
    + destruct (release_past_threshold t g _ Hv Hp Hge) as [_ H].
      destruct (Hfields _ _ _ H) as [-> ->]. repeat split.
  - destruct (hold_after_long_press t g _ Hv Hp) as [_ H].
    destruct (Hfields _ _ _ H) as [-> ->]. split; [reflexivity | discriminate].
  - destruct (release_after_long_press t g _ Hv Hp) as [_ H].
    destruct (Hfields _ _ _ H) as [-> ->]. repeat split.
  - destruct (press_starts t g _ Hv Hp) as [_ H].
    destruct (Hfields _ _ _ H) as [-> ->]. split; [reflexivity | discriminate].
  - destruct (release_when_idle t g _ Hv Hp) as [_ H].
    destruct (Hfields _ _ _ H) as [-> ->]. repeat split.
Qed.

(** The two flags of the SELECT tracker are never set together, and in a
    reachable state every pass that samples SELECT up leaves the tracker
    idle (both flags clear), so the next press starts a fresh cycle. *)
Theorem select_tracker_invariant (g : Globals) :
  reachable g ->
  selectHeld g && longPressHandled g = false
  /\ (forall t, selectPressed t = false ->
        selectHeld (fst (loop t g)) = false
        /\ longPressHandled (fst (loop t g)) = false).
Proof.
  intros Hr.
  assert (Hinv : selectHeld g && longPressHandled g = false).
  { induction Hr as [t | t g Hr IH]; [reflexivity |].
    apply loop_tracker. exact IH. }
  split; [exact Hinv |].
  intros t Hup. apply (proj2 (loop_tracker t g Hinv)). exact Hup.
Qed.

Lemma select_tracker_invariant_witness :
  let g := run (map (fun k => sample (1000 + 50 * Z.of_nat k)
                                     false false true) (seq 0 18)) booted in
  longPressHandled g = true
  /\ selView (fst (loop (sample 1900 false false false) g))
     = (false, false, 1000).
Proof.
  cbv zeta. split; [vm_compute; reflexivity |].
  assert (Hr : reachable
                 (run (map (fun k => sample (1000 + 50 * Z.of_nat k)
                                            false false true) (seq 0 18))
                      booted))
    by (cbn [map seq run]; repeat apply reach_loop; apply reach_setup).
  destruct (proj2 (select_tracker_invariant _ Hr)
                  (sample 1900 false false false) eq_refl) as [H1 H2].
  unfold selView. rewrite H1, H2. vm_compute. reflexivity.
Defined.

(* ------------------------------------------------------------------ *)
(** ** The calls of a whole pass *)

Lemma andThen_snd (a b : Stmt) (g : Globals) :
  snd ((a ;; b) g) = snd (a g) ++ snd (b (fst (a g))).
Proof.
  unfold andThen. destruct (a g) as [g1 e1]. cbn.
  destruct (b g1) as [g2 e2]. reflexivity.
Qed.

Lemma loop_snd (t : Tick) (g : Globals) :
  snd (loop t g)
  = snd (reconnect t g)
    ++ snd (handleButtons t g)
    ++ snd (autoPageSwitch t (afterButtons t g))
    ++ snd (periodicUpdate t (afterAutoSwitch t g))
    ++ snd (colonFlash t (fst (periodicUpdate t (afterAutoSwitch t g))))
    ++ [Delay 50].
Proof.
  unfold loop, afterAutoSwitch, afterButtons.
  rewrite !andThen_snd, ?andThen_fst, ?reconnect_fst. reflexivity.
Qed.

Lemma lastUpdate_before_refresh (t : Tick) (g : Globals) :
  lastUpdate (afterAutoSwitch t g) = lastUpdate g.
Proof.
  unfold afterAutoSwitch, afterButtons. rewrite reconnect_fst.
  unfold autoPageSwitch, handleButtons, handleSelect, handleLeftRight.
  split_flow; reflexivity.
Qed.

Lemma no_fetch_outside_refresh (t : Tick) (g : Globals) :
  existsb isFetch (snd (reconnect t g)) = false
  /\ existsb isFetch (snd (handleButtons t g)) = false
  /\ existsb isFetch (snd (autoPageSwitch t g)) = false
  /\ existsb isFetch (snd (colonFlash t g)) = false.
Proof.
  unfold reconnect, autoPageSwitch, colonFlash,
    handleButtons, handleSelect, handleLeftRight.
  repeat split; split_flow; reflexivity.
Qed.

Lemma loop_fetch (t : Tick) (g : Globals) :
  existsb isFetch (snd (loop t g))
  = (UPDATE_INTERVAL <=? elapsed (now t) (lastUpdate g))
  /\ lastUpdate (fst (loop t g))
     = (if UPDATE_INTERVAL <=? elapsed (now t) (lastUpdate g)
        then nowLate t else lastUpdate g).
Proof.
  split.
  - rewrite loop_snd, !existsb_app.
    rewrite (proj1 (no_fetch_outside_refresh t g)).
    rewrite (proj1 (proj2 (no_fetch_outside_refresh t g))).
    rewrite (proj1 (proj2 (proj2 (no_fetch_outside_refresh t _)))).
    rewrite (proj2 (proj2 (proj2 (no_fetch_outside_refresh t _)))).
    cbn [orb existsb isFetch]. rewrite !orb_false_r.
    unfold periodicUpdate. rewrite lastUpdate_before_refresh.
    break_if; reflexivity.
  - rewrite loop_fst. fold (afterButtons t g).
    replace (fst (handleButtons t g)) with (afterButtons t g)
      by (unfold afterButtons; rewrite reconnect_fst; reflexivity).
    fold (afterAutoSwitch t g).
    pose proof (lastUpdate_before_refresh t g) as Hl.
    unfold colonFlash, periodicUpdate. rewrite Hl.
    split_flow; try reflexivity; exact Hl.
Qed.

(* ------------------------------------------------------------------ *)
(** ** The periodic refresh *)

Lemma clocksFrom_weaken (c c' : Z) (ts : list Tick) :
  c' <= c -> clocksFrom c ts -> clocksFrom c' ts.
Proof.
  destruct ts as [| t ts]; cbn; [tauto |].
  intros Hle (H1 & H2 & H3). split; [lia | split; assumption].
Qed.

Lemma restedBy_cons (d : Z) (a : Z * Z) (l : list (Z * Z)) :
  Forall (fun s => d <= fst s - snd a) l -> restedBy d l ->
  restedBy d (a :: l).
Proof.
  destruct l as [| b l]; cbn; [tauto |].
  intros Hall Hsp. inversion Hall; subst. split; assumption.
Qed.

Lemma spacedBy_cons (d a : Z) (l : list Z) :
  Forall (fun c => d <= c - a) l -> spacedBy d l -> spacedBy d (a :: l).
Proof.
  destruct l as [| b l]; cbn; [tauto |].
  intros Hall Hsp. inversion Hall; subst. split; assumption.
Qed.

Lemma fetch_spans_rested (ts : list Tick) :
  forall g,
    clocksFrom (lastUpdate g) ts ->
    restedBy UPDATE_INTERVAL (fetchSpans ts g)
    /\ spacedBy UPDATE_INTERVAL (map fst (fetchSpans ts g))
    /\ Forall (fun s => UPDATE_INTERVAL <= fst s - lastUpdate g
                        /\ fst s <= snd s)
              (fetchSpans ts g).
Proof.
  induction ts as [| t ts IH]; intros g Hclk.
  - repeat split; constructor.
  - cbn [clocksFrom] in Hclk. destruct Hclk as (Hle & Hin & Hrest).
    cbn [fetchSpans].
    destruct (loop_fetch t g) as [Hf Hl]. rewrite Hf.
    destruct (UPDATE_INTERVAL <=? elapsed (now t) (lastUpdate g)) eqn:Hdue.
    + apply Z.leb_le in Hdue.
      assert (Hgap : UPDATE_INTERVAL <= now t - lastUpdate g).
      { unfold elapsed in Hdue.
        pose proof (Z.mod_le (now t - lastUpdate g) (2 ^ 32)
                             ltac:(lia) ltac:(reflexivity)).
        lia. }
      destruct (IH (fst (loop t g))) as (Hsp & Hst & Hall).
      { rewrite Hl. exact Hrest. }
      rewrite Hl in Hall. cbn [app map fst]. split; [| split].
      * apply restedBy_cons; [| exact Hsp].
        eapply Forall_impl; [| exact Hall]. cbn. intros s Hs. lia.
      * apply spacedBy_cons; [| exact Hst].
        apply Forall_map.
        eapply Forall_impl; [| exact Hall]. cbn. intros s Hs.
        unfold UPDATE_INTERVAL in *. lia.
      * constructor; [cbn; lia |].
        eapply Forall_impl; [| exact Hall]. cbn. intros s Hs.
        unfold UPDATE_INTERVAL in *. lia.
    + destruct (IH (fst (loop t g))) as (Hsp & Hst & Hall).
      { rewrite Hl. eapply clocksFrom_weaken; [| exact Hrest]. lia. }
      rewrite Hl in Hall. cbn [app]. repeat split; assumption.
Qed.

(** Over any run whose clock never goes back, a pass fetches only when at
    least 300000 ms have gone by since the refresh block of the previous
    fetching pass was through (the fetch and the redraw included), so two
    successive fetches also start at least 300000 ms apart; the first fetch
    of the run starts at least 300000 ms after the [lastUpdate] the run
    started with. *)
Theorem fetches_are_spaced (ts : list Tick) (g : Globals) :
  clocksFrom (lastUpdate g) ts ->
  restedBy UPDATE_INTERVAL (fetchSpans ts g)
  /\ spacedBy UPDATE_INTERVAL (map fst (fetchSpans ts g))
  /\ Forall (fun s => UPDATE_INTERVAL <= fst s - lastUpdate g)
            (fetchSpans ts g).
Proof.
  intros Hclk. destruct (fetch_spans_rested ts g Hclk) as (H1 & H2 & H3).
  split; [exact H1 | split; [exact H2 |]].
  eapply Forall_impl; [| exact H3]. cbn. tauto.
Qed.

Lemma fetches_are_spaced_witness :
  let ts := map (fun k => fetching FetchFailed (100000 * Z.of_nat k + 2000)
                            (sample (100000 * Z.of_nat k) false false false))
                (seq 1 7) in
  fetchSpans ts booted = [(300000, 302000); (700000, 702000)]
  /\ restedBy UPDATE_INTERVAL (fetchSpans ts booted).
Proof.
  cbv zeta. split; [vm_compute; reflexivity |].
  refine (proj1 (fetches_are_spaced _ booted _)).
  vm_compute. repeat split; discriminate.
Defined.

(** A refresh that fails keeps the readings of the last good fetch in memory
    but clears [dataValid], so from then on each of the four weather screens
    draws the placeholder with its own message; the screen is redrawn at
    once only when the display is on, and [lastUpdate] takes the clock read
    after the fetch, so the next attempt waits for the full interval from
    there. *)
Theorem failed_refresh_hides_data (t : Tick) (g : Globals) :
  UPDATE_INTERVAL <= elapsed (now t) (lastUpdate g) ->
  fetched t = FetchFailed ->
  weather (fst (periodicUpdate t g)) = set_dataValid false (weather g)
  /\ lastUpdate (fst (periodicUpdate t g)) = nowLate t
  /\ snd (periodicUpdate t g)
     = FetchOneCallData
       :: (if displayOn g then [DisplayScreen (currentScreen g)] else [])
  /\ (forall clock sr ss,
        map (Render.displayScreen
               (envOf (fst (periodicUpdate t g)) clock sr ss))
            [SCREEN_HOURLY; SCREEN_HOURLY2; SCREEN_CONDITIONS; SCREEN_DAILY]
        = [Some (placeholder "No Hourly Data!");
           Some (placeholder "No Hourly Data!");
           Some (placeholder "No Data!");
           Some (placeholder "No Daily Data!")]).
Proof.
  intros Hdue Hfail.
  assert (Heq : periodicUpdate t g
                = (set_lastUpdate (nowLate t)
                     (set_weather (set_dataValid false (weather g)) g),
                   FetchOneCallData
                   :: (if displayOn g then [DisplayScreen (currentScreen g)]
                       else []))).
  { unfold periodicUpdate. apply Z.leb_le in Hdue. rewrite Hdue, Hfail.
    reflexivity. }
  rewrite Heq. repeat split.
Qed.

Lemma failed_refresh_hides_data_witness :
  let good := fst (setup (fetching (FetchParsed (sampleWeather 14 3)) 0
                                   (sample 0 false false false))) in
  let t := fetching FetchFailed 302000 (sample 300000 false false false) in
  dataValid (weather good) = true
  /\ dataValid (weather (fst (periodicUpdate t good))) = false
  /\ lastUpdate (fst (periodicUpdate t good)) = 302000
  /\ Render.displayScreen (envOf (fst (periodicUpdate t good)) 0 6 18)
                          SCREEN_DAILY
     = Some [ Render.FillSprite Render.COLOR_BG;
              Render.TftFillScreen Render.COLOR_BG;
              Render.SetTextDatum Render.MC_DATUM;
              Render.SetTextFont 4;
              Render.SetTextColor (Render.Fixed Render.TFT_RED)
                                  Render.COLOR_BG;
              Render.DrawString (Render.Lit "No Daily Data!") 160 120 ].
Proof.
  cbv zeta. split; [reflexivity |].
  assert (Hdue : UPDATE_INTERVAL
                 <= elapsed
                      (now (fetching FetchFailed 302000
                                     (sample 300000 false false false)))
                      (lastUpdate
                         (fst (setup
                                 (fetching (FetchParsed (sampleWeather 14 3))
                                           0 (sample 0 false false false))))))
    by (vm_compute; discriminate).
  destruct (failed_refresh_hides_data _ _ Hdue eq_refl)
    as (Hw & Hl & _ & Hs).
  split; [rewrite Hw; reflexivity | split; [exact Hl |]].
  pose proof (f_equal (fun l => nth 3 l None) (Hs 0 6 18)) as Hd.
  cbn [map nth] in Hd. rewrite Hd. reflexivity.
Defined.

(* ------------------------------------------------------------------ *)
(** ** Display off *)

(** With the display off and WiFi up, a pass in which no button does
    anything draws nothing and sends no display command: screen, mode, power
    state and the colon stay as they are.  The periodic fetch still runs
    when it is due, without a redraw. *)
Theorem standby_draws_nothing (t : Tick) (g : Globals) :
  reachable g ->
  displayOn g = false -> wifiConnected t = true ->
  selectEvent t g = None ->
  leftPressed t = false -> rightPressed t = false ->
  existsb isDisplayCall (snd (loop t g)) = false
  /\ navState (fst (loop t g)) = navState g
  /\ colonVisible (fst (loop t g)) = colonVisible g
  /\ existsb isFetch (snd (loop t g))
     = (UPDATE_INTERVAL <=? elapsed (now t) (lastUpdate g)).
Proof.
  intros Hr Hoffd Hwifi Hev Hl Hrt.
  pose proof (proj1 (reachable_constants g Hr)) as Hauto.
  destruct (handleButtons_swallows t g Hev (or_intror (conj Hl Hrt)))
    as [Hout [Hnav _]].
  assert (Hab : afterButtons t g = fst (handleButtons t g))
    by (unfold afterButtons; rewrite reconnect_fst; reflexivity).
  assert (Haa : afterAutoSwitch t g = fst (handleButtons t g)).
  { unfold afterAutoSwitch. rewrite Hab, autoPageSwitch_disabled;
      [reflexivity |].
    rewrite (proj1 (handleButtons_constants t g)). exact Hauto. }
  assert (Hd1 : displayOn (fst (handleButtons t g)) = false)
    by (unfold navState in Hnav; congruence).
  split; [| split; [| split]].
  - rewrite loop_snd, Haa, Hab, Hout.
    rewrite autoPageSwitch_disabled
      by (rewrite (proj1 (handleButtons_constants t g)); exact Hauto).
    unfold reconnect. rewrite Hwifi. cbn [fst snd app].
    unfold periodicUpdate.
    destruct (UPDATE_INTERVAL
              <=? elapsed (now t) (lastUpdate (fst (handleButtons t g))));
      simpl_globals; rewrite ?Hd1; unfold colonFlash; simpl_globals;
      rewrite ?Hd1; reflexivity.
  - destruct (loop_buttons t g Hauto) as [Hn _]. congruence.
  - rewrite loop_fst. fold (afterButtons t g). rewrite <- Hab.
    fold (afterAutoSwitch t g). rewrite Haa.
    assert (Hc : colonVisible (fst (handleButtons t g)) = colonVisible g).
    { unfold handleButtons, handleSelect, handleLeftRight.
      split_flow; reflexivity. }
    unfold periodicUpdate.
    destruct (UPDATE_INTERVAL
              <=? elapsed (now t) (lastUpdate (fst (handleButtons t g))));
      simpl_globals; unfold colonFlash; simpl_globals;
      rewrite ?Hd1; exact Hc.
  - apply loop_fetch.
Qed.

Lemma standby_draws_nothing_witness :
  let g := run [sample 1000 false false true; sample 1060 false false false]
               booted in
  displayOn g = false
  /\ existsb isDisplayCall
       (snd (loop (sample 300000 false false false) g)) = false
  /\ existsb isFetch (snd (loop (sample 300000 false false false) g)) = true.
Proof.
  cbv zeta. split; [vm_compute; reflexivity |].
  assert (Hr : reachable
                 (run [sample 1000 false false true;
                       sample 1060 false false false] booted))
    by (cbn [run]; repeat apply reach_loop; apply reach_setup).
  destruct (standby_draws_nothing (sample 300000 false false false) _ Hr
              eq_refl eq_refl eq_refl eq_refl eq_refl) as [H1 [_ [_ H4]]].
  split; [exact H1 | rewrite H4; vm_compute; reflexivity].
Defined.

(* ------------------------------------------------------------------ *)
(** ** The clock may wrap *)

Lemma elapsed_wrap32 (a b : Z) : elapsed (wrap32 a) (wrap32 b) = elapsed a b.
Proof. unfold wrap32. apply elapsed_wraps. Qed.

Ltac simpl_wrapped :=
  cbn [wrapTick wrapGlobals now nowLate leftPressed rightPressed
       selectPressed wifiConnected fetched fst snd
       lastUpdate lastButtonPress currentScreen lastPageSwitch autoSwitch
       lastColonUpdate colonVisible displayOn skipPush settingsMode
       selectPressStart selectHeld longPressHandled weather
       set_lastUpdate set_lastButtonPress set_currentScreen
       set_lastPageSwitch set_lastColonUpdate set_colonVisible set_displayOn
       set_settingsMode set_selectPressStart set_selectHeld
       set_longPressHandled set_weather] in *;
  rewrite ?elapsed_wrap32.

Lemma andThen_commutes (P Q : Tick -> Stmt) :
  commutesWithWrap P -> commutesWithWrap Q ->
  commutesWithWrap (fun t => P t ;; Q t).
Proof.
  unfold commutesWithWrap, andThen. intros HP HQ t g.
  rewrite HP. destruct (P t g) as [g1 e1]. cbn [fst snd].
  rewrite HQ. destruct (Q t g1) as [g2 e2]. reflexivity.
Qed.

Lemma handleButtons_commutes : commutesWithWrap handleButtons.
Proof.
  intros t g. unfold handleButtons, handleSelect, handleLeftRight.
  repeat (simpl_wrapped; break_if); simpl_wrapped; reflexivity.
Qed.

Lemma tail_commutes :
  commutesWithWrap reconnect /\ commutesWithWrap autoPageSwitch
  /\ commutesWithWrap periodicUpdate /\ commutesWithWrap colonFlash
  /\ commutesWithWrap (fun _ => pause).
Proof.
  repeat split; intros t g;
    unfold reconnect, autoPageSwitch, periodicUpdate, colonFlash, pause;
    repeat (simpl_wrapped; break_if); simpl_wrapped; reflexivity.
Qed.

(** The firmware does not notice [millis()] wrapping round: run on the
    32-bit clock, with every stored timestamp wrapped, a pass makes the same
    calls and reaches the wrapped image of the state it reaches on an
    unbounded clock.  A timer that became due [d] ms ago, [d < 2^32], is seen
    as due [d] ms ago whether or not the clock wrapped in between. *)
Theorem loop_survives_clock_wrap (t : Tick) (g : Globals) :
  loop (wrapTick t) (wrapGlobals g)
  = (wrapGlobals (fst (loop t g)), snd (loop t g))
  /\ (forall last d, 0 <= d < 2 ^ 32 ->
        elapsed (wrap32 (last + d)) (wrap32 last) = d).
Proof.
  destruct tail_commutes as (Hr & Ha & Hu & Hc & Hp).
  split.
  - apply (andThen_commutes reconnect
             (fun t => handleButtons t ;; autoPageSwitch t ;;
                       periodicUpdate t ;; colonFlash t ;; pause) Hr).
    apply (andThen_commutes handleButtons
             (fun t => autoPageSwitch t ;; periodicUpdate t ;;
                       colonFlash t ;; pause) handleButtons_commutes).
    apply (andThen_commutes autoPageSwitch
             (fun t => periodicUpdate t ;; colonFlash t ;; pause) Ha).
    apply (andThen_commutes periodicUpdate
             (fun t => colonFlash t ;; pause) Hu).
    apply (andThen_commutes colonFlash (fun _ => pause) Hc Hp).
  - intros last d Hd. rewrite elapsed_wrap32. unfold elapsed.
    replace (last + d - last) with d by lia.
    apply Z.mod_small. exact Hd.
Qed.

Lemma loop_survives_clock_wrap_witness :
  elapsed (wrap32 (2 ^ 32 - 100 + 300)) (wrap32 (2 ^ 32 - 100)) = 300
  /\ wrap32 (2 ^ 32 - 100 + 300) = 200.
Proof.
  split; [| reflexivity].
  apply (proj2 (loop_survives_clock_wrap (sample 0 false false false) booted)).
  lia.
Defined.

(* ------------------------------------------------------------------ *)
(** ** What was drawn last is what is current *)

Lemma lastRedraw_from (es : list Effect) :
  forall acc,
    fold_left redrawStep es acc
    = match fold_left redrawStep es None with
      | Some s => Some s
      | None => acc
      end.
Proof.
  induction es as [| e es IH]; intros acc; [reflexivity |].
  cbn [fold_left]. rewrite (IH (redrawStep acc e)), (IH (redrawStep None e)).
  destruct (fold_left redrawStep es None); [reflexivity |].
  destruct e; reflexivity.
Qed.

Lemma lastRedraw_app (a b : list Effect) :
  lastRedraw (a ++ b)
  = match lastRedraw b with
    | Some s => Some s
    | None => lastRedraw a
    end.
Proof.
  unfold lastRedraw. fold redrawStep.
  rewrite fold_left_app. apply lastRedraw_from.
Qed.

Lemma andThen_redrawsCurrent (P Q : Stmt) :
  redrawsCurrent P -> redrawsCurrent Q -> redrawsCurrent (P ;; Q).
Proof.
  intros HP HQ g. rewrite andThen_snd, andThen_fst, lastRedraw_app.
  specialize (HP g). specialize (HQ (fst (P g))).
  destruct (lastRedraw (snd (Q (fst (P g))))); [exact HQ |].
  destruct (lastRedraw (snd (P g))); congruence.
Qed.

Lemma statements_redrawCurrent (t : Tick) :
  redrawsCurrent (reconnect t) /\ redrawsCurrent (handleButtons t)
  /\ redrawsCurrent (autoPageSwitch t) /\ redrawsCurrent (periodicUpdate t)
  /\ redrawsCurrent (colonFlash t) /\ redrawsCurrent pause.
Proof.
  repeat split; intros g;
    unfold reconnect, handleButtons, handleSelect, handleLeftRight,
      autoPageSwitch, periodicUpdate, colonFlash, pause;
    split_flow; try reflexivity.
  all: match goal with
       | H : Screen_beq _ _ = true |- _ =>
           apply internal_Screen_dec_bl in H; exact H
       end.
Qed.

(** In every pass, from any state, the last full redraw made (by a button,
    the auto page switch or the refresh) is a redraw of the screen that is
    current when the pass ends, and a pass that makes no full redraw leaves
    the current screen as it was: the screen never changes without being
    drawn. *)
Theorem pass_redraws_current_screen (t : Tick) (g : Globals) :
  match lastRedraw (snd (loop t g)) with
  | Some s => s = currentScreen (fst (loop t g))
  | None => currentScreen (fst (loop t g)) = currentScreen g
  end.
Proof.
  destruct (statements_redrawCurrent t) as (Hr & Hb & Ha & Hu & Hc & Hp).
  unfold loop. revert g.
  repeat apply andThen_redrawsCurrent; assumption.
Qed.

(* ------------------------------------------------------------------ *)
(** ** Checking a finite range *)

Lemma zrange_forall (P : Z -> bool) (lo : Z) (n : nat) :
  forallb P (zrange lo n) = true ->
  forall z, lo <= z < lo + Z.of_nat n -> P z = true.
Proof.
  intros Hall z Hz. rewrite forallb_forall in Hall. apply Hall.
  unfold zrange. apply in_map_iff. exists (Z.to_nat (z - lo)). split.
  - lia.
  - apply in_seq. lia.
Qed.

(* ------------------------------------------------------------------ *)
(** ** The screen indicator *)

Lemma indicator_shape (g : Globals) :
  map circleAt (Chrome.drawScreenIndicator g)
  = map (fun i => Some (310 - (numDots g - 1 - i) * 15, 222))
        (Render.upto (numDots g))
  /\ List.length (filter isFilled (Chrome.drawScreenIndicator g)) = 1%nat
  /\ highlighted g
     = [Some (310 - (numDots g - 1
                     - Chrome.screenIndex (settingsMode g) (currentScreen g))
                    * 15, 222)].
Proof.
  unfold highlighted, Chrome.drawScreenIndicator, numDots.
  destruct (settingsMode g); destruct (currentScreen g);
    repeat split; reflexivity.
Qed.

(** The screen indicator draws one dot per screen of the mode, four in
    Weather mode and five in Settings mode, 15 px apart on the line y = 222
    and right-aligned so that the last one sits at x = 310.  Exactly one dot
    is filled: when the current screen is the k-th screen of its mode
    (counting from 0 in the order Hourly, Hourly2, Conditions, Daily, or
    Settings, About, Demo, Demo2, Demo3) it is the k-th dot. *)
Theorem indicator_has_one_filled_dot (g : Globals) (k : nat) :
  nth_error (screensOf (settingsMode g)) k = Some (currentScreen g) ->
  let n := Z.of_nat (List.length (screensOf (settingsMode g))) in
  List.length (Chrome.drawScreenIndicator g)
  = List.length (screensOf (settingsMode g))
  /\ map circleAt (Chrome.drawScreenIndicator g)
     = map (fun i => Some (310 - (n - 1 - i) * 15, 222)) (Render.upto n)
  /\ List.length (filter isFilled (Chrome.drawScreenIndicator g)) = 1%nat
  /\ highlighted g = [Some (310 - (n - 1 - Z.of_nat k) * 15, 222)]
  /\ nth_error (map isFilled (Chrome.drawScreenIndicator g)) k = Some true.
Proof.
  unfold highlighted, Chrome.drawScreenIndicator, screensOf.
  destruct (settingsMode g); destruct (currentScreen g);
    do 6 (try destruct k as [| k]); cbn [nth_error];
    intros H; try discriminate H; repeat split; reflexivity.
Qed.

Lemma indicator_has_one_filled_dot_witness :
  let g := run [sample 1000 true false false; sample 1300 true false false]
               booted in
  currentScreen g = SCREEN_CONDITIONS
  /\ highlighted g = [Some (295, 222)].
Proof.
  cbv zeta. split; [reflexivity |].
  refine (proj1 (proj2 (proj2 (proj2
            (indicator_has_one_filled_dot
               (run [sample 1000 true false false;
                     sample 1300 true false false] booted) 2 _))))).
  reflexivity.
Defined.

Lemma screenIndex_after_press (settings left : bool) (s : Screen) :
  screenInMode settings s = true ->
  Chrome.screenIndex settings (pressTarget settings left s)
  = (Chrome.screenIndex settings s + (if left then 1 else -1))
    mod (if settings then 5 else 4).
Proof. destruct settings, left, s; cbn; intros H; try discriminate; reflexivity. Qed.

(** An accepted Left press moves the filled dot of the screen indicator one
    place to the right, an accepted Right press one place to the left, both
    wrapping round within the mode's four or five dots. *)
Theorem indicator_follows_press (t : Tick) (g : Globals) :
  modeInvariant g ->
  selectEvent t g = None ->
  DEBOUNCE_DELAY <= elapsed (now t) (lastButtonPress g) ->
  displayOn g = true ->
  leftPressed t || rightPressed t = true ->
  numDots (fst (handleButtons t g)) = numDots g
  /\ highlighted (fst (handleButtons t g))
     = [Some (310 - (numDots g - 1
                     - (Chrome.screenIndex (settingsMode g) (currentScreen g)
                        + (if leftPressed t then 1 else -1)) mod numDots g)
                    * 15, 222)].
Proof.
  intros Hinv Hev Hdeb Hon Hpress.
  destruct (handleButtons_navigates t g Hev Hdeb Hon Hpress)
    as [_ [Hnav _]].
  unfold navState in Hnav. injection Hnav as Hc Hm Hd.
  destruct (indicator_shape (fst (handleButtons t g))) as [_ [_ Hh]].
  assert (Hn : numDots (fst (handleButtons t g)) = numDots g)
    by (unfold numDots; rewrite Hm; reflexivity).
  split; [exact Hn |].
  rewrite Hh, Hn, Hm, Hc.
  rewrite (screenIndex_after_press _ _ _ Hinv). reflexivity.
Qed.

Lemma indicator_follows_press_witness :
  highlighted booted = [Some (265, 222)]
  /\ highlighted (fst (handleButtons (sample 1000 false true false) booted))
     = [Some (310, 222)].
Proof.
  split; [reflexivity |].
  refine (proj2 (indicator_follows_press (sample 1000 false true false)
                   booted eq_refl eq_refl _ eq_refl eq_refl)).
  vm_compute. discriminate.
Defined.

(* ------------------------------------------------------------------ *)
(** ** Ordinal suffix and footer date *)

Lemma ordinal_suffix_nonpositive (day : Z) :
  day <= 0 -> HelpersText.getOrdinalSuffix day = "th"%string.
Proof.
  intros Hd. unfold HelpersText.getOrdinalSuffix.
  replace ((11 <=? day) && (day <=? 13)) with false
    by (symmetry; apply andb_false_iff; left; apply Z.leb_gt; lia).
  assert (Hr : Z.rem day 10 <= 0) by (apply Z.rem_nonpos; lia).
  destruct (Z.rem day 10) as [| p | p]; try lia; reflexivity.
Qed.

(** For every day of a month, 1 to 31, [getOrdinalSuffix] is the English
    suffix: st for 1, 21, 31, nd for 2, 22, rd for 3, 23, th otherwise, the
    teens included.  For a day that is zero or negative it is th. *)
Theorem ordinal_suffix_is_english (day : Z) :
  (1 <= day <= 31 ->
   HelpersText.getOrdinalSuffix day = englishSuffix day)
  /\ (day <= 0 -> HelpersText.getOrdinalSuffix day = "th"%string).
Proof.
  split; [| apply ordinal_suffix_nonpositive].
  intros Hd.
  apply String.eqb_eq.
  apply (zrange_forall
           (fun d => String.eqb (HelpersText.getOrdinalSuffix d)
                                (englishSuffix d)) 1 31).
  - vm_compute. reflexivity.
  - lia.
Qed.

Lemma ordinal_suffix_is_english_witness :
  HelpersText.getOrdinalSuffix 22 = "nd"%string
  /\ HelpersText.getOrdinalSuffix (-3) = "th"%string.
Proof.
  split.
  - apply (proj1 (ordinal_suffix_is_english 22)). lia.
  - apply (proj2 (ordinal_suffix_is_english (-3))). lia.
Defined.

Lemma footer_fits_everywhere :
  forallb (fun w => forallb (fun d => forallb (footerFits w d) (zrange 0 12))
                            (zrange 1 31))
          (zrange 0 7) = true.
Proof. vm_compute. reflexivity. Qed.

(** With a valid local time (weekday 0 to 6, day 1 to 31, month 0 to 11)
    [drawFooter] reads both name tables inside their bounds, its date text
    is at most 19 characters long and so fits the 32-byte buffer with its
    terminator, and the text is drawn at (10, 222).  Without a local time
    the footer draws nothing. *)
Theorem footer_date_fits (t : Chrome.tm) :
  (0 <= Chrome.tm_wday t <= 6 -> 1 <= Chrome.tm_mday t <= 31 ->
   0 <= Chrome.tm_mon t <= 11 ->
   exists d m,
     Chrome.tableRead Chrome.days (Chrome.tm_wday t) = Some d
     /\ Chrome.tableRead Chrome.months (Chrome.tm_mon t) = Some m
     /\ (String.length (Chrome.dateText d (Chrome.tm_mday t) m) <= 19)%nat
     /\ Chrome.drawFooter (Some t)
        = Some (footerCalls (Chrome.dateText d (Chrome.tm_mday t) m)))
  /\ Chrome.drawFooter None = Some [].
Proof.
  split; [| reflexivity].
  intros Hw Hd Hm.
  pose proof footer_fits_everywhere as Hall.
  pose proof (zrange_forall _ 0 7 Hall (Chrome.tm_wday t) ltac:(lia)) as H1.
  cbv beta in H1.
  pose proof (zrange_forall _ 1 31 H1 (Chrome.tm_mday t) ltac:(lia)) as H2.
  cbv beta in H2.
  pose proof (zrange_forall _ 0 12 H2 (Chrome.tm_mon t) ltac:(lia)) as H3.
  unfold footerFits in H3.
  destruct (Chrome.tableRead Chrome.days (Chrome.tm_wday t)) as [d |] eqn:Ed;
    [| discriminate].
  destruct (Chrome.tableRead Chrome.months (Chrome.tm_mon t)) as [m |] eqn:Em;
    [| discriminate].
  apply Nat.leb_le in H3.
  exists d, m. repeat split; try assumption.
  unfold Chrome.drawFooter. rewrite Ed, Em. unfold Chrome.sprintf.
  replace (String.length (Chrome.dateText d (Chrome.tm_mday t) m) <? 32)%nat
    with true by (symmetry; apply Nat.ltb_lt; lia).
  reflexivity.
Qed.

Lemma footer_date_fits_witness :
  Chrome.drawFooter
    (Some {| Chrome.tm_min := 5; Chrome.tm_hour := 17; Chrome.tm_mday := 23;
             Chrome.tm_mon := 8; Chrome.tm_wday := 3 |})
  = Some (footerCalls "Wednesday, 23rd Sep").
Proof.
  destruct (proj1 (footer_date_fits
                     {| Chrome.tm_min := 5; Chrome.tm_hour := 17;
                        Chrome.tm_mday := 23; Chrome.tm_mon := 8;
                        Chrome.tm_wday := 3 |})
                  ltac:(cbn; lia) ltac:(cbn; lia) ltac:(cbn; lia))
    as (d & m & Hd & Hm & _ & Hf).
  rewrite Hf. injection Hd as <-. injection Hm as <-. reflexivity.
Defined.

(* ------------------------------------------------------------------ *)
(** ** The header clock *)

Lemma clock_fits_everywhere :
  forallb (fun h => forallb (clockFits h) (zrange 0 60)) (zrange 0 24) = true.
Proof. vm_compute. reflexivity. Qed.

Lemma hour12_round_trip (h : Z) :
  0 <= h <= 23 ->
  1 <= Chrome.hour12 h <= 12
  /\ h = Chrome.hour12 h mod 12
         + (if String.eqb (Chrome.ampm h) "pm" then 12 else 0).
Proof.
  intros Hh.
  assert (Hc : ((1 <=? Chrome.hour12 h) && (Chrome.hour12 h <=? 12)
                && (h =? Chrome.hour12 h mod 12
                         + (if String.eqb (Chrome.ampm h) "pm"
                            then 12 else 0))) = true).
  { apply (zrange_forall
             (fun h => (1 <=? Chrome.hour12 h) && (Chrome.hour12 h <=? 12)
                       && (h =? Chrome.hour12 h mod 12
                                + (if String.eqb (Chrome.ampm h) "pm"
                                   then 12 else 0))) 0 24);
      [vm_compute; reflexivity | lia]. }
  apply andb_true_iff in Hc. destruct Hc as [Hc H3].
  apply andb_true_iff in Hc. destruct Hc as [H1 H2].
  apply Z.leb_le in H1. apply Z.leb_le in H2. apply Z.eqb_eq in H3.
  repeat split; assumption.
Qed.

(** For a local time with hour 0 to 23 and minute 0 to 59 the header writes
    the hour as a number from 1 to 12 with am or pm, from which the 24-hour
    value can be read back; both texts fit their buffers (4 and 8 bytes); the
    clock is right-aligned, its last text ending at x = 310, and the slot of
    the colon is kept when the colon is hidden, so the digits stay put while
    the colon flashes.  Without a local time the header draws nothing. *)
Theorem header_clock_layout
        (f : HelpersText.Font) (g : Globals) (unixNow : Z) (t : Chrome.tm) :
  (0 <= Chrome.tm_hour t <= 23 -> 0 <= Chrome.tm_min t <= 59 ->
   let hourStr := Chrome.decimal (Chrome.hour12 (Chrome.tm_hour t)) in
   let minStr :=
     (Chrome.decimal02 (Chrome.tm_min t)
      ++ Chrome.ampm (Chrome.tm_hour t))%string in
   let wh := HelpersText.textWidth f hourStr in
   let wc := HelpersText.textWidth f ":"%string in
   let wm := HelpersText.textWidth f minStr in
   1 <= Chrome.hour12 (Chrome.tm_hour t) <= 12
   /\ Chrome.tm_hour t
      = Chrome.hour12 (Chrome.tm_hour t) mod 12
        + (if String.eqb (Chrome.ampm (Chrome.tm_hour t)) "pm"
           then 12 else 0)
   /\ exists before colour,
        Chrome.drawHeader f g unixNow (Some t)
        = Some (before
                ++ [Chrome.Sprite
                      (Render.DrawString (Render.Lit hourStr)
                                         (310 - wm - wc - wh) 15)]
                ++ (if colonVisible g then
                      [Chrome.Sprite
                         (Render.SetTextColor
                            (Render.Fixed Render.COLOR_SUBTLE)
                            Render.COLOR_BG);
                       Chrome.Sprite
                         (Render.DrawString (Render.Lit ":")
                                            (310 - wm - wc) 15)]
                    else [])
                ++ [Chrome.Sprite (Render.SetTextColor colour Render.COLOR_BG);
                    Chrome.Sprite
                      (Render.DrawString (Render.Lit minStr) (310 - wm) 15)])
        /\ List.length before = 8%nat)
  /\ Chrome.drawHeader f g unixNow None = Some [].
Proof.
  split; [| reflexivity].
  intros Hh Hm hourStr minStr wh wc wm.
  destruct (hour12_round_trip _ Hh) as [Hrange Hback].
  split; [exact Hrange | split; [exact Hback |]].
  pose proof clock_fits_everywhere as Hall.
  pose proof (zrange_forall _ 0 24 Hall (Chrome.tm_hour t) ltac:(lia)) as H1.
  cbv beta in H1.
  pose proof (zrange_forall _ 0 60 H1 (Chrome.tm_min t) ltac:(lia)) as H2.
  unfold clockFits in H2.
  unfold Chrome.drawHeader.
  unfold Chrome.sprintf in *.
  fold hourStr in H2 |- *. fold minStr in H2 |- *.
  destruct (String.length hourStr <? 4)%nat; [| discriminate].
  destruct (String.length minStr <? 8)%nat; [| discriminate].
  exists [ Chrome.Sprite (Render.SetTextDatum Render.ML_DATUM);
           Chrome.Sprite (Render.SetTextFont 4);
           Chrome.Sprite (Render.SetTextColor
                            (Render.Fixed Render.COLOR_SUBTLE)
                            Render.COLOR_BG);
           Chrome.Sprite (Render.DrawString (Render.Lit "Caloundra, QLD")
                                            10 15);
           Chrome.FillRect 200 0 120 30 Render.COLOR_BG;
           Chrome.Sprite (Render.SetTextDatum Render.MR_DATUM);
           Chrome.Sprite
             (Render.SetTextColor
                (Render.Fixed
                   (if Helpers.isDaytime unixNow (sunrise (weather g))
                                         (sunset (weather g))
                    then Render.COLOR_DAYTIME else Render.COLOR_SUBTLE))
                Render.COLOR_BG);
           Chrome.Sprite (Render.SetTextDatum Render.ML_DATUM) ],
         (Render.Fixed
            (if Helpers.isDaytime unixNow (sunrise (weather g))
                                  (sunset (weather g))
             then Render.COLOR_DAYTIME else Render.COLOR_SUBTLE)).
  split; [| reflexivity].
  replace (310 - wm - wc - wh) with (310 - (wh + wc + wm)) by lia.
  replace (310 - wm - wc) with (310 - (wh + wc + wm) + wh) by lia.
  replace (310 - wm) with (310 - (wh + wc + wm) + wh + wc) by lia.
  reflexivity.
Qed.

Lemma header_clock_layout_witness :
  Chrome.drawHeader (fixedFont 14 26) booted 0
    (Some {| Chrome.tm_min := 5; Chrome.tm_hour := 0; Chrome.tm_mday := 23;
             Chrome.tm_mon := 8; Chrome.tm_wday := 3 |})
  <> None
  /\ 0 = Chrome.hour12 0 mod 12
         + (if String.eqb (Chrome.ampm 0) "pm" then 12 else 0).
Proof.
  destruct (proj1 (header_clock_layout (fixedFont 14 26) booted 0
                     {| Chrome.tm_min := 5; Chrome.tm_hour := 0;
                        Chrome.tm_mday := 23; Chrome.tm_mon := 8;
                        Chrome.tm_wday := 3 |})
                  ltac:(cbn; lia) ltac:(cbn; lia))
    as (_ & Hback & before & colour & Hcalls & _).
  split; [rewrite Hcalls; discriminate | exact Hback].
Defined.

(* ------------------------------------------------------------------ *)
(** ** Columns of the hourly rows *)

Lemma upto_length (n : Z) : List.length (Render.upto n) = Z.to_nat n.
Proof. unfold Render.upto. rewrite length_map, length_seq. reflexivity. Qed.

Lemma upto_in (n i : Z) : In i (Render.upto n) <-> 0 <= i < n.
Proof.
  unfold Render.upto. rewrite in_map_iff. split.
  - intros (k & <- & Hk). apply in_seq in Hk. lia.
  - intros Hi. exists (Z.to_nat i). split; [lia | apply in_seq; lia].
Qed.

Lemma flat_map_singleton {A B} (f : A -> B) (l : list A) :
  flat_map (fun a => [f a]) l = map f l.
Proof. induction l as [| a l IH]; cbn; [reflexivity | rewrite IH; reflexivity]. Qed.

Lemma iconPositions_flat_map {A} (f : A -> list Render.DrawCall) (l : list A) :
  iconPositions (flat_map f l) = flat_map (fun a => iconPositions (f a)) l.
Proof.
  unfold iconPositions. induction l as [| a l IH]; cbn; [reflexivity |].
  rewrite flat_map_app, IH. reflexivity.
Qed.

Lemma iconCodes_flat_map {A} (f : A -> list Render.DrawCall) (l : list A) :
  iconCodes (flat_map f l) = flat_map (fun a => iconCodes (f a)) l.
Proof.
  unfold iconCodes. induction l as [| a l IH]; cbn; [reflexivity |].
  rewrite flat_map_app, IH. reflexivity.
Qed.

Lemma hourly_range_icons (e : Render.Env) (startIdx count yPos : Z) :
  0 < Z.min count (hourlyCount (Render.w e) - startIdx) ->
  let n := Z.min count (hourlyCount (Render.w e) - startIdx) in
  let spacing := 304 / n in
  iconPositions (Render.drawHourlyRange e startIdx count yPos)
  = map (fun i => (8 + spacing / 2 + i * spacing, yPos + 27)) (Render.upto n)
  /\ iconCodes (Render.drawHourlyRange e startIdx count yPos)
     = map (fun i => h_weatherCode
                       (nth (Z.to_nat (startIdx + i)) (hourly (Render.w e))
                            Render.zeroHour))
           (Render.upto n).
Proof.
  intros Hpos n spacing.
  unfold Render.drawHourlyRange. cbv zeta. fold n.
  replace (n <=? 0) with false by (symmetry; apply Z.leb_gt; exact Hpos).
  change (320 - 8 * 2) with 304.
  rewrite (Z.quot_div_nonneg 304 n) by lia. fold spacing.
  assert (Hs : 0 <= spacing) by (apply Z.div_pos; lia).
  rewrite (Z.quot_div_nonneg spacing 2) by lia.
  rewrite iconPositions_flat_map, iconCodes_flat_map.
  cbn [iconPositions iconCodes flat_map iconAt iconCode app].
  rewrite (flat_map_singleton
             (fun i => (8 + spacing / 2 + i * spacing, yPos + 27))).
  rewrite (flat_map_singleton
             (fun i => h_weatherCode
                         (nth (Z.to_nat (startIdx + i)) (hourly (Render.w e))
                              Render.zeroHour))).
  split; reflexivity.
Qed.

Lemma nth_range_is_slice {A} (d : A) (l : list A) (start : nat) :
  forall n,
    (start + n <= List.length l)%nat ->
    map (fun k => nth (start + k) l d) (seq 0 n) = firstn n (skipn start l).
Proof.
  revert l. induction start as [| s IH]; intros l n Hlen.
  - cbn [skipn Nat.add]. revert l Hlen.
    induction n as [| n IHn]; intros l Hlen; [reflexivity |].
    destruct l as [| a l]; [cbn in Hlen; lia |].
    cbn [seq map firstn nth]. f_equal.
    rewrite <- seq_shift, map_map. apply IHn. cbn in Hlen. lia.
  - destruct l as [| a l]; [cbn in Hlen; lia |].
    cbn [skipn]. rewrite <- (IH l n) by (cbn in Hlen; lia).
    apply map_ext. intros k. reflexivity.
Qed.

(** A row of hourly columns ([drawHourlyRange]) shows
    [n = min(count, hourlyCount - startIdx)] entries: one icon per entry, for
    the entries [startIdx .. startIdx + n - 1] of the hourly table in order,
    so never an entry at or beyond [hourlyCount].  The columns are evenly
    spaced and each lies, with half a column on either side, between the
    8 px margins of the 320 px screen.  When [startIdx] is at or beyond
    [hourlyCount] the row draws nothing. *)
Theorem hourly_row_columns (e : Render.Env) (startIdx count yPos : Z) :
  (0 <= startIdx -> 0 < count -> startIdx < hourlyCount (Render.w e) ->
   hourlyCount (Render.w e) <= Z.of_nat (List.length (hourly (Render.w e))) ->
   let n := Z.min count (hourlyCount (Render.w e) - startIdx) in
   let spacing := 304 / n in
   iconPositions (Render.drawHourlyRange e startIdx count yPos)
   = map (fun i => (8 + spacing / 2 + i * spacing, yPos + 27)) (Render.upto n)
   /\ iconCodes (Render.drawHourlyRange e startIdx count yPos)
      = map h_weatherCode
            (firstn (Z.to_nat n)
                    (skipn (Z.to_nat startIdx) (hourly (Render.w e))))
   /\ (forall x y,
         In (x, y) (iconPositions
                      (Render.drawHourlyRange e startIdx count yPos)) ->
         8 <= x - spacing / 2 /\ x + spacing / 2 <= 312))
  /\ (hourlyCount (Render.w e) <= startIdx ->
      Render.drawHourlyRange e startIdx count yPos = []).
Proof.
  split.
  - intros Hs Hc Hlt Hlen n spacing.
    assert (Hn : 0 < n) by (unfold n; lia).
    destruct (hourly_range_icons e startIdx count yPos Hn) as [Hp Hcodes].
    fold n in Hp, Hcodes. fold spacing in Hp.
    split; [exact Hp | split].
    + rewrite Hcodes. unfold Render.upto. rewrite map_map.
      rewrite <- (nth_range_is_slice Render.zeroHour (hourly (Render.w e))
                    (Z.to_nat startIdx) (Z.to_nat n)) by (unfold n; lia).
      rewrite map_map. apply map_ext_in. intros k Hk. apply in_seq in Hk.
      f_equal. f_equal. lia.
    + intros x y Hin. rewrite Hp in Hin. apply in_map_iff in Hin.
      destruct Hin as (i & Heq & Hi).
      pose proof (f_equal fst Heq) as Hx. cbn [fst] in Hx. subst x.
      clear Heq.
      apply upto_in in Hi.
      assert (Hsp : 0 <= spacing) by (apply Z.div_pos; lia).
      assert (Hmul : n * spacing <= 304)
        by (unfold spacing; apply Z.mul_div_le; lia).
      assert (Hhalf : 0 <= spacing / 2 /\ 2 * (spacing / 2) <= spacing).
      { split; [apply Z.div_pos; lia | apply Z.mul_div_le; lia]. }
      assert (H0 : 0 <= i * spacing) by (apply Z.mul_nonneg_nonneg; lia).
      assert (H1 : i * spacing <= (n - 1) * spacing)
        by (apply Z.mul_le_mono_nonneg_r; lia).
      destruct Hhalf as [Hh0 Hh1].
      clearbody spacing. clear Hp Hcodes.
      set (half := spacing / 2) in *. clearbody half.
      split; lia.
  - intros Hge. unfold Render.drawHourlyRange. cbv zeta.
    replace (Z.min count (hourlyCount (Render.w e) - startIdx) <=? 0)
      with true by (symmetry; apply Z.leb_le; lia).
    reflexivity.
Qed.

Lemma hourly_row_columns_witness :
  iconCodes (Render.drawHourlyRange (sampleEnv 10 0 0) 8 7 130) = [808; 809]
  /\ iconPositions (Render.drawHourlyRange (sampleEnv 10 0 0) 8 7 130)
     = [(84, 157); (236, 157)].
Proof.
  destruct (proj1 (hourly_row_columns (sampleEnv 10 0 0) 8 7 130)
                  ltac:(lia) ltac:(lia) ltac:(vm_compute; reflexivity)
                  ltac:(vm_compute; discriminate))
    as (Hp & Hc & _).
  split; [rewrite Hc | rewrite Hp]; vm_compute; reflexivity.
Defined.

Lemma iconPositions_app (a b : list Render.DrawCall) :
  iconPositions (a ++ b) = iconPositions a ++ iconPositions b.
Proof. unfold iconPositions. apply flat_map_app. Qed.

(** The extended hourly screen draws two rows, hours 1 to 7 and 8 to 14 of
    the table.  With 15 or more hourly points both rows have seven columns at
    the same x positions.  With exactly 14 points, which the guard of the
    screen lets through, the second row has only six columns and they are
    spaced differently, so the two rows do not line up. *)
Theorem hourly2_rows (e : Render.Env) :
  dataValid (Render.w e) = true ->
  (15 <= hourlyCount (Render.w e) ->
   iconPositions (Render.displayHourlyForecast2 e)
   = map (fun i => (29 + 43 * i, 67)) (Render.upto 7)
     ++ map (fun i => (29 + 43 * i, 157)) (Render.upto 7))
  /\ (hourlyCount (Render.w e) = 14 ->
      iconPositions (Render.displayHourlyForecast2 e)
      = map (fun i => (29 + 43 * i, 67)) (Render.upto 7)
        ++ map (fun i => (33 + 50 * i, 157)) (Render.upto 6)).
Proof.
  intros Hvalid.
  assert (Hrows : forall n2,
            14 <= hourlyCount (Render.w e) ->
            Z.min 7 (hourlyCount (Render.w e) - 8) = n2 -> 0 < n2 ->
            iconPositions (Render.displayHourlyForecast2 e)
            = map (fun i => (8 + 304 / 7 / 2 + i * (304 / 7), 40 + 27))
                  (Render.upto 7)
              ++ map (fun i => (8 + 304 / n2 / 2 + i * (304 / n2), 130 + 27))
                     (Render.upto n2)).
  { intros n2 Hc Hn2 Hpos.
    unfold Render.displayHourlyForecast2. rewrite Hvalid.
    replace (hourlyCount (Render.w e) <? 14) with false
      by (symmetry; apply Z.ltb_ge; exact Hc).
    cbn [negb orb].
    change (Render.FillSprite Render.COLOR_BG :: ?l)
      with ([Render.FillSprite Render.COLOR_BG] ++ l).
    rewrite !iconPositions_app.
    assert (H1 : Z.min 7 (hourlyCount (Render.w e) - 1) = 7) by lia.
    destruct (hourly_range_icons e 1 7 40) as [Hp1 _]; [lia |].
    destruct (hourly_range_icons e 8 7 130) as [Hp2 _]; [lia |].
    rewrite Hp1, Hp2, H1, Hn2.
    unfold Render.finalPush.
    destruct (skipPush (Render.globals e)); cbn [iconPositions flat_map
      iconAt app]; rewrite app_nil_r; reflexivity. }
  split; intros Hc.
  - rewrite (Hrows 7) by lia. reflexivity.
  - rewrite (Hrows 6) by lia. reflexivity.
Qed.

Lemma hourly2_rows_witness :
  iconPositions (Render.displayHourlyForecast2 (sampleEnv 14 1 0))
  = [(29, 67); (72, 67); (115, 67); (158, 67); (201, 67); (244, 67);
     (287, 67);
     (33, 157); (83, 157); (133, 157); (183, 157); (233, 157); (283, 157)].
Proof.
  rewrite (proj2 (hourly2_rows (sampleEnv 14 1 0) eq_refl) eq_refl).
  reflexivity.
Defined.

(* ------------------------------------------------------------------ *)
(** ** The daily grid *)

Lemma firstn_seq_prefix (a b s : nat) :
  (a <= b)%nat -> firstn a (seq s b) = seq s a.
Proof.
  revert b s. induction a as [| a IH]; intros b s Hle; [reflexivity |].
  destruct b as [| b]; [lia |].
  cbn [seq firstn]. f_equal. apply IH. lia.
Qed.

Lemma upto_prefix (n m : Z) :
  n <= m -> Render.upto n = firstn (Z.to_nat n) (Render.upto m).
Proof.
  intros Hle. unfold Render.upto.
  rewrite firstn_map. f_equal.
  symmetry. apply firstn_seq_prefix. lia.
Qed.

(** The daily screen draws [min(8, dailyCount)] cells, never more than
    eight whatever [dailyCount] says, one icon per cell on the fixed grid of
    four columns and two rows, filled row by row; the table is therefore
    only read at indices 0 to 7. *)
Theorem daily_grid (e : Render.Env) :
  dataValid (Render.w e) = true ->
  dailyCount (Render.w e) <> 0 ->
  iconPositions (Render.displayDailyForecast e)
  = firstn (Z.to_nat (Z.min 8 (dailyCount (Render.w e)))) dailyCells
  /\ iconCodes (Render.displayDailyForecast e)
     = map (fun i => d_weatherCode
                       (nth (Z.to_nat i) (daily (Render.w e)) Render.zeroDay))
           (Render.upto (Z.min 8 (dailyCount (Render.w e))))
  /\ (List.length (iconPositions (Render.displayDailyForecast e)) <= 8)%nat.
Proof.
  intros Hvalid Hcount.
  assert (Hpos : iconPositions (Render.displayDailyForecast e)
                 = firstn (Z.to_nat (Z.min 8 (dailyCount (Render.w e))))
                          dailyCells).
  { unfold Render.displayDailyForecast. rewrite Hvalid.
    replace (dailyCount (Render.w e) =? 0) with false
      by (symmetry; apply Z.eqb_neq; exact Hcount).
    cbn [negb orb]. cbv zeta.
    change (Render.FillSprite Render.COLOR_BG :: ?l)
      with ([Render.FillSprite Render.COLOR_BG] ++ l).
    rewrite !iconPositions_app, iconPositions_flat_map.
    cbn [iconPositions flat_map iconAt app].
    rewrite (flat_map_singleton
               (fun i => (Z.rem i 4 * 80 + Z.quot 80 2,
                          38 + Z.quot i 4 * 80 + 30))).
    rewrite (upto_prefix (Z.min 8 (dailyCount (Render.w e))) 8) by lia.
    rewrite <- firstn_map.
    unfold Render.finalPush.
    destruct (skipPush (Render.globals e)); cbn [iconPositions flat_map
      iconAt app]; rewrite app_nil_r; reflexivity. }
  split; [exact Hpos | split].
  - unfold Render.displayDailyForecast. rewrite Hvalid.
    replace (dailyCount (Render.w e) =? 0) with false
      by (symmetry; apply Z.eqb_neq; exact Hcount).
    cbn [negb orb]. cbv zeta.
    change (Render.FillSprite Render.COLOR_BG :: ?l)
      with ([Render.FillSprite Render.COLOR_BG] ++ l).
    unfold iconCodes. rewrite !flat_map_app. fold iconCodes.
    fold (iconCodes (flat_map
      (fun i : Z =>
       [Render.SetTextDatum Render.MC_DATUM; Render.SetTextFont 2;
        Render.SetTextColor (Render.Fixed Render.COLOR_SUBTLE)
          Render.COLOR_BG;
        Render.DrawString
          (Render.Lit
             (if i =? 0 then "Today"%string
              else d_dayName
                     (nth (Z.to_nat i) (daily (Render.w e)) Render.zeroDay)))
          (Z.rem i 4 * 80 + Z.quot 80 2) (38 + Z.quot i 4 * 80);
        Render.DrawWeatherIcon
          (d_weatherCode
             (nth (Z.to_nat i) (daily (Render.w e)) Render.zeroDay))
          (Z.rem i 4 * 80 + Z.quot 80 2) (38 + Z.quot i 4 * 80 + 30) 35 false;
        Render.SetTextFont 2; Render.SetTextDatum Render.MC_DATUM;
        Render.SetTextColor
          (Render.TempColor
             (d_tempMax
                (nth (Z.to_nat i) (daily (Render.w e)) Render.zeroDay)))
          Render.COLOR_BG;
        Render.DrawString
          (Render.Cat
             (Render.Cat
                (Render.TruncText
                   (d_tempMax
                      (nth (Z.to_nat i) (daily (Render.w e))
                           Render.zeroDay)))
                (Render.Lit " / "))
             (Render.TruncText
                (d_tempMin
                   (nth (Z.to_nat i) (daily (Render.w e)) Render.zeroDay))))
          (Z.rem i 4 * 80 + Z.quot 80 2) (38 + Z.quot i 4 * 80 + 58)])
      (Render.upto (Z.min 8 (dailyCount (Render.w e)))))).
    rewrite iconCodes_flat_map.
    cbn [iconCodes flat_map iconCode app].
    rewrite (flat_map_singleton
               (fun i => d_weatherCode
                           (nth (Z.to_nat i) (daily (Render.w e))
                                Render.zeroDay))).
    unfold Render.finalPush.
    destruct (skipPush (Render.globals e)); cbn [flat_map iconCode app];
      rewrite app_nil_r; reflexivity.
  - rewrite Hpos, length_firstn. cbn [dailyCells List.length]. lia.
Qed.

Lemma daily_grid_witness :
  iconPositions (Render.displayDailyForecast (sampleEnv 14 3 0))
  = [(40, 68); (120, 68); (200, 68)]
  /\ iconCodes (Render.displayDailyForecast (sampleEnv 14 3 0))
     = [800; 801; 802].
Proof.
  destruct (daily_grid (sampleEnv 14 3 0) eq_refl
                       ltac:(vm_compute; discriminate)) as (Hp & Hc & _).
  split; [rewrite Hp | rewrite Hc]; vm_compute; reflexivity.
Defined.

(* ------------------------------------------------------------------ *)
(** ** The sunrise / sunset line of the first screen *)

(** The first screen labels its last line with the event that is nearest in
    time, not the next one: with sunrise before sunset, the line reads
    Sunrise while the clock is before the midpoint of the two (also after the
    sun has risen) and Sunset from the midpoint on (also after the sun has
    set); at the exact midpoint it reads Sunset.  Label and time are drawn on
    the line at y = 182. *)
Theorem sun_label_is_nearest_event (e : Render.Env) :
  dataValid (Render.w e) = true ->
  hourlyCount (Render.w e) <> 0 ->
  0 <= Render.unixNow e < 2 ^ 31 ->
  0 <= sunrise (Render.w e) < sunset (Render.w e) ->
  sunset (Render.w e) < 2 ^ 31 ->
  let early := 2 * Render.unixNow e <? sunrise (Render.w e) + sunset (Render.w e) in
  In (Render.DrawString
        (Render.Lit (if early then "Sunrise"%string else "Sunset"%string))
        10 182)
     (Render.displayHourlyForecast e)
  /\ In (Render.DrawString
           (Render.WeatherTime
              (if early then sunrise (Render.w e) else sunset (Render.w e)))
           310 182)
        (Render.displayHourlyForecast e).
Proof.
  intros Hvalid Hcount Hnow Hsun Hset early.
  unfold Render.displayHourlyForecast. rewrite Hvalid.
  replace (hourlyCount (Render.w e) =? 0) with false
    by (symmetry; apply Z.eqb_neq; exact Hcount).
  cbn [negb orb]. cbv zeta.
  assert (Hcmp : (Z.abs (Render.unixNow e - sunrise (Render.w e))
                  <? Z.abs (Render.unixNow e - sunset (Render.w e)))
                 = early).
  { unfold early.
    destruct (Z.ltb_spec (2 * Render.unixNow e)
                         (sunrise (Render.w e) + sunset (Render.w e)));
      [apply Z.ltb_lt | apply Z.ltb_ge]; lia. }
  rewrite Hcmp.
  split; right; apply in_or_app; right; apply in_or_app; right;
    apply in_or_app; left; apply in_or_app; right; cbn [In];
    change (150 + 32) with 182; tauto.
Qed.

Lemma sun_label_is_nearest_event_witness :
  In (Render.DrawString (Render.Lit "Sunrise") 10 182)
     (Render.displayHourlyForecast (sampleEnv 1 1 1000030000)).
Proof.
  refine (proj1 (sun_label_is_nearest_event (sampleEnv 1 1 1000030000)
                   eq_refl _ _ _ _)).
  - vm_compute; discriminate.
  - vm_compute. split; [discriminate | reflexivity].
  - vm_compute. split; [discriminate | reflexivity].
  - vm_compute. reflexivity.
Defined.

(* ------------------------------------------------------------------ *)
(** ** Word wrap *)

Lemma append_assoc (a b c : string) :
  ((a ++ b) ++ c = a ++ (b ++ c))%string.
Proof. induction a as [| ch a IH]; cbn; [reflexivity | now rewrite IH]. Qed.

Lemma append_nil_r (a : string) : (a ++ EmptyString)%string = a.
Proof. induction a as [| ch a IH]; cbn; [reflexivity | now rewrite IH]. Qed.

Lemma wrapFrom_joined (f : HelpersText.Font) (x maxWidth : Z) (text : string) :
  forall currentY word line,
    joined (map drawnText
                (HelpersText.wrapFrom f x maxWidth text currentY word line))
    = (line ++ word ++ text)%string.
Proof.
  induction text as [| c rest IH]; intros currentY word line.
  - cbn. rewrite !append_nil_r. reflexivity.
  - cbn [HelpersText.wrapFrom].
    destruct (Ascii.eqb_spec c " "%char) as [-> | Hc].
    + destruct (maxWidth <? HelpersText.textWidth f (line ++ word)%string).
      * cbn [map drawnText joined fold_right]. fold (joined
          (map drawnText
               (HelpersText.wrapFrom f x maxWidth rest
                  (currentY + HelpersText.fontHeight f) EmptyString
                  (word ++ " ")%string))).
        rewrite IH. cbn. rewrite !append_assoc. reflexivity.
      * rewrite IH. cbn. rewrite !append_assoc. reflexivity.
    + rewrite IH. rewrite !append_assoc. reflexivity.
Qed.

Lemma wrapFrom_lines (f : HelpersText.Font) (x maxWidth : Z) (text : string) :
  forall currentY word line,
    linePositions (HelpersText.wrapFrom f x maxWidth text currentY word line)
    = map (fun k => Some (x, currentY + k * HelpersText.fontHeight f))
          (Render.upto
             (Z.of_nat
                (List.length
                   (HelpersText.wrapFrom f x maxWidth text currentY
                                         word line))))
    /\ (1 <= List.length
               (HelpersText.wrapFrom f x maxWidth text currentY word line)
        <= 1 + spaces text)%nat.
Proof.
  induction text as [| c rest IH]; intros currentY word line.
  - cbn [HelpersText.wrapFrom List.length spaces linePositions map drawnAt].
    split; [| lia].
    change (Render.upto (Z.of_nat 1)) with [0]. cbn [map].
    do 3 f_equal. lia.
  - cbn [HelpersText.wrapFrom spaces].
    destruct (Ascii.eqb c " "%char).
    + destruct (maxWidth <? HelpersText.textWidth f (line ++ word)%string).
      * destruct (IH (currentY + HelpersText.fontHeight f) EmptyString
                     (word ++ " ")%string) as [Hpos Hlen].
        split; [| cbn [List.length]; lia].
        unfold linePositions in *. cbn [map drawnAt List.length].
        rewrite Hpos. unfold Render.upto.
        rewrite !Nat2Z.id. cbn [seq map].
        f_equal; [do 2 f_equal; lia |].
        rewrite <- seq_shift, !map_map.
        apply map_ext. intros k. do 2 f_equal. lia.
      * destruct (IH currentY EmptyString
                     (line ++ (word ++ " "))%string) as [Hpos Hlen].
        split; [exact Hpos | lia].
    + destruct (IH currentY (word ++ String c EmptyString)%string line)
        as [Hpos Hlen].
      split; [exact Hpos | lia].
Qed.

(** [drawWrappedString] loses no character and adds none: the lines it
    draws, one after the other, are the text (each line but the last ends
    with the space it was broken at).  It draws at least one line and at most
    one more than the text has spaces, all at the same x, the k-th a whole
    number k of font heights below y. *)
Theorem wrapped_lines_spell_the_text
        (f : HelpersText.Font) (text : string) (x y maxWidth : Z) :
  let cs := HelpersText.drawWrappedString f text x y maxWidth in
  joined (map drawnText cs) = text
  /\ linePositions cs
     = map (fun k => Some (x, y + k * HelpersText.fontHeight f))
           (Render.upto (Z.of_nat (List.length cs)))
  /\ (1 <= List.length cs <= 1 + spaces text)%nat.
Proof.
  cbv zeta. unfold HelpersText.drawWrappedString. split.
  - rewrite wrapFrom_joined. reflexivity.
  - apply wrapFrom_lines.
Qed.

(* ------------------------------------------------------------------ *)
(** ** UV bands *)

(** The label and the colour of the UV index are computed by two separate
    chains of comparisons; they always name the same one of the five bands.
    A reading that is not a number fails every comparison and is shown as
    Extreme, in magenta. *)
Theorem uv_label_matches_colour (u : float) :
  In (HelpersText.getUVDescription u, HelpersText.getUVColor u) uvBands
  /\ (HelpersText.decode u = S754_nan ->
      HelpersText.getUVDescription u = "Extreme"%string
      /\ HelpersText.getUVColor u = HelpersText.TFT_MAGENTA).
Proof.
  split.
  - unfold HelpersText.getUVDescription, HelpersText.getUVColor, uvBands.
    destruct (HelpersText.ltInt u 3); [cbn [In]; tauto |].
    destruct (HelpersText.ltInt u 6); [cbn [In]; tauto |].
    destruct (HelpersText.ltInt u 8); [cbn [In]; tauto |].
    destruct (HelpersText.ltInt u 11); cbn [In]; tauto.
  - intros Hnan.
    assert (Hlt : forall k, HelpersText.ltInt u k = false).
    { intros k. unfold HelpersText.ltInt. rewrite Hnan. reflexivity. }
    unfold HelpersText.getUVDescription, HelpersText.getUVColor.
    rewrite !Hlt. split; reflexivity.
Qed.

Lemma uv_label_matches_colour_witness :
  HelpersText.getUVDescription quietNaN = "Extreme"%string
  /\ HelpersText.getUVColor quietNaN = HelpersText.TFT_MAGENTA.
Proof.
  apply (proj2 (uv_label_matches_colour quietNaN)).
  vm_compute. reflexivity.
Defined.

(* ------------------------------------------------------------------ *)
(** ** connectToWiFi *)

Lemma blockedFor_app (a b : list WiFi.Call) :
  blockedFor (a ++ b) = blockedFor a + blockedFor b.
Proof.
  unfold blockedFor. induction a as [| c a IH]; cbn [app map fold_right].
  - lia.
  - rewrite IH. lia.
Qed.

Lemma blockedFor_waits (n : nat) :
  blockedFor (repeat (WiFi.Wait 500) n) = 500 * Z.of_nat n.
Proof.
  unfold blockedFor. induction n as [| n IH]; cbn [repeat map fold_right waitOf].
  - lia.
  - rewrite IH. lia.
Qed.

Lemma existsb_waits (p : WiFi.Call -> bool) (n : nat) :
  p (WiFi.Wait 500) = false -> existsb p (repeat (WiFi.Wait 500) n) = false.
Proof.
  intros Hp. induction n as [| n IH]; cbn [repeat existsb];
    [reflexivity | now rewrite Hp, IH].
Qed.

Lemma waitLoop_spec (status : nat -> bool) (left : nat) :
  forall read k,
    (k <= left)%nat ->
    (forall j, (j < k)%nat -> status (read + j)%nat = false) ->
    (k < left -> status (read + k)%nat = true)%nat ->
    WiFi.waitLoop status read left = (k, S (read + k)).
Proof.
  induction left as [| left IH]; intros read k Hle Hdown Hup.
  - assert (k = O) by lia. subst k. cbn. now rewrite Nat.add_0_r.
  - cbn [WiFi.waitLoop]. destruct k as [| k].
    + rewrite Nat.add_0_r in *. rewrite Hup by lia. reflexivity.
    + rewrite <- (Nat.add_0_r read) at 1. rewrite Hdown by lia.
      rewrite (IH (S read) k).
      * f_equal. f_equal. lia.
      * lia.
      * intros j Hj. replace (S read + j)%nat with (read + S j)%nat by lia.
        apply Hdown. lia.
      * intros Hk. replace (S read + k)%nat with (read + S k)%nat by lia.
        apply Hup. lia.
Qed.

(** [connectToWiFi] blocks for 500 ms per status read that finds the
    connection down, up to 30 of them: when the connection is first seen on
    read number k, it has waited k * 500 ms, and 15 s at most.  The status is
    then read once more, and it is that read that decides between the
    success branch, with the NTP setup, and the failure message.  Nothing the
    function draws is pushed to the display. *)
Theorem wifi_wait_is_bounded (status : nat -> bool) (ip : string) (k : nat) :
  (k <= 30)%nat ->
  (forall j, (j < k)%nat -> status j = false) ->
  (k < 30 -> status k = true)%nat ->
  blockedFor (WiFi.connectToWiFi status ip) = 500 * Z.of_nat k
  /\ blockedFor (WiFi.connectToWiFi status ip) <= 15000
  /\ existsb isConfigTime (WiFi.connectToWiFi status ip) = status (S k)
  /\ existsb isSpritePush (WiFi.connectToWiFi status ip) = false.
Proof.
  intros Hle Hdown Hup.
  unfold WiFi.connectToWiFi. cbv zeta.
  rewrite (waitLoop_spec status 30 0 k Hle Hdown Hup).
  cbn [Nat.add].
  assert (Hb : blockedFor
                 ([WiFi.Draw (Render.TftFillScreen Render.COLOR_BG);
                   WiFi.Draw (Render.SetTextDatum Render.TL_DATUM);
                   WiFi.Draw
                     (Render.SetTextColor (Render.Fixed Render.COLOR_SUBTLE)
                                          Render.COLOR_BG);
                   WiFi.Draw (Render.SetTextFont 4);
                   WiFi.Draw
                     (Render.DrawString (Render.Lit "Weather Reporter") 10 35);
                   WiFi.Draw
                     (Render.DrawString (Render.Lit "Connecting to WiFi...")
                                        10 (35 + 35));
                   WiFi.Mode; WiFi.Begin]
                  ++ repeat (WiFi.Wait 500) k
                  ++ (if status (S k)
                      then
                        [WiFi.Draw
                           (Render.DrawString (Render.Lit "WiFi Connected!")
                                              10 (35 + 35 + 24));
                         WiFi.Draw
                           (Render.DrawString
                              (Render.Cat (Render.Lit "IP: ") (Render.Lit ip))
                              10 (35 + 35 + 24 + 24));
                         WiFi.ConfigTime (10 * 3600);
                         WiFi.Draw
                           (Render.DrawString (Render.Lit "Syncing time...")
                                              10 (35 + 35 + 24 + 24 + 24))]
                      else
                        [WiFi.Draw
                           (Render.DrawString
                              (Render.Lit "WiFi Connection Failed!")
                              10 (35 + 35 + 24))]))
               = 500 * Z.of_nat k).
  { rewrite !blockedFor_app, blockedFor_waits.
    destruct (status (S k)); cbn; lia. }
  split; [exact Hb | split; [rewrite Hb; lia | split]].
  - rewrite !existsb_app, existsb_waits by reflexivity.
    destruct (status (S k)); reflexivity.
  - rewrite !existsb_app, existsb_waits by reflexivity.
    destruct (status (S k)); reflexivity.
Qed.

Lemma wifi_wait_is_bounded_witness :
  blockedFor (WiFi.connectToWiFi (connectsAt 3) "10.0.0.2") = 1500
  /\ existsb isConfigTime (WiFi.connectToWiFi (connectsAt 3) "10.0.0.2")
     = true.
Proof.
  assert (Hdown : forall j, (j < 3)%nat -> connectsAt 3 j = false).
  { intros j Hj. unfold connectsAt. apply Nat.leb_gt. exact Hj. }
  destruct (wifi_wait_is_bounded (connectsAt 3) "10.0.0.2" 3
              ltac:(lia) Hdown (fun _ => eq_refl)) as (Hb & _ & Hc & _).
  split; [exact Hb | exact Hc].
Defined.

(* ------------------------------------------------------------------ *)
(** ** degToCompass outside the dial *)

(** The sixteen sectors of [degToCompass] are 22 degrees wide, not 22.5:
    sector k covers 22k - 11 to 22k + 10.  Sixteen of them cover 352
    degrees, so the readings from 341 on fall into a seventeenth sector,
    which wraps to N: on the dial N covers 341 to 360 and 0 to 10. *)
Theorem compass_sectors_are_22_wide (deg k : Z) :
  0 <= k <= 16 ->
  22 * k - 11 <= deg <= 22 * k + 10 ->
  Helpers.degToCompass deg = nth_error Helpers.dirs (Z.to_nat (k mod 16)).
Proof.
  intros Hk Hdeg.
  assert (Hq : Z.quot (deg + 11) 22 = k).
  { rewrite Z.quot_div_nonneg by lia.
    symmetry. apply (Z.div_unique (deg + 11) 22 k (deg + 11 - 22 * k)); lia. }
  unfold Helpers.degToCompass, Helpers.compassIndex. cbv zeta.
  rewrite Hq, Z.rem_mod_nonneg by lia.
  pose proof (Z.mod_pos_bound k 16 ltac:(lia)) as Hm.
  replace ((0 <=? k mod 16) && (k mod 16 <? 16)) with true; [reflexivity |].
  symmetry. apply andb_true_iff. split; [apply Z.leb_le | apply Z.ltb_lt]; lia.
Qed.

Lemma compass_sectors_are_22_wide_witness :
  Helpers.degToCompass 345 = Some "N"%string.
Proof.
  apply (compass_sectors_are_22_wide 345 16); lia.
Defined.

Lemma compass_negative_range :
  forallb (fun deg => match Helpers.degToCompass deg with
                      | None => true
                      | Some _ => false
                      end) (zrange (-362) 330) = true
  /\ forallb (fun deg => match Helpers.degToCompass deg with
                         | Some "N"%string => true
                         | _ => false
                         end) (zrange (-32) 32) = true.
Proof. split; vm_compute; reflexivity. Qed.

(** [degToCompass] does not check its argument.  C's division and remainder
    truncate towards zero: a bearing from -32 to -1 still reads entry 0 (N),
    but from -33 down to -362 the index is negative and the read falls
    before the start of the table. *)
Theorem compass_negative_bearing (deg : Z) :
  (-32 <= deg < 0 -> Helpers.degToCompass deg = Some "N"%string)
  /\ (-362 <= deg <= -33 ->
      Helpers.compassIndex deg < 0 /\ Helpers.degToCompass deg = None).
Proof.
  destruct compass_negative_range as [Hout Hin].
  split; intros Hdeg.
  - pose proof (zrange_forall _ _ _ Hin deg ltac:(lia)) as H.
    cbv beta in H.
    destruct (Helpers.degToCompass deg) as [s |]; [| discriminate].
    destruct s as [| c s]; [discriminate |].
    destruct c as [b0 b1 b2 b3 b4 b5 b6 b7].
    destruct b0, b1, b2, b3, b4, b5, b6, b7; try discriminate.
    destruct s; [reflexivity | discriminate].
  - pose proof (zrange_forall _ _ _ Hout deg ltac:(lia)) as H.
    cbv beta in H.
    split.
    + unfold Helpers.compassIndex.
      assert (Hq : -15 <= Z.quot (deg + 11) 22 <= -1).
      { replace (deg + 11) with (- (- (deg + 11))) by lia.
        rewrite Z.quot_opp_l by lia.
        rewrite Z.quot_div_nonneg by lia.
        assert (1 <= (- (deg + 11)) / 22 <= 15); [| lia].
        split.
        - apply Z.div_le_lower_bound; lia.
        - assert ((- (deg + 11)) / 22 < 16); [| lia].
          apply Z.div_lt_upper_bound; lia. }
      replace (Z.quot (deg + 11) 22)
        with (- (- Z.quot (deg + 11) 22)) by lia.
      rewrite Z.rem_opp_l by lia.
      rewrite Z.rem_small by lia. lia.
    + destruct (Helpers.degToCompass deg); [discriminate | reflexivity].
Qed.

Lemma compass_negative_bearing_witness :
  Helpers.compassIndex (-45) < 0 /\ Helpers.degToCompass (-45) = None.
Proof.
  apply (proj2 (compass_negative_bearing (-45))). lia.
Defined.
